(** * TinyG2 stepper core: a shallow embedding of [stepper.cpp]

    The stepper module of the TinyG2 motion controller: the DDA and dwell
    timer interrupts, the loader ([_load_move]), the segment preparation
    ([st_prep_line], [st_prep_dwell], [st_prep_null]) and [st_enable] /
    [st_disable].

    The two singletons [st] and [sps] and the calls made on the pins and
    timers are threaded through every function as one explicit [state]. *)

From Stdlib Require Import ZArith List Bool Lia.
From Stdlib Require Import Floats.SpecFloat.
Import ListNotations.

Local Open Scope Z_scope.

(** ** Machine integers

    [int32_t], [uint32_t] and [int8_t] are values of [Z]; every operation
    that may leave the range is followed by the wrap-around written here. *)

Definition uint32 (z : Z) : Z := z mod 2 ^ 32.

Definition int32 (z : Z) : Z := (z + 2 ^ 31) mod 2 ^ 32 - 2 ^ 31.

Definition int8 (z : Z) : Z := (z + 2 ^ 7) mod 2 ^ 8 - 2 ^ 7.

(** ** Single-precision floats

    A C [float] is a [spec_float] of the binary32 format (24 bits of
    mantissa, infinities at exponent 128); the arithmetic is the Standard
    Library's correctly rounded one at that format. *)

Definition prec32 : Z := 24.
Definition emax32 : Z := 128.

Definition f32_mul : spec_float -> spec_float -> spec_float := SFmul prec32 emax32.
Definition f32_div : spec_float -> spec_float -> spec_float := SFdiv prec32 emax32.

(** Conversion of an integer operand to [float] (round to nearest even), as
    the usual arithmetic conversions do in [float * int] and [float / int]. *)
Definition f32_of_Z (z : Z) : spec_float := binary_normalize prec32 emax32 z 0 false.

(** [isfinite] *)
Definition isfinite (x : spec_float) : bool :=
  match x with
  | S754_zero _ | S754_finite _ _ _ => true
  | S754_infinity _ | S754_nan => false
  end.

(** [fabs] *)
Definition fabs (x : spec_float) : spec_float := SFabs x.

(** The comparison of two floating-point values whatever their formats:
    two finite values [m1 * 2^e1] and [m2 * 2^e2] are brought to the smaller
    exponent and compared as integers, so the comparison is exact on the
    values. This is C's [x < c] for a [float] [x] and a constant [c] that is
    a [float] or a [double]: the float is converted to the type of the
    constant first, which changes no value. *)
Definition SFcompare_exact (x y : spec_float) : option comparison :=
  match x, y with
  | S754_finite s1 m1 e1, S754_finite s2 m2 e2 =>
      let e := Z.min e1 e2 in
      Some (Z.compare (cond_Zopp s1 (Z.shiftl (Z.pos m1) (e1 - e)))
                      (cond_Zopp s2 (Z.shiftl (Z.pos m2) (e2 - e))))
  | _, _ => SFcompare x y
  end.

(** [x < y] *)
Definition float_ltb (x y : spec_float) : bool :=
  match SFcompare_exact x y with Some Lt => true | _ => false end.

(** [x <= y] *)
Definition float_leb (x y : spec_float) : bool :=
  match SFcompare_exact x y with Some (Lt | Eq) => true | _ => false end.


(** A finite value [m * 2^e] whose significand [m] is odd and has more
    than 24 bits: no C [float] has this value. The [double] literal
    [0.00001] is one. *)
Definition wider_than_float (x : spec_float) : bool :=
  match x with
  | S754_finite _ m _ => Z.odd (Z.pos m) && (2 ^ prec32 <=? Z.pos m)
  | _ => false
  end.

(** The integral part of a float (its fractional part discarded); none for
    an infinity or a NaN. *)
Definition SF2Z_trunc (x : spec_float) : option Z :=
  match x with
  | S754_zero _ => Some 0
  | S754_finite s m e =>
      Some (cond_Zopp s
              (match e with
               | Zneg p => Z.shiftr (Zpos m) (Zpos p)
               | _ => Z.shiftl (Zpos m) e
               end))
  | S754_infinity _ | S754_nan => None
  end.

(** The cast [(uint32_t)x] of a float. C defines it when the integral part
    of [x] fits [uint32_t]; otherwise the result is whatever the target
    gives, here the value [oor x] (reduced to 32 bits) of a function the
    model is parametric in. *)
Definition float_to_uint32 (oor : spec_float -> Z) (x : spec_float) : Z :=
  match SF2Z_trunc x with
  | Some z => if (0 <=? z) && (z <? 2 ^ 32) then z else uint32 (oor x)
  | None => uint32 (oor x)
  end.

(** ** Motors, pins and timers *)

Inductive motor : Type :=
  | MOTOR_1 | MOTOR_2 | MOTOR_3 | MOTOR_4 | MOTOR_5 | MOTOR_6.

(** [MOTORS] in index order, as the loop of [st_prep_line] visits them. *)
Definition MOTORS : list motor :=
  [MOTOR_1; MOTOR_2; MOTOR_3; MOTOR_4; MOTOR_5; MOTOR_6].

Definition motor_eqb (a b : motor) : bool :=
  match a, b with
  | MOTOR_1, MOTOR_1 | MOTOR_2, MOTOR_2 | MOTOR_3, MOTOR_3
  | MOTOR_4, MOTOR_4 | MOTOR_5, MOTOR_5 | MOTOR_6, MOTOR_6 => true
  | _, _ => false
  end.

(** The output pins the module drives: [motor_N.step], [motor_N.dir],
    [motor_N.enable], the common [enable] and [proof_of_timer]. *)
Inductive pin : Type :=
  | step (mt : motor)
  | dir (mt : motor)
  | enable_of (mt : motor)
  | enable
  | proof_of_timer.

Inductive timer : Type :=
  | dda_timer | dwell_timer | load_timer | exec_timer.

(** One call on a pin or a timer. *)
Inductive event : Type :=
  | pin_set (p : pin)
  | pin_clear (p : pin)
  | timer_start (t : timer)
  | timer_stop (t : timer)
  | timer_setInterruptPending (t : timer)
  | timer_getInterruptCause (t : timer).

Definition pin_eqb (a b : pin) : bool :=
  match a, b with
  | step x, step y | dir x, dir y | enable_of x, enable_of y => motor_eqb x y
  | enable, enable | proof_of_timer, proof_of_timer => true
  | _, _ => false
  end.

(** Is this event a rising edge of [motor_N.step], that is a step pulse? *)
Definition is_pulse (mt : motor) (e : event) : bool :=
  match e with
  | pin_set (step x) => motor_eqb x mt
  | _ => false
  end.

(** Is this event a call on the pin [p]? *)
Definition on_pin (p : pin) (e : event) : bool :=
  match e with
  | pin_set q | pin_clear q => pin_eqb q p
  | _ => false
  end.

(** ** The structures *)

Inductive prepBufferState : Type :=
  | PREP_BUFFER_OWNED_BY_LOADER
  | PREP_BUFFER_OWNED_BY_EXEC.

(** Modelled from the spec: the move types of [planner.h], which is not part
    of the sources; the stepper module tells three of them apart. *)
Inductive moveType : Type :=
  | MOVE_TYPE_NULL
  | MOVE_TYPE_ALINE
  | MOVE_TYPE_DWELL.

(** Modelled from the spec: the status codes of [tinyg2.h] the stepper
    module returns or tests. *)
Inductive stat_t : Type :=
  | STAT_OK
  | STAT_NOOP
  | STAT_INTERNAL_ERROR
  | STAT_ZERO_LENGTH_MOVE.

Module stRunMotor.
Record t : Type := mk {
  phase_increment : Z;        (* int32_t *)
  phase_accumulator : Z;      (* int32_t *)
  step_count_diagnostic : Z   (* uint32_t *)
}.
End stRunMotor.

Module stRunSingleton.
Record t : Type := mk {
  magic_start : Z;              (* uint16_t *)
  timer_ticks_downcount : Z;    (* int32_t *)
  timer_ticks_X_substeps : Z;   (* int32_t *)
  m : motor -> stRunMotor.t
}.
End stRunSingleton.

Module stPrepMotor.
Record t : Type := mk {
  phase_increment : Z;   (* uint32_t *)
  dir : Z                (* int8_t *)
}.
End stPrepMotor.

Module stPrepSingleton.
Record t : Type := mk {
  magic_start : Z;              (* uint16_t *)
  move_type : moveType;
  exec_state : prepBufferState;
  counter_reset_flag : bool;    (* uint8_t, only ever true or false *)
  prev_ticks : Z;               (* uint32_t *)
  timer_ticks : Z;              (* uint32_t *)
  timer_ticks_X_substeps : Z;   (* uint32_t *)
  m : motor -> stPrepMotor.t
}.
End stPrepSingleton.

(** The whole of the module's state: the runtime singleton [st], the prep
    singleton [sps], and the calls made so far on pins and timers, the most
    recent first. *)
Record state : Type := mkState {
  st : stRunSingleton.t;
  sps : stPrepSingleton.t;
  trace : list event
}.

(** Modelled from the spec: the compile-time constants and the read-only
    configuration the module takes from headers that are not part of the
    sources ([stepper.h], [util.h], [hardware.h], [config.h]). *)
Record config : Type := mkConfig {
  DDA_SUBSTEPS : Z;                  (* integer substep factor *)
  FREQUENCY_DDA : Z;                 (* Hz, an integer constant *)
  FREQUENCY_DWELL : Z;               (* Hz, an integer constant *)
  COUNTER_RESET_FACTOR : Z;          (* integer constant *)
  EPSILON : spec_float;              (* a float or a double constant *)
  MAGICNUM : Z;
  polarity : motor -> Z;             (* cfg.m[i].polarity *)
  power_mode : motor -> Z;           (* cfg.m[i].power_mode *)
  step_isNull : motor -> bool;       (* motor_N.step.isNull() *)
  uint32_out_of_range : spec_float -> Z
}.

(** Update of one slot of a per-motor array. *)
Definition upd {A : Type} (f : motor -> A) (i : motor) (v : A) : motor -> A :=
  fun j => if motor_eqb j i then v else f j.

(** ** Field updates *)

Definition call (e : event) (s : state) : state :=
  mkState (st s) (sps s) (e :: trace s).

Definition with_st (r : stRunSingleton.t) (s : state) : state :=
  mkState r (sps s) (trace s).

Definition with_sps (p : stPrepSingleton.t) (s : state) : state :=
  mkState (st s) p (trace s).

Definition st_set_timer_ticks_downcount (v : Z) (s : state) : state :=
  with_st (stRunSingleton.mk (stRunSingleton.magic_start (st s)) v
             (stRunSingleton.timer_ticks_X_substeps (st s))
             (stRunSingleton.m (st s))) s.

Definition st_set_timer_ticks_X_substeps (v : Z) (s : state) : state :=
  with_st (stRunSingleton.mk (stRunSingleton.magic_start (st s))
             (stRunSingleton.timer_ticks_downcount (st s)) v
             (stRunSingleton.m (st s))) s.

Definition st_set_m (mt : motor) (rm : stRunMotor.t) (s : state) : state :=
  with_st (stRunSingleton.mk (stRunSingleton.magic_start (st s))
             (stRunSingleton.timer_ticks_downcount (st s))
             (stRunSingleton.timer_ticks_X_substeps (st s))
             (upd (stRunSingleton.m (st s)) mt rm)) s.

Definition st_m (s : state) (mt : motor) : stRunMotor.t :=
  stRunSingleton.m (st s) mt.

Definition st_m_set_phase_increment (mt : motor) (v : Z) (s : state) : state :=
  st_set_m mt (stRunMotor.mk v
                 (stRunMotor.phase_accumulator (st_m s mt))
                 (stRunMotor.step_count_diagnostic (st_m s mt))) s.

Definition st_m_set_phase_accumulator (mt : motor) (v : Z) (s : state) : state :=
  st_set_m mt (stRunMotor.mk (stRunMotor.phase_increment (st_m s mt)) v
                 (stRunMotor.step_count_diagnostic (st_m s mt))) s.

Definition st_m_set_step_count_diagnostic (mt : motor) (v : Z) (s : state) : state :=
  st_set_m mt (stRunMotor.mk (stRunMotor.phase_increment (st_m s mt))
                 (stRunMotor.phase_accumulator (st_m s mt)) v) s.

Definition sps_set_move_type (v : moveType) (p : stPrepSingleton.t) : stPrepSingleton.t :=
  stPrepSingleton.mk (stPrepSingleton.magic_start p) v
    (stPrepSingleton.exec_state p) (stPrepSingleton.counter_reset_flag p)
    (stPrepSingleton.prev_ticks p) (stPrepSingleton.timer_ticks p)
    (stPrepSingleton.timer_ticks_X_substeps p) (stPrepSingleton.m p).

Definition sps_set_exec_state (v : prepBufferState) (p : stPrepSingleton.t) : stPrepSingleton.t :=
  stPrepSingleton.mk (stPrepSingleton.magic_start p) (stPrepSingleton.move_type p)
    v (stPrepSingleton.counter_reset_flag p)
    (stPrepSingleton.prev_ticks p) (stPrepSingleton.timer_ticks p)
    (stPrepSingleton.timer_ticks_X_substeps p) (stPrepSingleton.m p).

Definition sps_set_counter_reset_flag (v : bool) (p : stPrepSingleton.t) : stPrepSingleton.t :=
  stPrepSingleton.mk (stPrepSingleton.magic_start p) (stPrepSingleton.move_type p)
    (stPrepSingleton.exec_state p) v
    (stPrepSingleton.prev_ticks p) (stPrepSingleton.timer_ticks p)
    (stPrepSingleton.timer_ticks_X_substeps p) (stPrepSingleton.m p).

Definition sps_set_prev_ticks (v : Z) (p : stPrepSingleton.t) : stPrepSingleton.t :=
  stPrepSingleton.mk (stPrepSingleton.magic_start p) (stPrepSingleton.move_type p)
    (stPrepSingleton.exec_state p) (stPrepSingleton.counter_reset_flag p)
    v (stPrepSingleton.timer_ticks p)
    (stPrepSingleton.timer_ticks_X_substeps p) (stPrepSingleton.m p).

Definition sps_set_timer_ticks (v : Z) (p : stPrepSingleton.t) : stPrepSingleton.t :=
  stPrepSingleton.mk (stPrepSingleton.magic_start p) (stPrepSingleton.move_type p)
    (stPrepSingleton.exec_state p) (stPrepSingleton.counter_reset_flag p)
    (stPrepSingleton.prev_ticks p) v
    (stPrepSingleton.timer_ticks_X_substeps p) (stPrepSingleton.m p).

Definition sps_set_timer_ticks_X_substeps (v : Z) (p : stPrepSingleton.t) : stPrepSingleton.t :=
  stPrepSingleton.mk (stPrepSingleton.magic_start p) (stPrepSingleton.move_type p)
    (stPrepSingleton.exec_state p) (stPrepSingleton.counter_reset_flag p)
    (stPrepSingleton.prev_ticks p) (stPrepSingleton.timer_ticks p)
    v (stPrepSingleton.m p).

Definition sps_set_magic_start (v : Z) (p : stPrepSingleton.t) : stPrepSingleton.t :=
  stPrepSingleton.mk v (stPrepSingleton.move_type p)
    (stPrepSingleton.exec_state p) (stPrepSingleton.counter_reset_flag p)
    (stPrepSingleton.prev_ticks p) (stPrepSingleton.timer_ticks p)
    (stPrepSingleton.timer_ticks_X_substeps p) (stPrepSingleton.m p).

Definition sps_set_m (mt : motor) (pm : stPrepMotor.t) (p : stPrepSingleton.t) : stPrepSingleton.t :=
  stPrepSingleton.mk (stPrepSingleton.magic_start p) (stPrepSingleton.move_type p)
    (stPrepSingleton.exec_state p) (stPrepSingleton.counter_reset_flag p)
    (stPrepSingleton.prev_ticks p) (stPrepSingleton.timer_ticks p)
    (stPrepSingleton.timer_ticks_X_substeps p) (upd (stPrepSingleton.m p) mt pm).

Definition sps_m_set_dir (mt : motor) (v : Z) (p : stPrepSingleton.t) : stPrepSingleton.t :=
  sps_set_m mt (stPrepMotor.mk (stPrepMotor.phase_increment (stPrepSingleton.m p mt)) v) p.

Definition sps_m_set_phase_increment (mt : motor) (v : Z) (p : stPrepSingleton.t) : stPrepSingleton.t :=
  sps_set_m mt (stPrepMotor.mk v (stPrepMotor.dir (stPrepSingleton.m p mt))) p.

(** ** The functions of [stepper.cpp] *)

Section Stepper.

Variable hw : config.

(** [st_enable] - start the steppers *)
Definition st_enable (s : state) : state :=
  let s := call (pin_clear enable) s in
  let s := call (timer_start dda_timer) s in
  s.

(** [st_disable] - stop the steppers *)
Definition st_disable (s : state) : state :=
  let s := call (timer_stop dda_timer) s in
  let s := call (pin_set enable) s in
  let s := call (pin_set (enable_of MOTOR_1)) s in
  let s := call (pin_set (enable_of MOTOR_2)) s in
  let s := call (pin_set (enable_of MOTOR_4)) s in
  let s := call (pin_set (enable_of MOTOR_5)) s in
  let s := call (pin_set (enable_of MOTOR_6)) s in
  let s := st_m_set_phase_increment MOTOR_1 0 s in
  let s := st_m_set_phase_increment MOTOR_2 0 s in
  let s := st_m_set_phase_increment MOTOR_3 0 s in
  let s := st_m_set_phase_increment MOTOR_4 0 s in
  let s := st_m_set_phase_increment MOTOR_5 0 s in
  let s := st_m_set_phase_increment MOTOR_6 0 s in
  s.

(** [st_request_exec_move] - software interrupt to request a move *)
Definition st_request_exec_move (s : state) : state :=
  match stPrepSingleton.exec_state (sps s) with
  | PREP_BUFFER_OWNED_BY_EXEC => call (timer_setInterruptPending exec_timer) s
  | PREP_BUFFER_OWNED_BY_LOADER => s
  end.

(** [_request_load_move] - software interrupt to request a load *)
Definition _request_load_move (s : state) : state :=
  if stRunSingleton.timer_ticks_downcount (st s) =? 0
  then call (timer_setInterruptPending load_timer) s
  else s.

(** One motor's block of the aline branch of [_load_move]. The source
    writes the block out six times; [reset_value] is the expression the
    block assigns to the phase accumulator when the counters are reset. *)
Definition load_motor (mt : motor) (reset_value : Z) (s : state) : state :=
  let s := st_m_set_phase_increment mt
             (int32 (stPrepMotor.phase_increment (stPrepSingleton.m (sps s) mt))) s in
  let s := if stPrepSingleton.counter_reset_flag (sps s)
           then st_m_set_phase_accumulator mt reset_value s
           else s in
  if negb (stRunMotor.phase_increment (st_m s mt) =? 0) then
    let s := if stPrepMotor.dir (stPrepSingleton.m (sps s) mt) =? 0
             then call (pin_clear (dir mt)) s
             else call (pin_set (dir mt)) s in
    let s := call (pin_clear (enable_of mt)) s in
    s
  else s.

(** [_load_move] - dequeue move and load into stepper struct *)
Definition _load_move (s : state) : state :=
  let s :=
    match stPrepSingleton.move_type (sps s) with
    | MOVE_TYPE_ALINE =>
        let s := st_set_timer_ticks_downcount
                   (int32 (stPrepSingleton.timer_ticks (sps s))) s in
        let s := st_set_timer_ticks_X_substeps
                   (int32 (stPrepSingleton.timer_ticks_X_substeps (sps s))) s in
        let s := load_motor MOTOR_1
                   (int32 (- stRunSingleton.timer_ticks_downcount (st s))) s in
        let s := load_motor MOTOR_2
                   (int32 (- stRunSingleton.timer_ticks_downcount (st s))) s in
        let s := load_motor MOTOR_3
                   (int32 (- stRunSingleton.timer_ticks_downcount (st s))) s in
        let s := load_motor MOTOR_4
                   (stRunSingleton.timer_ticks_downcount (st s)) s in
        let s := load_motor MOTOR_5
                   (stRunSingleton.timer_ticks_downcount (st s)) s in
        let s := load_motor MOTOR_6
                   (stRunSingleton.timer_ticks_downcount (st s)) s in
        st_enable s
    | MOVE_TYPE_DWELL =>
        let s := st_set_timer_ticks_downcount
                   (int32 (stPrepSingleton.timer_ticks (sps s))) s in
        call (timer_start dwell_timer) s
    | MOVE_TYPE_NULL => s
    end in
  let s := with_sps (sps_set_exec_state PREP_BUFFER_OWNED_BY_EXEC (sps s)) s in
  st_request_exec_move s.

(** The load software interrupt. *)
Definition load_timer_interrupt (s : state) : state :=
  let s := call (timer_getInterruptCause load_timer) s in
  _load_move s.

(** The dwell timer interrupt. *)
Definition dwell_timer_interrupt (s : state) : state :=
  let s := call (timer_getInterruptCause dwell_timer) s in
  let s := st_set_timer_ticks_downcount
             (int32 (stRunSingleton.timer_ticks_downcount (st s) - 1)) s in
  if stRunSingleton.timer_ticks_downcount (st s) =? 0 then
    let s := call (timer_stop dwell_timer) s in
    _load_move s
  else s.

(** One motor's block of the DDA interrupt: skipped for a step pin that is
    not wired; otherwise the increment is added to the accumulator and,
    when the sum is positive, the accumulator is brought back by
    [timer_ticks_X_substeps] and the step bit is turned on. *)
Definition dda_motor (mt : motor) (s : state) : state :=
  if negb (step_isNull hw mt) then
    let s := st_m_set_phase_accumulator mt
               (int32 (stRunMotor.phase_accumulator (st_m s mt)
                       + stRunMotor.phase_increment (st_m s mt))) s in
    if 0 <? stRunMotor.phase_accumulator (st_m s mt) then
      let s := st_m_set_phase_accumulator mt
                 (int32 (stRunMotor.phase_accumulator (st_m s mt)
                         - stRunSingleton.timer_ticks_X_substeps (st s))) s in
      call (pin_set (step mt)) s
    else s
  else s.

(** Power-down of one motor at the end of a move, if the feature is on. *)
Definition power_down (mt : motor) (s : state) : state :=
  if power_mode hw mt =? 1 then call (pin_set (enable_of mt)) s else s.

(** The DDA timer interrupt - service ticks from the DDA timer. *)
Definition dda_timer_interrupt (s : state) : state :=
  let s := call (timer_getInterruptCause dda_timer) s in
  let s := call (pin_clear proof_of_timer) s in
  let s := dda_motor MOTOR_1 s in
  let s := dda_motor MOTOR_2 s in
  let s := dda_motor MOTOR_3 s in
  let s := dda_motor MOTOR_4 s in
  let s := dda_motor MOTOR_5 s in
  let s := dda_motor MOTOR_6 s in
  let s := call (pin_clear (step MOTOR_1)) s in
  let s := call (pin_clear (step MOTOR_2)) s in
  let s := call (pin_clear (step MOTOR_3)) s in
  let s := call (pin_clear (step MOTOR_4)) s in
  let s := call (pin_clear (step MOTOR_5)) s in
  let s := call (pin_clear (step MOTOR_6)) s in
  let s := st_set_timer_ticks_downcount
             (int32 (stRunSingleton.timer_ticks_downcount (st s) - 1)) s in
  let s :=
    if stRunSingleton.timer_ticks_downcount (st s) =? 0 then
      let s := power_down MOTOR_1 s in
      let s := power_down MOTOR_2 s in
      let s := power_down MOTOR_3 s in
      let s := power_down MOTOR_4 s in
      let s := power_down MOTOR_5 s in
      let s := power_down MOTOR_6 s in
      let s := st_disable s in
      _load_move s
    else s in
  call (pin_set proof_of_timer) s.

(** One pass of the loop of [st_prep_line] over motor [i]. *)
Definition prep_motor (steps : motor -> spec_float) (p : stPrepSingleton.t) (i : motor)
  : stPrepSingleton.t :=
  let p := sps_m_set_dir i
             (int8 (Z.lxor (if SFltb (steps i) (f32_of_Z 0) then 1 else 0)
                           (polarity hw i))) p in
  let p := sps_m_set_phase_increment i
             (float_to_uint32 (uint32_out_of_range hw)
                (fabs (f32_mul (steps i) (f32_of_Z (DDA_SUBSTEPS hw))))) p in
  p.

(** [st_prep_line] - prepare the next move for the loader. Returns the
    status and the prep singleton it leaves. *)
Definition st_prep_line (steps : motor -> spec_float) (microseconds : spec_float)
    (p : stPrepSingleton.t) : stat_t * stPrepSingleton.t :=
  match stPrepSingleton.exec_state p with
  | PREP_BUFFER_OWNED_BY_LOADER => (STAT_INTERNAL_ERROR, p)
  | PREP_BUFFER_OWNED_BY_EXEC =>
      if negb (isfinite microseconds) then (STAT_ZERO_LENGTH_MOVE, p)
      else if float_ltb microseconds (EPSILON hw) then (STAT_ZERO_LENGTH_MOVE, p)
      else
        let p := sps_set_counter_reset_flag false p in
        let p := fold_left (prep_motor steps) MOTORS p in
        let p := sps_set_timer_ticks
                   (float_to_uint32 (uint32_out_of_range hw)
                      (f32_mul (f32_div microseconds (f32_of_Z 1000000))
                               (f32_of_Z (FREQUENCY_DDA hw)))) p in
        let p := sps_set_timer_ticks_X_substeps
                   (uint32 (stPrepSingleton.timer_ticks p * DDA_SUBSTEPS hw)) p in
        let p := if uint32 (stPrepSingleton.timer_ticks p * COUNTER_RESET_FACTOR hw)
                    <? stPrepSingleton.prev_ticks p
                 then sps_set_counter_reset_flag true p
                 else p in
        let p := sps_set_prev_ticks (stPrepSingleton.timer_ticks p) p in
        let p := sps_set_move_type MOVE_TYPE_ALINE p in
        (STAT_OK, p)
  end.

(** [st_prep_null] - keeps the loader happy *)
Definition st_prep_null (p : stPrepSingleton.t) : stPrepSingleton.t :=
  sps_set_move_type MOVE_TYPE_NULL p.

(** [st_prep_dwell] - add a dwell to the move buffer *)
Definition st_prep_dwell (microseconds : spec_float) (p : stPrepSingleton.t)
  : stPrepSingleton.t :=
  let p := sps_set_move_type MOVE_TYPE_DWELL p in
  let p := sps_set_timer_ticks
             (float_to_uint32 (uint32_out_of_range hw)
                (f32_mul (f32_div microseconds (f32_of_Z 1000000))
                         (f32_of_Z (FREQUENCY_DWELL hw)))) p in
  p.

(** [_exec_move] - run a move from the planner and prepare it for loading.
    [mp_exec_move] is the planner's entry point, which is not part of this
    module: it fills the prep singleton through one of the three prep calls
    and returns a status. *)
Definition _exec_move
    (mp_exec_move : stPrepSingleton.t -> stat_t * stPrepSingleton.t)
    (s : state) : state :=
  match stPrepSingleton.exec_state (sps s) with
  | PREP_BUFFER_OWNED_BY_EXEC =>
      let '(status, p) := mp_exec_move (sps s) in
      let s := with_sps p s in
      match status with
      | STAT_NOOP => with_sps (st_prep_null (sps s)) s
      | _ =>
          let s := with_sps (sps_set_exec_state PREP_BUFFER_OWNED_BY_LOADER (sps s)) s in
          _request_load_move s
      end
  | PREP_BUFFER_OWNED_BY_LOADER => s
  end.

(** The exec software interrupt. *)
Definition exec_timer_interrupt
    (mp_exec_move : stPrepSingleton.t -> stat_t * stPrepSingleton.t)
    (s : state) : state :=
  let s := call (timer_getInterruptCause exec_timer) s in
  _exec_move mp_exec_move s.

(** [st_isbusy] *)
Definition st_isbusy (s : state) : bool :=
  if stRunSingleton.timer_ticks_downcount (st s) =? 0 then false else true.

(** [_clear_diagnostic_counters] *)
Definition _clear_diagnostic_counters (s : state) : state :=
  let s := st_m_set_step_count_diagnostic MOTOR_1 0 s in
  let s := st_m_set_step_count_diagnostic MOTOR_2 0 s in
  let s := st_m_set_step_count_diagnostic MOTOR_3 0 s in
  let s := st_m_set_step_count_diagnostic MOTOR_4 0 s in
  let s := st_m_set_step_count_diagnostic MOTOR_5 0 s in
  let s := st_m_set_step_count_diagnostic MOTOR_6 0 s in
  s.

(** [stepper_init], as far as the two singletons go: [st] is cleared and
    both magic numbers are installed, the prep buffer is handed to the
    exec side. The set-up of the four timers changes neither singleton. *)
Definition stepper_init (s : state) : state :=
  let s := with_st (stRunSingleton.mk 0 0 0 (fun _ => stRunMotor.mk 0 0 0)) s in
  let s := with_st (stRunSingleton.mk (MAGICNUM hw)
                      (stRunSingleton.timer_ticks_downcount (st s))
                      (stRunSingleton.timer_ticks_X_substeps (st s))
                      (stRunSingleton.m (st s))) s in
  let s := with_sps (sps_set_magic_start (MAGICNUM hw) (sps s)) s in
  let s := with_sps (sps_set_exec_state PREP_BUFFER_OWNED_BY_EXEC (sps s)) s in
  _clear_diagnostic_counters s.

End Stepper.

(** The number of step pulses of motor [mt] among the calls of a trace. *)
Definition pulses (mt : motor) (t : list event) : Z :=
  Z.of_nat (length (filter (is_pulse mt) t)).

(** The calls made on pin [p] among the calls of a trace. *)
Definition calls_on (p : pin) (t : list event) : list event :=
  filter (on_pin p) t.

(** ** The DDA seen from one motor

    What one motor's block of the DDA interrupt does to that motor's
    accumulator, as a function of the increment [inc], of
    [timer_ticks_X_substeps] [X] and of the accumulator: the new accumulator
    and whether the step bit was turned on. *)
Definition dda_tick (inc X acc : Z) : Z * bool :=
  let a := int32 (acc + inc) in
  if 0 <? a then (int32 (a - X), true) else (a, false).

(** [n] ticks in a row: the accumulator reached and the pulses counted. *)
Fixpoint dda_run (n : nat) (inc X acc : Z) : Z * Z :=
  match n with
  | O => (acc, 0)
  | S k =>
      let '(a, c) := dda_run k inc X acc in
      let '(a', p) := dda_tick inc X a in
      (a', c + (if p then 1 else 0))
  end.

(** What the DDA interrupt reads and writes for motor [mt]: its increment
    and accumulator, [timer_ticks_X_substeps], the down-counter, and the
    pulses it has emitted. *)
Definition view (mt : motor) (s : state) : Z * Z * Z * Z * Z :=
  (stRunMotor.phase_increment (st_m s mt),
   stRunMotor.phase_accumulator (st_m s mt),
   stRunSingleton.timer_ticks_X_substeps (st s),
   stRunSingleton.timer_ticks_downcount (st s),
   pulses mt (trace s)).

(** The DDA interrupt up to the end-of-move test: the six motor blocks and
    the six [step.clear()]. *)
Definition dda_front (hw : config) (s : state) : state :=
  let s := call (timer_getInterruptCause dda_timer) s in
  let s := call (pin_clear proof_of_timer) s in
  let s := dda_motor hw MOTOR_1 s in
  let s := dda_motor hw MOTOR_2 s in
  let s := dda_motor hw MOTOR_3 s in
  let s := dda_motor hw MOTOR_4 s in
  let s := dda_motor hw MOTOR_5 s in
  let s := dda_motor hw MOTOR_6 s in
  let s := call (pin_clear (step MOTOR_1)) s in
  let s := call (pin_clear (step MOTOR_2)) s in
  let s := call (pin_clear (step MOTOR_3)) s in
  let s := call (pin_clear (step MOTOR_4)) s in
  let s := call (pin_clear (step MOTOR_5)) s in
  let s := call (pin_clear (step MOTOR_6)) s in
  s.

(** The end of a move in the DDA interrupt: power-down, [st_disable] and the
    load of the next move. *)
Definition dda_end_of_move (hw : config) (s : state) : state :=
  let s := power_down hw MOTOR_1 s in
  let s := power_down hw MOTOR_2 s in
  let s := power_down hw MOTOR_3 s in
  let s := power_down hw MOTOR_4 s in
  let s := power_down hw MOTOR_5 s in
  let s := power_down hw MOTOR_6 s in
  let s := st_disable s in
  _load_move s.

(** One tick of the DDA on the view of a motor whose step pin is wired. *)
Definition tick_view (v : Z * Z * Z * Z * Z) : Z * Z * Z * Z * Z :=
  let '(inc, acc, X, d, c) := v in
  (inc, fst (dda_tick inc X acc), X, d,
   c + (if snd (dda_tick inc X acc) then 1 else 0)).

(** ** The loader in two parts *)

(** The aline branch of [_load_move]. *)
Definition load_aline (s : state) : state :=
  let s := st_set_timer_ticks_downcount
             (int32 (stPrepSingleton.timer_ticks (sps s))) s in
  let s := st_set_timer_ticks_X_substeps
             (int32 (stPrepSingleton.timer_ticks_X_substeps (sps s))) s in
  let s := load_motor MOTOR_1
             (int32 (- stRunSingleton.timer_ticks_downcount (st s))) s in
  let s := load_motor MOTOR_2
             (int32 (- stRunSingleton.timer_ticks_downcount (st s))) s in
  let s := load_motor MOTOR_3
             (int32 (- stRunSingleton.timer_ticks_downcount (st s))) s in
  let s := load_motor MOTOR_4
             (stRunSingleton.timer_ticks_downcount (st s)) s in
  let s := load_motor MOTOR_5
             (stRunSingleton.timer_ticks_downcount (st s)) s in
  let s := load_motor MOTOR_6
             (stRunSingleton.timer_ticks_downcount (st s)) s in
  st_enable s.

(** The end of [_load_move], common to all its branches: the prep buffer
    goes back to the exec side and the next move is requested. *)
Definition load_done (s : state) : state :=
  let s := with_sps (sps_set_exec_state PREP_BUFFER_OWNED_BY_EXEC (sps s)) s in
  st_request_exec_move s.

(** ** The floats the preparation casts *)

(** The float [st_prep_line] casts to get [timer_ticks]. *)
Definition line_ticks (hw : config) (microseconds : spec_float) : spec_float :=
  f32_mul (f32_div microseconds (f32_of_Z 1000000)) (f32_of_Z (FREQUENCY_DDA hw)).

(** The float [st_prep_dwell] casts to get [timer_ticks]. *)
Definition dwell_ticks (hw : config) (microseconds : spec_float) : spec_float :=
  f32_mul (f32_div microseconds (f32_of_Z 1000000)) (f32_of_Z (FREQUENCY_DWELL hw)).

(** Modelled from the spec: [round_to_u32], the integer nearest to a float
    (a half rounds away from zero); none for an infinity or a NaN. The code
    has no such function: the definition serves to compare it with the cast
    the code does use. *)
Definition SF2Z_round (x : spec_float) : option Z :=
  match x with
  | S754_zero _ => Some 0
  | S754_finite s m e =>
      Some (cond_Zopp s
              (match e with
               | Zneg p => Z.shiftr (Zpos m + Z.shiftl 1 (Zpos p - 1)) (Zpos p)
               | _ => Z.shiftl (Zpos m) e
               end))
  | S754_infinity _ | S754_nan => None
  end.

(** ** A reference board and some runs

    The constants of the spec's end-to-end scenarios: six wired motors, ten
    substeps, a DDA at 200 kHz, a reset factor of four, no polarity
    inversion, motors always powered. *)

Definition hw_ref : config :=
  {| DDA_SUBSTEPS := 10;
     FREQUENCY_DDA := 200000;
     FREQUENCY_DWELL := 10000;
     COUNTER_RESET_FACTOR := 4;
     EPSILON := S754_finite false 10995116 (-40);   (* 0.00001f *)
     MAGICNUM := 4847;
     polarity := fun _ => 0;
     power_mode := fun _ => 0;
     step_isNull := fun _ => false;
     uint32_out_of_range := fun _ => 0 |}.


(** Both singletons as static storage holds them before [stepper_init]. *)
Definition power_on : state :=
  mkState
    (stRunSingleton.mk 0 0 0 (fun _ => stRunMotor.mk 0 0 0))
    (stPrepSingleton.mk 0 MOVE_TYPE_NULL PREP_BUFFER_OWNED_BY_LOADER false 0 0 0
       (fun _ => stPrepMotor.mk 0 0))
    [].

(** A step vector that moves motor 1 alone by [x] steps. *)
Definition steps_1 (x : Z) : motor -> spec_float :=
  fun i => match i with MOTOR_1 => f32_of_Z x | _ => f32_of_Z 0 end.

(** A runtime in the middle of nothing else: [T] ticks to go, every motor
    with the same increment and accumulator, no call made yet. *)
Definition running (T X inc acc : Z) : state :=
  mkState
    (stRunSingleton.mk 0 T X (fun _ => stRunMotor.mk inc acc 0))
    (sps (stepper_init hw_ref power_on))
    [].

(** A runtime with its down-counter at [d], nothing staged. *)
Definition dwelling (d : Z) : state :=
  st_set_timer_ticks_downcount d (stepper_init hw_ref power_on).

(** Two moves of motor 1 back to back, the second ten times shorter: the
    planner stages ten steps over 1000 us, the loader loads them, the planner
    stages one step over 100 us while the first move runs, and the 200 ticks
    of the first move go by, the last of which loads the second move. *)
Definition velocity_jump : state :=
  let s := stepper_init hw_ref power_on in
  let s := exec_timer_interrupt (st_prep_line hw_ref (steps_1 10) (f32_of_Z 1000)) s in
  let s := load_timer_interrupt s in
  let s := exec_timer_interrupt (st_prep_line hw_ref (steps_1 1) (f32_of_Z 100)) s in
  Nat.iter 200 (dda_timer_interrupt hw_ref) s.

(** The prep singleton of [s] with an aline of [T] ticks staged in it and
    the counter reset requested, everything else as it was. *)
Definition staged_reset (T : Z) (s : state) : state :=
  with_sps (sps_set_timer_ticks T
              (sps_set_counter_reset_flag true
                 (sps_set_move_type MOVE_TYPE_ALINE (sps s)))) s.

(** The prep singleton of [s] with a dwell of [T] ticks staged in it. *)
Definition staged_dwell (T : Z) (s : state) : state :=
  with_sps (sps_set_timer_ticks T (sps_set_move_type MOVE_TYPE_DWELL (sps s))) s.

(** ** The rest of the module's interface *)

(** [st_get_st_magic] *)
Definition st_get_st_magic (s : state) : Z :=
  stRunSingleton.magic_start (st s).

(** [st_get_sps_magic] *)
Definition st_get_sps_magic (s : state) : Z :=
  stPrepSingleton.magic_start (sps s).

(** [st_set_microsteps]: the body is commented out in the source, the call
    does nothing. *)
Definition st_set_microsteps (mtr microstep_mode : Z) (s : state) : state := s.

(** ** One tick, motor by motor *)

(** Does the tick that starts in [s] turn the step bit of [mt] on? *)
Definition pulse_now (hw : config) (s : state) (mt : motor) : bool :=
  negb (step_isNull hw mt)
  && snd (dda_tick (stRunMotor.phase_increment (st_m s mt))
                   (stRunSingleton.timer_ticks_X_substeps (st s))
                   (stRunMotor.phase_accumulator (st_m s mt))).

(** The calls that tick makes to turn step bits on, the most recent first. *)
Definition step_sets (hw : config) (s : state) : list event :=
  filter (fun e => match e with
                   | pin_set (step mt) => pulse_now hw s mt
                   | _ => false
                   end)
    [pin_set (step MOTOR_6); pin_set (step MOTOR_5); pin_set (step MOTOR_4);
     pin_set (step MOTOR_3); pin_set (step MOTOR_2); pin_set (step MOTOR_1)].

(** The six [step.clear()] of a tick, the most recent first. *)
Definition step_clears : list event :=
  [pin_clear (step MOTOR_6); pin_clear (step MOTOR_5); pin_clear (step MOTOR_4);
   pin_clear (step MOTOR_3); pin_clear (step MOTOR_2); pin_clear (step MOTOR_1)].

(** The accumulator a tick that starts in [s] leaves for motor [mt]. *)
Definition next_accumulator (hw : config) (s : state) (mt : motor) : Z :=
  if step_isNull hw mt then stRunMotor.phase_accumulator (st_m s mt)
  else fst (dda_tick (stRunMotor.phase_increment (st_m s mt))
                     (stRunSingleton.timer_ticks_X_substeps (st s))
                     (stRunMotor.phase_accumulator (st_m s mt))).

(** Is this event a call on the timer [t]? *)
Definition on_timer (t : timer) (e : event) : bool :=
  match e, t with
  | timer_start dda_timer, dda_timer | timer_stop dda_timer, dda_timer
  | timer_setInterruptPending dda_timer, dda_timer
  | timer_getInterruptCause dda_timer, dda_timer => true
  | timer_start dwell_timer, dwell_timer | timer_stop dwell_timer, dwell_timer
  | timer_setInterruptPending dwell_timer, dwell_timer
  | timer_getInterruptCause dwell_timer, dwell_timer => true
  | timer_start load_timer, load_timer | timer_stop load_timer, load_timer
  | timer_setInterruptPending load_timer, load_timer
  | timer_getInterruptCause load_timer, load_timer => true
  | timer_start exec_timer, exec_timer | timer_stop exec_timer, exec_timer
  | timer_setInterruptPending exec_timer, exec_timer
  | timer_getInterruptCause exec_timer, exec_timer => true
  | _, _ => false
  end.

(** Both magic numbers are the one [stepper_init] installs. *)
Definition magic_ok (hw : config) (s : state) : Prop :=
  st_get_st_magic s = MAGICNUM hw /\ st_get_sps_magic s = MAGICNUM hw.

(** Is this float a number other than zero (an infinity counts)? *)
Definition is_nonzero_number (x : spec_float) : bool :=
  match x with
  | S754_finite _ _ _ | S754_infinity _ => true
  | S754_zero _ | S754_nan => false
  end.

(** The end of a move in the DDA interrupt up to the call of the loader:
    the power-down of the six motors and [st_disable]. *)
Definition dda_stop (hw : config) (s : state) : state :=
  let s := power_down hw MOTOR_1 s in
  let s := power_down hw MOTOR_2 s in
  let s := power_down hw MOTOR_3 s in
  let s := power_down hw MOTOR_4 s in
  let s := power_down hw MOTOR_5 s in
  let s := power_down hw MOTOR_6 s in
  st_disable s.

(** ** The lines of one motor *)

(** The calls one motor's block of the loader makes, the latest first, read
    off the prep singleton: none when the increment it loads is zero. *)
Definition motor_lines (p : stPrepSingleton.t) (mt : motor) : list event :=
  if int32 (stPrepMotor.phase_increment (stPrepSingleton.m p mt)) =? 0 then []
  else [pin_clear (enable_of mt);
        if stPrepMotor.dir (stPrepSingleton.m p mt) =? 0
        then pin_clear (dir mt) else pin_set (dir mt)].

(** Does the move staged in [p] load a nonzero increment for [mt]? *)
Definition moves_next (p : stPrepSingleton.t) (mt : motor) : bool :=
  match stPrepSingleton.move_type p with
  | MOVE_TYPE_ALINE =>
      negb (int32 (stPrepMotor.phase_increment (stPrepSingleton.m p mt)) =? 0)
  | _ => false
  end.

(** ** Runs of the module *)

(** The ways into the module: [stepper_init], the four interrupts and the
    functions the rest of the firmware calls. The exec interrupt carries
    the planner's [mp_exec_move] that it runs. *)
Inductive entry : Type :=
  | STEPPER_INIT
  | DDA_INTERRUPT
  | DWELL_INTERRUPT
  | LOAD_INTERRUPT
  | EXEC_INTERRUPT (mp_exec_move : stPrepSingleton.t -> stat_t * stPrepSingleton.t)
  | ST_REQUEST_EXEC_MOVE
  | ST_ENABLE
  | ST_DISABLE
  | ST_SET_MICROSTEPS (mtr microstep_mode : Z).

Definition enter (hw : config) (e : entry) (s : state) : state :=
  match e with
  | STEPPER_INIT => stepper_init hw s
  | DDA_INTERRUPT => dda_timer_interrupt hw s
  | DWELL_INTERRUPT => dwell_timer_interrupt s
  | LOAD_INTERRUPT => load_timer_interrupt s
  | EXEC_INTERRUPT mp_exec_move => exec_timer_interrupt mp_exec_move s
  | ST_REQUEST_EXEC_MOVE => st_request_exec_move s
  | ST_ENABLE => st_enable s
  | ST_DISABLE => st_disable s
  | ST_SET_MICROSTEPS mtr microstep_mode => st_set_microsteps mtr microstep_mode s
  end.

(** The entries of [l] taken one after the other, the first one first. *)
Definition run (hw : config) (l : list entry) (s : state) : state :=
  fold_left (fun s e => enter hw e s) l s.

Definition is_dda_interrupt (e : entry) : bool :=
  match e with DDA_INTERRUPT => true | _ => false end.

(** The number of DDA interrupts among the entries of [l]. *)
Definition dda_interrupts (l : list entry) : Z :=
  Z.of_nat (length (filter is_dda_interrupt l)).

(** The planner run by an exec interrupt leaves the magic number of the
    prep singleton as it finds it. *)
Definition planner_keeps_magic (e : entry) : Prop :=
  match e with
  | EXEC_INTERRUPT mp_exec_move =>
      forall p, stPrepSingleton.magic_start (snd (mp_exec_move p))
                = stPrepSingleton.magic_start p
  | _ => True
  end.

(** * Properties *)

(** *** Machine integers *)

Lemma int32_small (z : Z) : - 2 ^ 31 <= z < 2 ^ 31 -> int32 z = z.
Proof.
  intros H. unfold int32.
  rewrite Z.mod_small by lia. lia.
Qed.

Lemma motor_eqb_refl (a : motor) : motor_eqb a a = true.
Proof. destruct a; reflexivity. Qed.

Lemma motor_eqb_neq (a b : motor) : a <> b -> motor_eqb a b = false.
Proof. destruct a, b; intros H; try reflexivity; congruence. Qed.

(** *** Frame lemmas for the view of one motor *)

Lemma pulses_cons (mt : motor) (e : event) (t : list event) :
  pulses mt (e :: t) = pulses mt t + (if is_pulse mt e then 1 else 0).
Proof.
  unfold pulses. simpl. destruct (is_pulse mt e); simpl length; lia.
Qed.

Lemma view_call (mt : motor) (e : event) (s : state) :
  is_pulse mt e = false -> view mt (call e s) = view mt s.
Proof.
  intros H. unfold view, call, st_m. simpl.
  rewrite pulses_cons, H. f_equal. lia.
Qed.

Lemma view_dda_motor_other (hw : config) (mt' mt : motor) (s : state) :
  mt' <> mt -> view mt (dda_motor hw mt' s) = view mt s.
Proof.
  intros H. unfold dda_motor.
  destruct (step_isNull hw mt'); simpl; [reflexivity|].
  match goal with |- context [if ?c then _ else _] => destruct c end;
    unfold view, st_m, call, st_m_set_phase_accumulator, st_set_m, with_st, upd, st_m;
    simpl; rewrite ?pulses_cons; simpl;
    rewrite (motor_eqb_neq mt mt') by congruence;
    rewrite ?(motor_eqb_neq mt' mt) by congruence; f_equal; lia.
Qed.

Lemma view_dda_motor_self (hw : config) (mt : motor) (s : state) :
  step_isNull hw mt = false ->
  view mt (dda_motor hw mt s) = tick_view (view mt s).
Proof.
  intros H. unfold dda_motor, tick_view, dda_tick. rewrite H. simpl negb. cbv iota.
  unfold view, st_m, call, st_m_set_phase_accumulator, st_set_m, with_st, upd, st_m.
  simpl. rewrite !motor_eqb_refl. simpl.
  match goal with |- context [0 <? ?a] => destruct (0 <? a) end; simpl;
    rewrite ?motor_eqb_refl; simpl; rewrite ?pulses_cons; simpl;
    rewrite ?motor_eqb_refl; f_equal; lia.
Qed.

Lemma view_dda_front (hw : config) (mt : motor) (s : state) :
  step_isNull hw mt = false ->
  view mt (dda_front hw s) = tick_view (view mt s).
Proof.
  intros H. unfold dda_front. cbv zeta.
  destruct mt;
    repeat first
      [ rewrite view_call by reflexivity
      | rewrite view_dda_motor_other by discriminate
      | rewrite view_dda_motor_self by assumption ];
    reflexivity.
Qed.

Lemma pulses_call (mt : motor) (e : event) (s : state) :
  is_pulse mt e = false -> pulses mt (trace (call e s)) = pulses mt (trace s).
Proof.
  intros H. unfold call. simpl. rewrite pulses_cons, H. lia.
Qed.

Lemma pulses_power_down (hw : config) (mt mt' : motor) (s : state) :
  pulses mt (trace (power_down hw mt' s)) = pulses mt (trace s).
Proof.
  unfold power_down. destruct (power_mode hw mt' =? 1); [|reflexivity].
  apply pulses_call. reflexivity.
Qed.

Lemma trace_st_m_set_phase_increment (mt : motor) (v : Z) (s : state) :
  trace (st_m_set_phase_increment mt v s) = trace s.
Proof. reflexivity. Qed.

Lemma trace_st_m_set_phase_accumulator (mt : motor) (v : Z) (s : state) :
  trace (st_m_set_phase_accumulator mt v s) = trace s.
Proof. reflexivity. Qed.

Lemma trace_st_set_timer_ticks_downcount (v : Z) (s : state) :
  trace (st_set_timer_ticks_downcount v s) = trace s.
Proof. reflexivity. Qed.

Lemma trace_st_set_timer_ticks_X_substeps (v : Z) (s : state) :
  trace (st_set_timer_ticks_X_substeps v s) = trace s.
Proof. reflexivity. Qed.

Lemma trace_with_sps (p : stPrepSingleton.t) (s : state) :
  trace (with_sps p s) = trace s.
Proof. reflexivity. Qed.

Lemma pulses_st_disable (mt : motor) (s : state) :
  pulses mt (trace (st_disable s)) = pulses mt (trace s).
Proof.
  unfold st_disable. cbv zeta.
  rewrite !trace_st_m_set_phase_increment.
  rewrite !pulses_call by reflexivity. reflexivity.
Qed.

Lemma pulses_load_motor (mt mt' : motor) (v : Z) (s : state) :
  pulses mt (trace (load_motor mt' v s)) = pulses mt (trace s).
Proof.
  unfold load_motor. cbv zeta.
  destruct (negb _).
  - rewrite pulses_call by reflexivity.
    destruct (stPrepMotor.dir _ =? 0);
      rewrite pulses_call by reflexivity;
      destruct (stPrepSingleton.counter_reset_flag _);
      rewrite ?trace_st_m_set_phase_accumulator, ?trace_st_m_set_phase_increment;
      reflexivity.
  - destruct (stPrepSingleton.counter_reset_flag _);
      rewrite ?trace_st_m_set_phase_accumulator, ?trace_st_m_set_phase_increment;
      reflexivity.
Qed.

Lemma pulses_st_request_exec_move (mt : motor) (s : state) :
  pulses mt (trace (st_request_exec_move s)) = pulses mt (trace s).
Proof.
  unfold st_request_exec_move.
  destruct (stPrepSingleton.exec_state (sps s)); [reflexivity|].
  apply pulses_call. reflexivity.
Qed.

Lemma pulses__load_move (mt : motor) (s : state) :
  pulses mt (trace (_load_move s)) = pulses mt (trace s).
Proof.
  unfold _load_move. cbv zeta.
  rewrite pulses_st_request_exec_move, trace_with_sps.
  destruct (stPrepSingleton.move_type (sps s)).
  - reflexivity.
  - unfold st_enable. cbv zeta.
    rewrite !pulses_call by reflexivity.
    rewrite !pulses_load_motor. reflexivity.
  - rewrite pulses_call by reflexivity. reflexivity.
Qed.

Lemma pulses_dda_end_of_move (hw : config) (mt : motor) (s : state) :
  pulses mt (trace (dda_end_of_move hw s)) = pulses mt (trace s).
Proof.
  unfold dda_end_of_move. cbv zeta.
  rewrite pulses__load_move, pulses_st_disable, !pulses_power_down.
  reflexivity.
Qed.

(** The interrupt is its front part, the down-count and the end of move. *)
Lemma dda_timer_interrupt_eq (hw : config) (s : state) :
  dda_timer_interrupt hw s =
  let s1 := st_set_timer_ticks_downcount
              (int32 (stRunSingleton.timer_ticks_downcount (st (dda_front hw s)) - 1))
              (dda_front hw s) in
  call (pin_set proof_of_timer)
    (if stRunSingleton.timer_ticks_downcount (st s1) =? 0
     then dda_end_of_move hw s1 else s1).
Proof. reflexivity. Qed.

(** *** The accumulator over a segment *)

Section Bresenham.

Variables inc X : Z.
Hypothesis X_range : 0 < X < 2 ^ 31.
Hypothesis inc_range : 0 <= inc <= X.

Lemma dda_tick_in_range (acc : Z) :
  - X <= acc <= 0 ->
  dda_tick inc X acc =
  if 0 <? acc + inc then (acc + inc - X, true) else (acc + inc, false).
Proof.
  intros H. unfold dda_tick. cbv zeta.
  rewrite (int32_small (acc + inc)) by lia.
  destruct (0 <? acc + inc) eqn:E; [|reflexivity].
  apply Z.ltb_lt in E. rewrite int32_small by lia. reflexivity.
Qed.

Lemma dda_run_invariant (n : nat) (acc0 : Z) :
  - X <= acc0 <= 0 ->
  let '(a, c) := dda_run n inc X acc0 in
  - X <= a <= 0 /\ 0 <= c /\ a = acc0 + Z.of_nat n * inc - c * X
  /\ (0 < inc -> (0 < n)%nat -> - X < a).
Proof.
  intros H0. induction n as [|n IH].
  - simpl. repeat split; lia.
  - cbn [dda_run]. destruct (dda_run n inc X acc0) as [a c].
    destruct IH as (Ha & Hc & Heq & _).
    rewrite dda_tick_in_range by exact Ha.
    destruct (0 <? a + inc) eqn:E.
    + apply Z.ltb_lt in E. repeat split; try lia.
    + apply Z.ltb_ge in E. repeat split; try lia.
Qed.

End Bresenham.

(** Started one full period below zero, a segment of [T] ticks counts one
    pulse for every positive multiple of [substeps] strictly below the
    increment. *)
Lemma dda_run_count (T substeps inc : Z) :
  0 < T -> 0 < substeps -> T * substeps < 2 ^ 31 -> 0 <= inc <= T * substeps ->
  snd (dda_run (Z.to_nat T) inc (T * substeps) (- (T * substeps)))
  = if inc mod substeps =? 0 then Z.max 0 (inc / substeps - 1)
    else inc / substeps.
Proof.
  intros HT HS HX Hinc.
  assert (HXpos : 0 < T * substeps) by nia.
  pose proof (dda_run_invariant inc (T * substeps) (conj HXpos HX) Hinc
                (Z.to_nat T) (- (T * substeps))) as Inv.
  destruct (dda_run (Z.to_nat T) inc (T * substeps) (- (T * substeps))) as [a c].
  simpl snd. rewrite Z2Nat.id in Inv by lia.
  destruct Inv as (Ha & Hc & Heq & Hstrict); [lia|].
  assert (Hn : (0 < Z.to_nat T)%nat) by lia.
  pose proof (Z.div_mod inc substeps ltac:(lia)) as Hdm.
  pose proof (Z.mod_pos_bound inc substeps HS) as Hmod.
  assert (Hq : 0 <= inc / substeps) by (apply Z.div_pos; lia).
  (* a = T * (inc - substeps - c * substeps) and - (T * substeps) <= a <= 0 *)
  assert (Hup : c * substeps <= inc - substeps + substeps) by nia.
  assert (Hlo : inc - substeps <= c * substeps) by nia.
  destruct (inc mod substeps =? 0) eqn:E.
  - apply Z.eqb_eq in E.
    destruct (Z.eq_dec inc 0) as [Hz|Hnz].
    + subst inc. rewrite Z.div_0_l by lia. simpl. nia.
    + assert (Hst : - (T * substeps) < a) by (apply Hstrict; lia).
      assert (Hlt : c * substeps < inc) by nia.
      assert (c = inc / substeps - 1) by nia.
      lia.
  - apply Z.eqb_neq in E. nia.
Qed.

Lemma view_st_set_timer_ticks_downcount (mt : motor) (v : Z) (s : state) :
  view mt (st_set_timer_ticks_downcount v s)
  = let '(inc, acc, X, _, c) := view mt s in (inc, acc, X, v, c).
Proof. reflexivity. Qed.

(** A tick that is not the last of its move. *)
Lemma view_dda_timer_interrupt (hw : config) (mt : motor) (s : state) :
  step_isNull hw mt = false ->
  int32 (stRunSingleton.timer_ticks_downcount (st s) - 1) <> 0 ->
  view mt (dda_timer_interrupt hw s)
  = let '(inc, acc, X, d, c) := tick_view (view mt s) in
    (inc, acc, X, int32 (d - 1), c).
Proof.
  intros Hw Hd. rewrite dda_timer_interrupt_eq. cbv zeta.
  rewrite view_call by reflexivity.
  pose proof (view_dda_front hw mt s Hw) as F.
  assert (D : stRunSingleton.timer_ticks_downcount (st (dda_front hw s))
              = stRunSingleton.timer_ticks_downcount (st s)).
  { unfold view, tick_view in F. injection F. auto. }
  rewrite D.
  replace (stRunSingleton.timer_ticks_downcount
             (st (st_set_timer_ticks_downcount
                    (int32 (stRunSingleton.timer_ticks_downcount (st s) - 1))
                    (dda_front hw s))))
    with (int32 (stRunSingleton.timer_ticks_downcount (st s) - 1)) by reflexivity.
  destruct (int32 (stRunSingleton.timer_ticks_downcount (st s) - 1) =? 0) eqn:E.
  - apply Z.eqb_eq in E. contradiction.
  - rewrite view_st_set_timer_ticks_downcount, F.
    unfold tick_view, view. reflexivity.
Qed.

(** Any tick, the last of its move or not, adds to the pulses of a wired
    motor what [dda_tick] says. *)
Lemma pulses_dda_timer_interrupt (hw : config) (mt : motor) (s : state) :
  step_isNull hw mt = false ->
  pulses mt (trace (dda_timer_interrupt hw s))
  = pulses mt (trace s)
    + (if snd (dda_tick (stRunMotor.phase_increment (st_m s mt))
                        (stRunSingleton.timer_ticks_X_substeps (st s))
                        (stRunMotor.phase_accumulator (st_m s mt)))
       then 1 else 0).
Proof.
  intros Hw. rewrite dda_timer_interrupt_eq. cbv zeta.
  rewrite pulses_call by reflexivity.
  pose proof (view_dda_front hw mt s Hw) as F.
  assert (P : pulses mt (trace (dda_front hw s))
              = pulses mt (trace s)
                + (if snd (dda_tick (stRunMotor.phase_increment (st_m s mt))
                                    (stRunSingleton.timer_ticks_X_substeps (st s))
                                    (stRunMotor.phase_accumulator (st_m s mt)))
                   then 1 else 0)).
  { unfold view, tick_view in F. injection F. auto. }
  destruct (_ =? 0).
  - rewrite pulses_dda_end_of_move, trace_st_set_timer_ticks_downcount. exact P.
  - rewrite trace_st_set_timer_ticks_downcount. exact P.
Qed.

(** [n] ticks, none of which ends the move. *)
Lemma view_dda_ticks (hw : config) (mt : motor) (s : state) (n : nat) :
  step_isNull hw mt = false ->
  Z.of_nat n < stRunSingleton.timer_ticks_downcount (st s) < 2 ^ 31 ->
  view mt (Nat.iter n (dda_timer_interrupt hw) s)
  = (stRunMotor.phase_increment (st_m s mt),
     fst (dda_run n (stRunMotor.phase_increment (st_m s mt))
                    (stRunSingleton.timer_ticks_X_substeps (st s))
                    (stRunMotor.phase_accumulator (st_m s mt))),
     stRunSingleton.timer_ticks_X_substeps (st s),
     stRunSingleton.timer_ticks_downcount (st s) - Z.of_nat n,
     pulses mt (trace s)
     + snd (dda_run n (stRunMotor.phase_increment (st_m s mt))
                      (stRunSingleton.timer_ticks_X_substeps (st s))
                      (stRunMotor.phase_accumulator (st_m s mt)))).
Proof.
  intros Hw. induction n as [|n IH]; intros Hd.
  - simpl. unfold view. f_equal; [f_equal|]; lia.
  - rewrite Nat.iter_succ. cbn [dda_run].
    specialize (IH ltac:(lia)).
    assert (D : stRunSingleton.timer_ticks_downcount
                  (st (Nat.iter n (dda_timer_interrupt hw) s))
                = stRunSingleton.timer_ticks_downcount (st s) - Z.of_nat n).
    { unfold view in IH. injection IH. auto. }
    rewrite view_dda_timer_interrupt; [|exact Hw|].
    + rewrite IH. unfold tick_view.
      destruct (dda_run n _ _ _) as [a c]. cbn [fst snd].
      destruct (dda_tick _ _ a) as [a' p]. cbn [fst snd].
      rewrite int32_small by lia.
      f_equal; [f_equal|]; lia.
    + rewrite D, int32_small by lia. lia.
Qed.

(** C1 (as amended). A wired motor whose accumulator starts a segment of
    [T] ticks at [- (T * substeps)], with [timer_ticks_X_substeps] equal to
    [T * substeps] and an increment [inc] between 0 and [T * substeps], gets
    over the [T] ticks of the segment [inc / substeps] step pulses when
    [substeps] does not divide [inc], and one fewer (none for [inc = 0])
    when it does: a pulse is emitted only when the accumulator becomes
    strictly positive. *)
Theorem dda_segment_pulses (hw : config) (s : state) (mt : motor)
    (T substeps inc : Z) :
  step_isNull hw mt = false ->
  0 < T -> 0 < substeps -> T * substeps < 2 ^ 31 ->
  stRunSingleton.timer_ticks_downcount (st s) = T ->
  stRunSingleton.timer_ticks_X_substeps (st s) = T * substeps ->
  stRunMotor.phase_accumulator (st_m s mt) = - (T * substeps) ->
  stRunMotor.phase_increment (st_m s mt) = inc ->
  0 <= inc <= T * substeps ->
  pulses mt (trace (Nat.iter (Z.to_nat T) (dda_timer_interrupt hw) s))
  = pulses mt (trace s)
    + (if inc mod substeps =? 0 then Z.max 0 (inc / substeps - 1)
       else inc / substeps).
Proof.
  intros Hw HT HS HX Hd Hx Hacc Hinc Hrange.
  rewrite <- (dda_run_count T substeps inc HT HS HX Hrange).
  assert (HTS : T <= T * substeps) by nia.
  replace (Z.to_nat T) with (Datatypes.S (Z.to_nat (T - 1))) by lia.
  rewrite Nat.iter_succ. cbn [dda_run].
  pose proof (view_dda_ticks hw mt s (Z.to_nat (T - 1)) Hw ltac:(lia)) as V.
  rewrite Hinc, Hx, Hacc in V.
  rewrite pulses_dda_timer_interrupt by exact Hw.
  unfold view in V. injection V as V1 V2 V3 V4 V5.
  rewrite V1, V2, V3, V5.
  destruct (dda_run (Z.to_nat (T - 1)) inc (T * substeps) (- (T * substeps))) as [a c].
  cbn [fst snd].
  destruct (dda_tick inc (T * substeps) a) as [a' p]. cbn [fst snd]. lia.
Qed.

Lemma dda_segment_pulses_witness :
  pulses MOTOR_1
    (trace (Nat.iter (Z.to_nat 200) (dda_timer_interrupt hw_ref)
              (running 200 2000 1005 (-2000))))
  = pulses MOTOR_1 (trace (running 200 2000 1005 (-2000)))
    + (if 1005 mod 10 =? 0 then Z.max 0 (1005 / 10 - 1) else 1005 / 10).
Proof.
  apply (dda_segment_pulses hw_ref (running 200 2000 1005 (-2000)) MOTOR_1 200 10 1005);
    try reflexivity; lia.
Defined.

(** C1 fails as stated: with [T = 200], ten substeps and an increment of
    1000 (a whole 100 steps), a motor started at [-2000] is pulsed 99 times
    over the 200 ticks, not 100. *)
Lemma dda_segment_pulses_counterexample :
  pulses MOTOR_1
    (trace (Nat.iter (Z.to_nat 200) (dda_timer_interrupt hw_ref)
              (running 200 2000 1000 (-2000)))) = 99
  /\ 1000 / 10 = 100.
Proof. split; vm_compute; reflexivity. Qed.

(** *** The loader *)

Lemma sps_load_motor (mt : motor) (v : Z) (s : state) :
  sps (load_motor mt v s) = sps s.
Proof.
  unfold load_motor. cbv zeta.
  destruct (negb _); [destruct (stPrepMotor.dir _ =? 0)|];
    destruct (stPrepSingleton.counter_reset_flag _); reflexivity.
Qed.

Lemma st_load_motor (mt : motor) (v : Z) (s : state) :
  st (load_motor mt v s)
  = let s1 := st_m_set_phase_increment mt
                (int32 (stPrepMotor.phase_increment (stPrepSingleton.m (sps s) mt))) s in
    st (if stPrepSingleton.counter_reset_flag (sps s)
        then st_m_set_phase_accumulator mt v s1 else s1).
Proof.
  unfold load_motor. cbv zeta.
  destruct (negb _); [destruct (stPrepMotor.dir _ =? 0)|]; reflexivity.
Qed.

Lemma downcount_load_motor (mt : motor) (v : Z) (s : state) :
  stRunSingleton.timer_ticks_downcount (st (load_motor mt v s))
  = stRunSingleton.timer_ticks_downcount (st s).
Proof.
  rewrite st_load_motor. cbv zeta.
  destruct (stPrepSingleton.counter_reset_flag (sps s)); reflexivity.
Qed.

Lemma st_m_load_motor_other (mt mt' : motor) (v : Z) (s : state) :
  mt <> mt' -> st_m (load_motor mt v s) mt' = st_m s mt'.
Proof.
  intros H. unfold st_m. rewrite st_load_motor. cbv zeta.
  destruct (stPrepSingleton.counter_reset_flag (sps s));
    unfold st_m_set_phase_accumulator, st_m_set_phase_increment, st_set_m,
      with_st, st_m, upd; simpl;
    rewrite !(motor_eqb_neq mt' mt) by congruence; reflexivity.
Qed.

Lemma st_m_load_motor_self (mt : motor) (v : Z) (s : state) :
  st_m (load_motor mt v s) mt
  = stRunMotor.mk
      (int32 (stPrepMotor.phase_increment (stPrepSingleton.m (sps s) mt)))
      (if stPrepSingleton.counter_reset_flag (sps s) then v
       else stRunMotor.phase_accumulator (st_m s mt))
      (stRunMotor.step_count_diagnostic (st_m s mt)).
Proof.
  unfold st_m. rewrite st_load_motor. cbv zeta.
  destruct (stPrepSingleton.counter_reset_flag (sps s));
    unfold st_m_set_phase_accumulator, st_m_set_phase_increment, st_set_m,
      with_st, st_m, upd; simpl; rewrite ?motor_eqb_refl; simpl;
    rewrite ?motor_eqb_refl; reflexivity.
Qed.

(** The aline branch of the loader, and what follows every branch. *)
Lemma _load_move_aline (s : state) :
  stPrepSingleton.move_type (sps s) = MOVE_TYPE_ALINE ->
  _load_move s = load_done (load_aline s).
Proof.
  intros Hmove. unfold _load_move, load_done, load_aline. cbv zeta.
  rewrite Hmove. reflexivity.
Qed.

Lemma st_load_done (s : state) : st (load_done s) = st s.
Proof. reflexivity. Qed.

Lemma trace_load_done (s : state) :
  trace (load_done s) = timer_setInterruptPending exec_timer :: trace s.
Proof. reflexivity. Qed.

Lemma st_call (e : event) (s : state) : st (call e s) = st s.
Proof. reflexivity. Qed.

Lemma st_m_st (a b : state) (mt : motor) : st a = st b -> st_m a mt = st_m b mt.
Proof. intros H. unfold st_m. rewrite H. reflexivity. Qed.

Lemma sps_st_set_timer_ticks_downcount (v : Z) (s : state) :
  sps (st_set_timer_ticks_downcount v s) = sps s.
Proof. reflexivity. Qed.

Lemma sps_st_set_timer_ticks_X_substeps (v : Z) (s : state) :
  sps (st_set_timer_ticks_X_substeps v s) = sps s.
Proof. reflexivity. Qed.

Lemma st_m_st_set_timer_ticks_downcount (v : Z) (s : state) (mt : motor) :
  st_m (st_set_timer_ticks_downcount v s) mt = st_m s mt.
Proof. reflexivity. Qed.

Lemma st_m_st_set_timer_ticks_X_substeps (v : Z) (s : state) (mt : motor) :
  st_m (st_set_timer_ticks_X_substeps v s) mt = st_m s mt.
Proof. reflexivity. Qed.

Lemma downcount_st_set_timer_ticks_X_substeps (v : Z) (s : state) :
  stRunSingleton.timer_ticks_downcount (st (st_set_timer_ticks_X_substeps v s))
  = stRunSingleton.timer_ticks_downcount (st s).
Proof. reflexivity. Qed.

Lemma downcount_st_set_timer_ticks_downcount (v : Z) (s : state) :
  stRunSingleton.timer_ticks_downcount (st (st_set_timer_ticks_downcount v s)) = v.
Proof. reflexivity. Qed.

(** What an aline load leaves in the runtime of motor [mt]. *)
Lemma st_m_load_aline (s : state) (mt : motor) :
  stPrepSingleton.move_type (sps s) = MOVE_TYPE_ALINE ->
  st_m (_load_move s) mt
  = stRunMotor.mk
      (int32 (stPrepMotor.phase_increment (stPrepSingleton.m (sps s) mt)))
      (if stPrepSingleton.counter_reset_flag (sps s)
       then match mt with
            | MOTOR_1 | MOTOR_2 | MOTOR_3 =>
                int32 (- int32 (stPrepSingleton.timer_ticks (sps s)))
            | MOTOR_4 | MOTOR_5 | MOTOR_6 =>
                int32 (stPrepSingleton.timer_ticks (sps s))
            end
       else stRunMotor.phase_accumulator (st_m s mt))
      (stRunMotor.step_count_diagnostic (st_m s mt)).
Proof.
  intros Hmove. rewrite (_load_move_aline s Hmove).
  rewrite (st_m_st _ _ mt (st_load_done _)).
  unfold load_aline, st_enable. cbv zeta.
  rewrite (st_m_st _ _ mt (st_call _ _)).
  rewrite (st_m_st _ _ mt (st_call _ _)).
  destruct mt;
    repeat first
      [ rewrite st_m_load_motor_other by discriminate
      | rewrite st_m_load_motor_self ];
    rewrite ?sps_load_motor, ?downcount_load_motor,
      ?sps_st_set_timer_ticks_X_substeps, ?sps_st_set_timer_ticks_downcount,
      ?st_m_st_set_timer_ticks_X_substeps, ?st_m_st_set_timer_ticks_downcount,
      ?downcount_st_set_timer_ticks_X_substeps,
      ?downcount_st_set_timer_ticks_downcount;
    reflexivity.
Qed.

Lemma downcount_load_aline (s : state) :
  stPrepSingleton.move_type (sps s) = MOVE_TYPE_ALINE ->
  stRunSingleton.timer_ticks_downcount (st (_load_move s))
  = int32 (stPrepSingleton.timer_ticks (sps s)).
Proof.
  intros Hmove. rewrite (_load_move_aline s Hmove), st_load_done.
  unfold load_aline, st_enable. cbv zeta.
  rewrite !st_call, !downcount_load_motor.
  rewrite downcount_st_set_timer_ticks_X_substeps,
    downcount_st_set_timer_ticks_downcount.
  reflexivity.
Qed.

(** C2, on the code. With the counter reset requested, an aline load sets the
    down-counter to the staged [timer_ticks] and the accumulators of motors
    1 to 3 to its negation, but the accumulators of motors 4 to 6 to the
    down-counter itself, sign not inverted. *)
Theorem load_move_reset_accumulators (s : state) (T : Z) :
  let s' := _load_move (staged_reset T s) in
  stRunSingleton.timer_ticks_downcount (st s') = int32 T
  /\ stRunMotor.phase_accumulator (st_m s' MOTOR_1) = int32 (- int32 T)
  /\ stRunMotor.phase_accumulator (st_m s' MOTOR_2) = int32 (- int32 T)
  /\ stRunMotor.phase_accumulator (st_m s' MOTOR_3) = int32 (- int32 T)
  /\ stRunMotor.phase_accumulator (st_m s' MOTOR_4) = int32 T
  /\ stRunMotor.phase_accumulator (st_m s' MOTOR_5) = int32 T
  /\ stRunMotor.phase_accumulator (st_m s' MOTOR_6) = int32 T.
Proof.
  cbv zeta.
  rewrite downcount_load_aline by reflexivity.
  rewrite !st_m_load_aline by reflexivity.
  repeat split.
Qed.

(** C2 at the failing input: 200 ticks staged with the reset requested leave
    motor 4 at [+200] where motor 1 is at [-200]. *)
Example load_move_reset_motor_4 :
  stRunMotor.phase_accumulator
    (st_m (_load_move (staged_reset 200 (stepper_init hw_ref power_on))) MOTOR_4) = 200
  /\ stRunMotor.phase_accumulator
       (st_m (_load_move (staged_reset 200 (stepper_init hw_ref power_on))) MOTOR_1) = -200
  /\ stRunSingleton.timer_ticks_downcount
       (st (_load_move (staged_reset 200 (stepper_init hw_ref power_on)))) = 200.
Proof. repeat split. Qed.

(** The loader leaves the enable line of a motor with nothing to do alone:
    an aline load of a state whose staged increment for [mt] is zero makes
    no call on [motor_N.enable]. *)
Lemma calls_on_cons (p : pin) (e : event) (t : list event) :
  calls_on p (e :: t) = if on_pin p e then e :: calls_on p t else calls_on p t.
Proof. reflexivity. Qed.

Lemma calls_on_call (p : pin) (e : event) (s : state) :
  on_pin p e = false -> calls_on p (trace (call e s)) = calls_on p (trace s).
Proof. intros H. unfold call. simpl trace. rewrite calls_on_cons, H. reflexivity. Qed.

Lemma calls_on_enable_load_motor_other (mt mt' : motor) (v : Z) (s : state) :
  mt <> mt' ->
  calls_on (enable_of mt') (trace (load_motor mt v s))
  = calls_on (enable_of mt') (trace s).
Proof.
  intros H. unfold load_motor. cbv zeta.
  assert (E : motor_eqb mt mt' = false) by (apply motor_eqb_neq; exact H).
  destruct (negb _); [destruct (stPrepMotor.dir _ =? 0)|];
    destruct (stPrepSingleton.counter_reset_flag _);
    rewrite ?calls_on_call by (simpl; auto);
    reflexivity.
Qed.

Lemma calls_on_enable_load_motor_idle (mt : motor) (v : Z) (s : state) :
  stPrepMotor.phase_increment (stPrepSingleton.m (sps s) mt) = 0 ->
  calls_on (enable_of mt) (trace (load_motor mt v s))
  = calls_on (enable_of mt) (trace s).
Proof.
  intros H. unfold load_motor. cbv zeta.
  replace (stRunMotor.phase_increment _ =? 0) with true.
  - simpl negb. cbv iota.
    destruct (stPrepSingleton.counter_reset_flag _); reflexivity.
  - symmetry. apply Z.eqb_eq.
    destruct (stPrepSingleton.counter_reset_flag _);
      unfold st_m_set_phase_accumulator, st_m_set_phase_increment, st_set_m,
        with_st, st_m, upd; simpl; rewrite ?motor_eqb_refl; simpl;
      rewrite ?motor_eqb_refl; simpl; rewrite H; reflexivity.
Qed.

Lemma loader_spares_idle_enable (s : state) (mt : motor) :
  stPrepSingleton.move_type (sps s) = MOVE_TYPE_ALINE ->
  stPrepMotor.phase_increment (stPrepSingleton.m (sps s) mt) = 0 ->
  calls_on (enable_of mt) (trace (_load_move s)) = calls_on (enable_of mt) (trace s).
Proof.
  intros Hmove Hinc. rewrite (_load_move_aline s Hmove), trace_load_done.
  rewrite calls_on_cons. cbn [on_pin].
  unfold load_aline, st_enable. cbv zeta.
  rewrite !calls_on_call by reflexivity.
  destruct mt;
    repeat first
      [ rewrite calls_on_enable_load_motor_other by discriminate
      | rewrite calls_on_enable_load_motor_idle
          by (rewrite ?sps_load_motor; exact Hinc) ];
    reflexivity.
Qed.

(** C3, on the code. In the run [velocity_jump] the second move is loaded
    with the counter reset; motor 4 has no step to make in it (its staged
    and its loaded increment are 0) and the loader leaves its accumulator at
    [+20]. The first tick of the move finds the accumulator positive and
    pulses motor 4: one step pulse over the 20 ticks of the move, on a motor
    that was asked for none. The loader itself makes no call on the enable
    line of motor 4. *)
Theorem idle_motor_pulsed_after_reset :
  stPrepSingleton.counter_reset_flag (sps velocity_jump) = true
  /\ stPrepMotor.phase_increment (stPrepSingleton.m (sps velocity_jump) MOTOR_4) = 0
  /\ view MOTOR_4 velocity_jump = (0, 20, 200, 20, 0)
  /\ pulses MOTOR_4 (trace (dda_timer_interrupt hw_ref velocity_jump)) = 1
  /\ pulses MOTOR_4 (trace (Nat.iter 20 (dda_timer_interrupt hw_ref) velocity_jump)) = 1
  /\ calls_on (enable_of MOTOR_4) (trace velocity_jump) = [pin_set (enable_of MOTOR_4)].
Proof. vm_compute. repeat split. Qed.

(** *** Enable and disable *)

(** C8, on the code. [st_disable] stops the DDA timer, sets the common
    enable line, sets the enable lines of motors 1, 2, 4, 5 and 6 and clears
    all six increments; it makes no call on the enable line of motor 3. *)
Theorem st_disable_calls (s : state) :
  trace (st_disable s)
  = [pin_set (enable_of MOTOR_6); pin_set (enable_of MOTOR_5);
     pin_set (enable_of MOTOR_4); pin_set (enable_of MOTOR_2);
     pin_set (enable_of MOTOR_1); pin_set enable; timer_stop dda_timer]
    ++ trace s
  /\ (forall mt, stRunMotor.phase_increment (st_m (st_disable s) mt) = 0)
  /\ calls_on (enable_of MOTOR_3) (trace (st_disable s))
     = calls_on (enable_of MOTOR_3) (trace s).
Proof.
  split; [reflexivity|]. split; [|reflexivity].
  intros mt. destruct mt; reflexivity.
Qed.

(** *** The dwell interrupt *)

Lemma int32_pred_zero (d : Z) :
  - 2 ^ 31 <= d < 2 ^ 31 -> (int32 (d - 1) =? 0) = (d =? 1).
Proof.
  intros H.
  destruct (Z.eq_dec d (- 2 ^ 31)) as [E|E].
  - subst d. reflexivity.
  - rewrite int32_small by lia.
    destruct (Z.eqb_spec (d - 1) 0), (Z.eqb_spec d 1); lia || reflexivity.
Qed.

(** C10. With the down-counter in its [int32_t] range, the dwell interrupt
    stops the dwell timer and runs the loader exactly when the counter is 1
    on entry; on any other value it only acknowledges the interrupt and
    stores the decremented counter. A dwell loaded with [timer_ticks = 0]
    leaves the counter at 0, so its first tick stores [-1] and neither stops
    the timer nor loads. *)
Theorem dwell_timer_interrupt_fires (s : state) :
  (- 2 ^ 31 <= stRunSingleton.timer_ticks_downcount (st s) < 2 ^ 31 ->
   dwell_timer_interrupt s
   = if stRunSingleton.timer_ticks_downcount (st s) =? 1
     then _load_move
            (call (timer_stop dwell_timer)
               (st_set_timer_ticks_downcount 0
                  (call (timer_getInterruptCause dwell_timer) s)))
     else st_set_timer_ticks_downcount
            (int32 (stRunSingleton.timer_ticks_downcount (st s) - 1))
            (call (timer_getInterruptCause dwell_timer) s))
  /\ (let s0 := _load_move (staged_dwell 0 s) in
      stRunSingleton.timer_ticks_downcount (st s0) = 0
      /\ dwell_timer_interrupt s0
         = st_set_timer_ticks_downcount (-1)
             (call (timer_getInterruptCause dwell_timer) s0)).
Proof.
  split.
  - intros H. unfold dwell_timer_interrupt. cbv zeta.
    change (stRunSingleton.timer_ticks_downcount
              (st (call (timer_getInterruptCause dwell_timer) s)))
      with (stRunSingleton.timer_ticks_downcount (st s)).
    change (stRunSingleton.timer_ticks_downcount
              (st (st_set_timer_ticks_downcount ?v ?x))) with v.
    rewrite (int32_pred_zero _ H).
    destruct (Z.eqb_spec (stRunSingleton.timer_ticks_downcount (st s)) 1) as [E|E];
      [rewrite E|]; reflexivity.
  - cbv zeta. split; reflexivity.
Qed.

Lemma dwell_timer_interrupt_fires_witness :
  dwell_timer_interrupt (dwelling 1)
  = _load_move
      (call (timer_stop dwell_timer)
         (st_set_timer_ticks_downcount 0
            (call (timer_getInterruptCause dwell_timer) (dwelling 1)))).
Proof.
  apply (proj1 (dwell_timer_interrupt_fires (dwelling 1))).
  vm_compute. split; [intros H; discriminate H | reflexivity].
Defined.

(** *** Segment preparation *)

Lemma m_sps_set_move_type (v : moveType) (p : stPrepSingleton.t) :
  stPrepSingleton.m (sps_set_move_type v p) = stPrepSingleton.m p.
Proof. reflexivity. Qed.

Lemma m_sps_set_prev_ticks (v : Z) (p : stPrepSingleton.t) :
  stPrepSingleton.m (sps_set_prev_ticks v p) = stPrepSingleton.m p.
Proof. reflexivity. Qed.

Lemma m_sps_set_counter_reset_flag (v : bool) (p : stPrepSingleton.t) :
  stPrepSingleton.m (sps_set_counter_reset_flag v p) = stPrepSingleton.m p.
Proof. reflexivity. Qed.

Lemma m_sps_set_timer_ticks_X_substeps (v : Z) (p : stPrepSingleton.t) :
  stPrepSingleton.m (sps_set_timer_ticks_X_substeps v p) = stPrepSingleton.m p.
Proof. reflexivity. Qed.

Lemma m_sps_set_timer_ticks (v : Z) (p : stPrepSingleton.t) :
  stPrepSingleton.m (sps_set_timer_ticks v p) = stPrepSingleton.m p.
Proof. reflexivity. Qed.

Lemma pair_snd_eq {A B : Type} (a c : A) (b d : B) : (a, b) = (c, d) -> b = d.
Proof. intros H. exact (f_equal snd H). Qed.

(** The prep singleton a successful [st_prep_line] leaves. *)
Lemma st_prep_line_ok (hw : config) (steps : motor -> spec_float)
    (microseconds : spec_float) (p p' : stPrepSingleton.t) :
  st_prep_line hw steps microseconds p = (STAT_OK, p') ->
  stPrepSingleton.exec_state p = PREP_BUFFER_OWNED_BY_EXEC
  /\ isfinite microseconds = true
  /\ float_ltb microseconds (EPSILON hw) = false
  /\ stPrepSingleton.timer_ticks p'
     = float_to_uint32 (uint32_out_of_range hw) (line_ticks hw microseconds)
  /\ stPrepSingleton.timer_ticks_X_substeps p'
     = uint32 (float_to_uint32 (uint32_out_of_range hw) (line_ticks hw microseconds)
               * DDA_SUBSTEPS hw)
  /\ stPrepSingleton.counter_reset_flag p'
     = (uint32 (float_to_uint32 (uint32_out_of_range hw) (line_ticks hw microseconds)
                * COUNTER_RESET_FACTOR hw)
        <? stPrepSingleton.prev_ticks p)
  /\ stPrepSingleton.prev_ticks p'
     = float_to_uint32 (uint32_out_of_range hw) (line_ticks hw microseconds)
  /\ stPrepSingleton.move_type p' = MOVE_TYPE_ALINE
  /\ stPrepSingleton.exec_state p' = PREP_BUFFER_OWNED_BY_EXEC
  /\ stPrepSingleton.magic_start p' = stPrepSingleton.magic_start p
  /\ stPrepSingleton.m p'
     = stPrepSingleton.m
         (fold_left (prep_motor hw steps) MOTORS (sps_set_counter_reset_flag false p)).
Proof.
  unfold st_prep_line.
  destruct (stPrepSingleton.exec_state p) eqn:Hx; [discriminate|].
  destruct (isfinite microseconds) eqn:Hf; [|discriminate].
  destruct (float_ltb microseconds (EPSILON hw)) eqn:He; [discriminate|].
  change (negb true) with false. cbv iota zeta.
  intros H. apply pair_snd_eq in H. subst p'.
  unfold line_ticks.
  set (t := float_to_uint32 (uint32_out_of_range hw)
              (f32_mul (f32_div microseconds (f32_of_Z 1000000))
                 (f32_of_Z (FREQUENCY_DDA hw)))).
  change (stPrepSingleton.timer_ticks (sps_set_timer_ticks t ?q)) with t.
  change (stPrepSingleton.timer_ticks
            (sps_set_timer_ticks_X_substeps ?v (sps_set_timer_ticks t ?q))) with t.
  change (stPrepSingleton.prev_ticks
            (sps_set_timer_ticks_X_substeps ?v
               (sps_set_timer_ticks t
                  (fold_left (prep_motor hw steps) MOTORS
                     (sps_set_counter_reset_flag false p)))))
    with (stPrepSingleton.prev_ticks p).
  do 3 (split; [reflexivity|]).
  destruct (uint32 (t * COUNTER_RESET_FACTOR hw) <? stPrepSingleton.prev_ticks p);
    do 5 (split; [reflexivity|]); (split; [exact Hx|]); (split; [reflexivity|]);
    rewrite m_sps_set_move_type, m_sps_set_prev_ticks, ?m_sps_set_counter_reset_flag,
      m_sps_set_timer_ticks_X_substeps, m_sps_set_timer_ticks;
    reflexivity.
Qed.

(** The cast is the integral part whenever that fits [uint32_t]. *)
Lemma float_to_uint32_in_range (oor : spec_float -> Z) (x : spec_float) (z : Z) :
  SF2Z_trunc x = Some z -> 0 <= z < 2 ^ 32 -> float_to_uint32 oor x = z.
Proof.
  intros Hx Hz. unfold float_to_uint32. rewrite Hx.
  destruct (Z.leb_spec 0 z); [|lia].
  destruct (Z.ltb_spec z (2 ^ 32)); [reflexivity|lia].
Qed.

(** The integral part of a positive float [m * 2^e] is the floor of its
    value: the fraction is dropped, never rounded up. *)
Lemma SF2Z_trunc_floor (m : positive) (e z : Z) :
  SF2Z_trunc (S754_finite false m e) = Some z ->
  if e <? 0 then z * 2 ^ (- e) <= Zpos m < (z + 1) * 2 ^ (- e)
  else z = Zpos m * 2 ^ e.
Proof.
  unfold SF2Z_trunc, cond_Zopp. intros H. injection H as H. subst z.
  destruct e as [|q|q].
  - simpl. lia.
  - change (Z.pos q <? 0) with false. cbv iota.
    apply Z.shiftl_mul_pow2. lia.
  - change (Z.neg q <? 0) with true. cbv iota.
    change (- Z.neg q) with (Z.pos q).
    rewrite Z.shiftr_div_pow2 by lia.
    assert (P : 0 < 2 ^ Z.pos q) by (apply Z.pow_pos_nonneg; lia).
    pose proof (Z.div_mod (Z.pos m) (2 ^ Z.pos q) ltac:(lia)) as D.
    pose proof (Z.mod_pos_bound (Z.pos m) (2 ^ Z.pos q) P) as B.
    nia.
Qed.

(** *** Comparing a float with [EPSILON] *)






(** What the condition on [EPSILON] is for: on a board built with the
    [float] constant [0.00001f], [microseconds = EPSILON] is finite and
    [<= EPSILON], not [< EPSILON], and [st_prep_line] stages the line. *)
Example st_prep_line_float_epsilon :
  wider_than_float (EPSILON hw_ref) = false
  /\ float_leb (EPSILON hw_ref) (EPSILON hw_ref) = true
  /\ float_ltb (EPSILON hw_ref) (EPSILON hw_ref) = false
  /\ fst (st_prep_line hw_ref (steps_1 1) (EPSILON hw_ref)
            (sps (stepper_init hw_ref power_on))) = STAT_OK.
Proof. vm_compute. repeat split. Qed.

(** C5 (as amended). After a successful [st_prep_line] the staged
    [timer_ticks] is the integral part of the single-precision product
    [(microseconds / 1000000) * FREQUENCY_DDA], its fraction dropped,
    whenever that integral part fits 32 bits; for a product [m * 2^e] with
    a fraction ([e < 0]) it is the floor of the product. *)
Theorem st_prep_line_timer_ticks (hw : config) (steps : motor -> spec_float)
    (microseconds : spec_float) (p p' : stPrepSingleton.t) (z : Z) :
  st_prep_line hw steps microseconds p = (STAT_OK, p') ->
  SF2Z_trunc (line_ticks hw microseconds) = Some z ->
  0 <= z < 2 ^ 32 ->
  stPrepSingleton.timer_ticks p' = z
  /\ forall m e, line_ticks hw microseconds = S754_finite false m e -> e < 0 ->
       stPrepSingleton.timer_ticks p' * 2 ^ (- e) <= Zpos m
       < (stPrepSingleton.timer_ticks p' + 1) * 2 ^ (- e).
Proof.
  intros H Hz Hr.
  destruct (st_prep_line_ok hw steps microseconds p p' H) as (_ & _ & _ & Ht & _).
  rewrite Ht, (float_to_uint32_in_range _ _ z Hz Hr).
  split; [reflexivity|].
  intros m e Hm He. rewrite Hm in Hz.
  pose proof (SF2Z_trunc_floor m e z Hz) as F.
  destruct (Z.ltb_spec e 0); [exact F|lia].
Qed.

Lemma st_prep_line_timer_ticks_witness :
  stPrepSingleton.timer_ticks
    (snd (st_prep_line hw_ref (steps_1 100) (f32_of_Z 1000)
            (sps (stepper_init hw_ref power_on)))) = 200.
Proof.
  apply (st_prep_line_timer_ticks hw_ref (steps_1 100) (f32_of_Z 1000)
           (sps (stepper_init hw_ref power_on))
           (snd (st_prep_line hw_ref (steps_1 100) (f32_of_Z 1000)
                   (sps (stepper_init hw_ref power_on)))) 200).
  - vm_compute. reflexivity.
  - vm_compute. reflexivity.
  - lia.
Defined.

(** C5 fails as stated at [microseconds = 8]: the value is finite and not
    below [EPSILON], the product is about 1.6, whose nearest integer is 2,
    and the staged [timer_ticks] is 1. *)
Lemma st_prep_line_timer_ticks_counterexample :
  isfinite (f32_of_Z 8) = true
  /\ float_ltb (f32_of_Z 8) (EPSILON hw_ref) = false
  /\ fst (st_prep_line hw_ref (steps_1 1) (f32_of_Z 8)
            (sps (stepper_init hw_ref power_on))) = STAT_OK
  /\ stPrepSingleton.timer_ticks
       (snd (st_prep_line hw_ref (steps_1 1) (f32_of_Z 8)
               (sps (stepper_init hw_ref power_on)))) = 1
  /\ SF2Z_round (line_ticks hw_ref (f32_of_Z 8)) = Some 2.
Proof. vm_compute. repeat split. Qed.

(** C6. After a successful [st_prep_line] the counter reset flag is set
    exactly when the new [timer_ticks] times [COUNTER_RESET_FACTOR], in
    32-bit unsigned arithmetic, is strictly below the [prev_ticks] the call
    found; and [prev_ticks] is the new [timer_ticks]. *)
Theorem st_prep_line_counter_reset (hw : config) (steps : motor -> spec_float)
    (microseconds : spec_float) (p p' : stPrepSingleton.t) :
  st_prep_line hw steps microseconds p = (STAT_OK, p') ->
  (stPrepSingleton.counter_reset_flag p' = true
   <-> uint32 (stPrepSingleton.timer_ticks p' * COUNTER_RESET_FACTOR hw)
       < stPrepSingleton.prev_ticks p)
  /\ stPrepSingleton.prev_ticks p' = stPrepSingleton.timer_ticks p'.
Proof.
  intros H.
  destruct (st_prep_line_ok hw steps microseconds p p' H)
    as (_ & _ & _ & Ht & _ & Hflag & Hprev & _).
  rewrite Hflag, Hprev, Ht. split; [|reflexivity].
  apply Z.ltb_lt.
Qed.

Lemma st_prep_line_counter_reset_witness :
  (stPrepSingleton.counter_reset_flag (sps velocity_jump) = true
   <-> uint32 (stPrepSingleton.timer_ticks (sps velocity_jump)
               * COUNTER_RESET_FACTOR hw_ref) < 200)
  /\ stPrepSingleton.prev_ticks (sps velocity_jump)
     = stPrepSingleton.timer_ticks (sps velocity_jump).
Proof.
  apply (st_prep_line_counter_reset hw_ref (steps_1 1) (f32_of_Z 100)
           (sps (load_timer_interrupt
                   (exec_timer_interrupt
                      (st_prep_line hw_ref (steps_1 10) (f32_of_Z 1000))
                      (stepper_init hw_ref power_on))))
           (sps velocity_jump)).
  vm_compute. reflexivity.
Defined.

(** What the loop of [st_prep_line] stages for motor [i]. *)
Lemma m_prep_motors (hw : config) (steps : motor -> spec_float)
    (p : stPrepSingleton.t) (i : motor) :
  stPrepSingleton.m (fold_left (prep_motor hw steps) MOTORS p) i
  = stPrepMotor.mk
      (float_to_uint32 (uint32_out_of_range hw)
         (fabs (f32_mul (steps i) (f32_of_Z (DDA_SUBSTEPS hw)))))
      (int8 (Z.lxor (if SFltb (steps i) (f32_of_Z 0) then 1 else 0) (polarity hw i))).
Proof.
  destruct i;
    cbv [fold_left MOTORS prep_motor sps_m_set_dir sps_m_set_phase_increment
         sps_set_m upd motor_eqb stPrepSingleton.m stPrepMotor.dir
         stPrepMotor.phase_increment];
    reflexivity.
Qed.

(** C7. On a board with ten substeps, a DDA at 200 kHz and no polarity
    inversion, with the prep buffer owned by the exec side (and 1000 us not
    below [EPSILON]), [st_prep_line] of the step vector (100,0,0,0,0,0)
    over 1000 us returns [STAT_OK] and stages 200 ticks, 2000 ticks times
    substeps (the 32-bit integer product of the two), an increment of 1000
    for motor 1 and direction 0. *)
Theorem st_prep_line_single_axis (hw : config) (p : stPrepSingleton.t) :
  DDA_SUBSTEPS hw = 10 ->
  FREQUENCY_DDA hw = 200000 ->
  (forall i, polarity hw i = 0) ->
  stPrepSingleton.exec_state p = PREP_BUFFER_OWNED_BY_EXEC ->
  float_ltb (f32_of_Z 1000) (EPSILON hw) = false ->
  let r := st_prep_line hw (steps_1 100) (f32_of_Z 1000) p in
  fst r = STAT_OK
  /\ stPrepSingleton.timer_ticks (snd r) = 200
  /\ stPrepSingleton.timer_ticks_X_substeps (snd r) = 2000
  /\ stPrepSingleton.timer_ticks_X_substeps (snd r)
     = uint32 (stPrepSingleton.timer_ticks (snd r) * DDA_SUBSTEPS hw)
  /\ stPrepMotor.phase_increment (stPrepSingleton.m (snd r) MOTOR_1) = 1000
  /\ stPrepMotor.dir (stPrepSingleton.m (snd r) MOTOR_1) = 0.
Proof.
  intros HS HF HP Hx He. cbv zeta.
  assert (Hok : exists p', st_prep_line hw (steps_1 100) (f32_of_Z 1000) p = (STAT_OK, p')).
  { unfold st_prep_line. rewrite Hx, He.
    change (isfinite (f32_of_Z 1000)) with true.
    change (negb true) with false. cbv iota. eexists. reflexivity. }
  destruct Hok as [p' Hok]. rewrite Hok. cbn [fst snd].
  destruct (st_prep_line_ok hw _ _ p p' Hok)
    as (_ & _ & _ & Ht & Hxs & _ & _ & _ & _ & _ & Hm).
  assert (T200 : float_to_uint32 (uint32_out_of_range hw)
                   (line_ticks hw (f32_of_Z 1000)) = 200).
  { unfold line_ticks. rewrite HF.
    apply float_to_uint32_in_range; [vm_compute; reflexivity | lia]. }
  rewrite T200 in Ht, Hxs. rewrite HS in Hxs.
  rewrite Ht, Hxs, Hm, m_prep_motors, HS, HP.
  cbn [stPrepMotor.phase_increment stPrepMotor.dir].
  repeat split.
Qed.

Lemma st_prep_line_single_axis_witness :
  let r := st_prep_line hw_ref (steps_1 100) (f32_of_Z 1000)
             (sps (stepper_init hw_ref power_on)) in
  fst r = STAT_OK
  /\ stPrepSingleton.timer_ticks (snd r) = 200
  /\ stPrepSingleton.timer_ticks_X_substeps (snd r) = 2000
  /\ stPrepSingleton.timer_ticks_X_substeps (snd r)
     = uint32 (stPrepSingleton.timer_ticks (snd r) * DDA_SUBSTEPS hw_ref)
  /\ stPrepMotor.phase_increment (stPrepSingleton.m (snd r) MOTOR_1) = 1000
  /\ stPrepMotor.dir (stPrepSingleton.m (snd r) MOTOR_1) = 0.
Proof.
  apply (st_prep_line_single_axis hw_ref (sps (stepper_init hw_ref power_on)));
    reflexivity.
Defined.

(** The cast always gives a 32-bit value. *)
Lemma float_to_uint32_range (oor : spec_float -> Z) (x : spec_float) :
  0 <= float_to_uint32 oor x < 2 ^ 32.
Proof.
  assert (U : forall z, 0 <= uint32 z < 2 ^ 32)
    by (intros z; unfold uint32; apply Z.mod_pos_bound; lia).
  unfold float_to_uint32.
  destruct (SF2Z_trunc x) as [z|]; [|apply U].
  destruct (Z.leb_spec 0 z); cbn [andb]; [|apply U].
  destruct (Z.ltb_spec z (2 ^ 32)); [lia|apply U].
Qed.

(** C9 (as amended). [st_prep_dwell] tests nothing and returns nothing:
    whatever [microseconds] is (zero, negative, below [EPSILON], not
    finite) and whoever owns the prep buffer, it sets the move type to
    dwell and [timer_ticks] to the cast to [uint32_t] of the product
    [(microseconds / 1000000) * FREQUENCY_DWELL], and changes no other
    field. The cast is a 32-bit value: it is the integral part of the
    product, fraction dropped, whenever that is between 0 and 2^32 - 1,
    and never the integral part when that is negative. [st_prep_line]
    given the same [microseconds] refuses it when it is not finite or
    below [EPSILON], or when the buffer is not owned by the exec side, and
    then changes nothing. *)
Theorem st_prep_dwell_unchecked (hw : config) (microseconds : spec_float)
    (p : stPrepSingleton.t) :
  let p' := st_prep_dwell hw microseconds p in
  stPrepSingleton.move_type p' = MOVE_TYPE_DWELL
  /\ stPrepSingleton.timer_ticks p'
     = float_to_uint32 (uint32_out_of_range hw) (dwell_ticks hw microseconds)
  /\ 0 <= stPrepSingleton.timer_ticks p' < 2 ^ 32
  /\ (forall z, SF2Z_trunc (dwell_ticks hw microseconds) = Some z ->
                0 <= z < 2 ^ 32 -> stPrepSingleton.timer_ticks p' = z)
  /\ (forall z, SF2Z_trunc (dwell_ticks hw microseconds) = Some z ->
                z < 0 -> stPrepSingleton.timer_ticks p' <> z)
  /\ stPrepSingleton.exec_state p' = stPrepSingleton.exec_state p
  /\ stPrepSingleton.counter_reset_flag p' = stPrepSingleton.counter_reset_flag p
  /\ stPrepSingleton.prev_ticks p' = stPrepSingleton.prev_ticks p
  /\ stPrepSingleton.timer_ticks_X_substeps p' = stPrepSingleton.timer_ticks_X_substeps p
  /\ stPrepSingleton.magic_start p' = stPrepSingleton.magic_start p
  /\ stPrepSingleton.m p' = stPrepSingleton.m p
  /\ (forall steps,
        stPrepSingleton.exec_state p = PREP_BUFFER_OWNED_BY_LOADER
        \/ isfinite microseconds = false
        \/ float_ltb microseconds (EPSILON hw) = true ->
        fst (st_prep_line hw steps microseconds p) <> STAT_OK
        /\ snd (st_prep_line hw steps microseconds p) = p).
Proof.
  cbv zeta. unfold st_prep_dwell. cbv zeta.
  pose proof (float_to_uint32_range (uint32_out_of_range hw)
                (dwell_ticks hw microseconds)) as R.
  do 2 (split; [reflexivity|]).
  split; [exact R|].
  split.
  { intros z Hz Hr. apply float_to_uint32_in_range; assumption. }
  split.
  { intros z _ Hneg E.
    change (float_to_uint32 (uint32_out_of_range hw) (dwell_ticks hw microseconds)
            = z) in E.
    lia. }
  do 6 (split; [reflexivity|]).
  intros steps H. unfold st_prep_line.
  destruct (stPrepSingleton.exec_state p).
  - split; [discriminate|reflexivity].
  - destruct H as [H|[H|H]]; [discriminate| |].
    + rewrite H. split; [discriminate|reflexivity].
    + rewrite H. destruct (isfinite microseconds); split; (discriminate || reflexivity).
Qed.

Lemma st_prep_dwell_unchecked_witness :
  stPrepSingleton.timer_ticks
    (st_prep_dwell hw_ref (f32_of_Z 5000) (sps power_on)) = 50.
Proof.
  apply (proj1 (proj2 (proj2 (proj2
           (st_prep_dwell_unchecked hw_ref (f32_of_Z 5000) (sps power_on)))))).
  - vm_compute. reflexivity.
  - lia.
Defined.

(** C9 fails as stated at a negative argument: for minus five
    milliseconds the product is -50, its truncated value is -50, and
    [timer_ticks], a [uint32_t], is not -50. *)
Lemma st_prep_dwell_unchecked_counterexample :
  SF2Z_trunc (dwell_ticks hw_ref (f32_of_Z (-5000))) = Some (-50)
  /\ stPrepSingleton.timer_ticks
       (st_prep_dwell hw_ref (f32_of_Z (-5000)) (sps power_on)) <> -50
  /\ stPrepSingleton.move_type
       (st_prep_dwell hw_ref (f32_of_Z (-5000)) (sps power_on)) = MOVE_TYPE_DWELL.
Proof.
  split; [vm_compute; reflexivity|].
  split; [vm_compute; discriminate|reflexivity].
Qed.

(** Where [st_prep_line] refuses, [st_prep_dwell] stages: a dwell of minus
    five milliseconds, asked for while the loader owns the buffer. *)
Example st_prep_dwell_negative :
  stPrepSingleton.exec_state (sps power_on) = PREP_BUFFER_OWNED_BY_LOADER
  /\ stPrepSingleton.move_type
       (st_prep_dwell hw_ref (f32_of_Z (-5000)) (sps power_on)) = MOVE_TYPE_DWELL
  /\ SF2Z_trunc (dwell_ticks hw_ref (f32_of_Z (-5000))) = Some (-50)
  /\ st_prep_line hw_ref (steps_1 1) (f32_of_Z (-5000))
       (sps (stepper_init hw_ref power_on))
     = (STAT_ZERO_LENGTH_MOVE, sps (stepper_init hw_ref power_on)).
Proof. vm_compute. repeat split. Qed.

(** *** A motor with nothing to do *)

Lemma dda_run_idle (n : nat) (X acc : Z) :
  - 2 ^ 31 <= acc <= 0 -> dda_run n 0 X acc = (acc, 0).
Proof.
  intros H. induction n as [|n IH]; [reflexivity|].
  cbn [dda_run]. rewrite IH. unfold dda_tick. cbv zeta.
  rewrite Z.add_0_r, int32_small by lia.
  destruct (Z.ltb_spec 0 acc); [lia|reflexivity].
Qed.

Lemma view_dda_motor_null (hw : config) (mt' mt : motor) (s : state) :
  step_isNull hw mt' = true -> view mt (dda_motor hw mt' s) = view mt s.
Proof. intros H. unfold dda_motor. rewrite H. reflexivity. Qed.

Lemma view_dda_front_null (hw : config) (mt : motor) (s : state) :
  step_isNull hw mt = true -> view mt (dda_front hw s) = view mt s.
Proof.
  intros H. unfold dda_front. cbv zeta.
  destruct mt;
    repeat first
      [ rewrite view_call by reflexivity
      | rewrite view_dda_motor_other by discriminate
      | rewrite view_dda_motor_null by assumption ];
    reflexivity.
Qed.

(** A motor whose step pin is not wired is never pulsed. *)
Lemma pulses_dda_timer_interrupt_null (hw : config) (mt : motor) (s : state) :
  step_isNull hw mt = true ->
  pulses mt (trace (dda_timer_interrupt hw s)) = pulses mt (trace s).
Proof.
  intros Hn. rewrite dda_timer_interrupt_eq. cbv zeta.
  rewrite pulses_call by reflexivity.
  pose proof (view_dda_front_null hw mt s Hn) as F.
  assert (P : pulses mt (trace (dda_front hw s)) = pulses mt (trace s)).
  { unfold view in F. injection F. auto. }
  destruct (_ =? 0).
  - rewrite pulses_dda_end_of_move, trace_st_set_timer_ticks_downcount. exact P.
  - rewrite trace_st_set_timer_ticks_downcount. exact P.
Qed.

Lemma pulses_dda_ticks_null (hw : config) (mt : motor) (n : nat) (s : state) :
  step_isNull hw mt = true ->
  pulses mt (trace (Nat.iter n (dda_timer_interrupt hw) s)) = pulses mt (trace s).
Proof.
  intros Hn. induction n as [|n IH]; [reflexivity|].
  rewrite Nat.iter_succ, pulses_dda_timer_interrupt_null by exact Hn. exact IH.
Qed.

(** A motor that starts a move of [T] ticks with a zero increment and an
    accumulator that is not positive gets no step pulse over the move. *)
Lemma pulses_idle_segment (hw : config) (s : state) (mt : motor) (T : Z) :
  0 < T < 2 ^ 31 ->
  stRunSingleton.timer_ticks_downcount (st s) = T ->
  stRunMotor.phase_increment (st_m s mt) = 0 ->
  - 2 ^ 31 <= stRunMotor.phase_accumulator (st_m s mt) <= 0 ->
  pulses mt (trace (Nat.iter (Z.to_nat T) (dda_timer_interrupt hw) s))
  = pulses mt (trace s).
Proof.
  intros HT Hd Hinc Hacc.
  destruct (step_isNull hw mt) eqn:Hw; [apply pulses_dda_ticks_null; exact Hw|].
  replace (Z.to_nat T) with (Datatypes.S (Z.to_nat (T - 1))) by lia.
  rewrite Nat.iter_succ.
  pose proof (view_dda_ticks hw mt s (Z.to_nat (T - 1)) Hw ltac:(lia)) as V.
  rewrite Hinc, dda_run_idle in V by exact Hacc. cbn [fst snd] in V.
  rewrite pulses_dda_timer_interrupt by exact Hw.
  unfold view in V. injection V as V1 V2 V3 V4 V5.
  rewrite V1, V2, V5. unfold dda_tick. cbv zeta.
  rewrite !Z.add_0_r, int32_small by lia.
  destruct (Z.ltb_spec 0 (stRunMotor.phase_accumulator (st_m s mt))); [lia|].
  cbn [snd]. lia.
Qed.

(** X1. Where the loader does negate the down-counter (motors 1 to 3), a
    motor with no step to make in a move loaded with the counter reset is
    neither enabled by the load nor pulsed over the move. *)
Theorem idle_motor_quiet_after_reset (hw : config) (s : state) (mt : motor) :
  match mt with MOTOR_1 | MOTOR_2 | MOTOR_3 => True | _ => False end ->
  stPrepSingleton.move_type (sps s) = MOVE_TYPE_ALINE ->
  stPrepSingleton.counter_reset_flag (sps s) = true ->
  0 < stPrepSingleton.timer_ticks (sps s) < 2 ^ 31 ->
  stPrepMotor.phase_increment (stPrepSingleton.m (sps s) mt) = 0 ->
  calls_on (enable_of mt) (trace (_load_move s)) = calls_on (enable_of mt) (trace s)
  /\ pulses mt
       (trace (Nat.iter (Z.to_nat (stPrepSingleton.timer_ticks (sps s)))
                 (dda_timer_interrupt hw) (_load_move s)))
     = pulses mt (trace s).
Proof.
  intros Hmt Hmove Hreset HT Hinc. split.
  - apply loader_spares_idle_enable; assumption.
  - rewrite <- (pulses__load_move mt s).
    pose proof (st_m_load_aline s mt Hmove) as L.
    rewrite Hreset, Hinc in L.
    apply pulses_idle_segment.
    + exact HT.
    + rewrite downcount_load_aline by exact Hmove. apply int32_small. lia.
    + rewrite L. reflexivity.
    + rewrite L. cbn [stRunMotor.phase_accumulator].
      rewrite (int32_small (stPrepSingleton.timer_ticks (sps s))) by lia.
      destruct mt; try (exfalso; exact Hmt); rewrite int32_small; lia.
Qed.

Lemma idle_motor_quiet_after_reset_witness :
  calls_on (enable_of MOTOR_2)
    (trace (_load_move (with_sps (sps velocity_jump) (stepper_init hw_ref power_on))))
  = calls_on (enable_of MOTOR_2) (trace (stepper_init hw_ref power_on))
  /\ pulses MOTOR_2
       (trace (Nat.iter (Z.to_nat 20) (dda_timer_interrupt hw_ref)
                 (_load_move (with_sps (sps velocity_jump)
                                (stepper_init hw_ref power_on)))))
     = pulses MOTOR_2 (trace (stepper_init hw_ref power_on)).
Proof.
  apply (idle_motor_quiet_after_reset hw_ref
           (with_sps (sps velocity_jump) (stepper_init hw_ref power_on)) MOTOR_2).
  - exact I.
  - vm_compute. reflexivity.
  - vm_compute. reflexivity.
  - vm_compute. split; reflexivity.
  - vm_compute. reflexivity.
Defined.

(** * More of the module *)

(** *** One tick of the DDA, call by call *)

Lemma trace_call (e : event) (s : state) : trace (call e s) = e :: trace s.
Proof. reflexivity. Qed.

Lemma sps_call (e : event) (s : state) : sps (call e s) = sps s.
Proof. reflexivity. Qed.

Lemma st_m_call (e : event) (s : state) (mt : motor) : st_m (call e s) mt = st_m s mt.
Proof. reflexivity. Qed.

Lemma pulse_now_st (hw : config) (a b : state) (mt : motor) :
  st_m a mt = st_m b mt ->
  stRunSingleton.timer_ticks_X_substeps (st a)
  = stRunSingleton.timer_ticks_X_substeps (st b) ->
  pulse_now hw a mt = pulse_now hw b mt
  /\ next_accumulator hw a mt = next_accumulator hw b mt.
Proof.
  intros Hm Hx. unfold pulse_now, next_accumulator. rewrite Hm, Hx. split; reflexivity.
Qed.

Lemma sps_dda_motor (hw : config) (mt : motor) (s : state) :
  sps (dda_motor hw mt s) = sps s.
Proof.
  unfold dda_motor. destruct (negb (step_isNull hw mt)); [|reflexivity].
  cbv zeta. destruct (0 <? _); reflexivity.
Qed.

Lemma scalars_dda_motor (hw : config) (mt : motor) (s : state) :
  stRunSingleton.timer_ticks_downcount (st (dda_motor hw mt s))
  = stRunSingleton.timer_ticks_downcount (st s)
  /\ stRunSingleton.timer_ticks_X_substeps (st (dda_motor hw mt s))
     = stRunSingleton.timer_ticks_X_substeps (st s)
  /\ stRunSingleton.magic_start (st (dda_motor hw mt s))
     = stRunSingleton.magic_start (st s).
Proof.
  unfold dda_motor. destruct (negb (step_isNull hw mt)); [|repeat split].
  cbv zeta. destruct (0 <? _); repeat split.
Qed.

Lemma trace_dda_motor (hw : config) (mt : motor) (s : state) :
  trace (dda_motor hw mt s)
  = if pulse_now hw s mt then pin_set (step mt) :: trace s else trace s.
Proof.
  unfold dda_motor, pulse_now, dda_tick.
  destruct (step_isNull hw mt); [reflexivity|].
  cbn [negb andb]. cbv zeta.
  replace (stRunMotor.phase_accumulator
             (st_m (st_m_set_phase_accumulator mt
                      (int32 (stRunMotor.phase_accumulator (st_m s mt)
                              + stRunMotor.phase_increment (st_m s mt))) s) mt))
    with (int32 (stRunMotor.phase_accumulator (st_m s mt)
                 + stRunMotor.phase_increment (st_m s mt))).
  - destruct (0 <? _); reflexivity.
  - unfold st_m, st_m_set_phase_accumulator, st_set_m, with_st, upd. cbn.
    rewrite motor_eqb_refl. reflexivity.
Qed.

Lemma st_m_dda_motor (hw : config) (mt mt' : motor) (s : state) :
  st_m (dda_motor hw mt s) mt'
  = if motor_eqb mt' mt
    then stRunMotor.mk (stRunMotor.phase_increment (st_m s mt))
           (next_accumulator hw s mt)
           (stRunMotor.step_count_diagnostic (st_m s mt))
    else st_m s mt'.
Proof.
  unfold dda_motor, next_accumulator, dda_tick.
  destruct (step_isNull hw mt) eqn:Hn.
  - cbn [negb]. destruct (motor_eqb mt' mt) eqn:E; [|reflexivity].
    assert (mt' = mt) by (destruct mt', mt; (discriminate || reflexivity)).
    subst mt'. destruct (st_m s mt). reflexivity.
  - cbn [negb]. cbv zeta.
    replace (stRunMotor.phase_accumulator
               (st_m (st_m_set_phase_accumulator mt
                        (int32 (stRunMotor.phase_accumulator (st_m s mt)
                                + stRunMotor.phase_increment (st_m s mt))) s) mt))
      with (int32 (stRunMotor.phase_accumulator (st_m s mt)
                   + stRunMotor.phase_increment (st_m s mt)))
      by (unfold st_m, st_m_set_phase_accumulator, st_set_m, with_st, upd; cbn;
          rewrite motor_eqb_refl; reflexivity).
    destruct (0 <? _);
      unfold st_m, call, st_m_set_phase_accumulator, st_set_m, with_st, upd; cbn;
      destruct (motor_eqb mt' mt); rewrite ?motor_eqb_refl; reflexivity.
Qed.

Lemma pulse_now_dda_motor_other (hw : config) (mt mt' : motor) (s : state) :
  mt <> mt' ->
  pulse_now hw (dda_motor hw mt s) mt' = pulse_now hw s mt'
  /\ next_accumulator hw (dda_motor hw mt s) mt' = next_accumulator hw s mt'.
Proof.
  intros H. apply pulse_now_st.
  - rewrite st_m_dda_motor, (motor_eqb_neq mt' mt) by congruence. reflexivity.
  - apply (scalars_dda_motor hw mt s).
Qed.

Lemma pulse_now_other (hw : config) (mt mt' : motor) (s : state) :
  mt <> mt' -> pulse_now hw (dda_motor hw mt s) mt' = pulse_now hw s mt'.
Proof. intros H. apply (pulse_now_dda_motor_other hw mt mt' s H). Qed.

Lemma next_accumulator_other (hw : config) (mt mt' : motor) (s : state) :
  mt <> mt' ->
  next_accumulator hw (dda_motor hw mt s) mt' = next_accumulator hw s mt'.
Proof. intros H. apply (pulse_now_dda_motor_other hw mt mt' s H). Qed.

Lemma pulse_now_call (hw : config) (e : event) (mt : motor) (s : state) :
  pulse_now hw (call e s) mt = pulse_now hw s mt
  /\ next_accumulator hw (call e s) mt = next_accumulator hw s mt.
Proof. split; reflexivity. Qed.

Lemma step_sets_eq (hw : config) (s : state) (t : list event) :
  step_sets hw s ++ t
  = let t := if pulse_now hw s MOTOR_1 then pin_set (step MOTOR_1) :: t else t in
    let t := if pulse_now hw s MOTOR_2 then pin_set (step MOTOR_2) :: t else t in
    let t := if pulse_now hw s MOTOR_3 then pin_set (step MOTOR_3) :: t else t in
    let t := if pulse_now hw s MOTOR_4 then pin_set (step MOTOR_4) :: t else t in
    let t := if pulse_now hw s MOTOR_5 then pin_set (step MOTOR_5) :: t else t in
    let t := if pulse_now hw s MOTOR_6 then pin_set (step MOTOR_6) :: t else t in
    t.
Proof.
  unfold step_sets. cbn [filter]. cbv zeta.
  destruct (pulse_now hw s MOTOR_1), (pulse_now hw s MOTOR_2),
    (pulse_now hw s MOTOR_3), (pulse_now hw s MOTOR_4),
    (pulse_now hw s MOTOR_5), (pulse_now hw s MOTOR_6); reflexivity.
Qed.

(** The calls of the front part of a tick, and what it leaves in the
    runtime of each motor. *)
Lemma trace_dda_front (hw : config) (s : state) :
  trace (dda_front hw s)
  = step_clears ++ step_sets hw s
    ++ [pin_clear proof_of_timer; timer_getInterruptCause dda_timer] ++ trace s.
Proof.
  rewrite step_sets_eq. cbv zeta. unfold dda_front, step_clears. cbv zeta.
  rewrite !trace_call. cbn [app].
  do 6 f_equal.
  rewrite !trace_dda_motor.
  repeat rewrite pulse_now_other by discriminate.
  rewrite !(proj1 (pulse_now_call _ _ _ _)).
  rewrite !trace_call.
  destruct (pulse_now hw s MOTOR_1), (pulse_now hw s MOTOR_2),
    (pulse_now hw s MOTOR_3), (pulse_now hw s MOTOR_4),
    (pulse_now hw s MOTOR_5), (pulse_now hw s MOTOR_6); reflexivity.
Qed.

Lemma st_m_dda_front (hw : config) (s : state) (mt : motor) :
  st_m (dda_front hw s) mt
  = stRunMotor.mk (stRunMotor.phase_increment (st_m s mt))
      (next_accumulator hw s mt)
      (stRunMotor.step_count_diagnostic (st_m s mt)).
Proof.
  unfold dda_front. cbv zeta. rewrite !st_m_call.
  destruct mt;
    rewrite !st_m_dda_motor; cbn [motor_eqb];
    repeat rewrite next_accumulator_other by discriminate;
    rewrite ?(proj2 (pulse_now_call _ _ _ _));
    rewrite ?st_m_dda_motor; cbn [motor_eqb]; rewrite ?st_m_call; reflexivity.
Qed.

Lemma sps_dda_front (hw : config) (s : state) : sps (dda_front hw s) = sps s.
Proof.
  unfold dda_front. cbv zeta. rewrite !sps_call, !sps_dda_motor, !sps_call.
  reflexivity.
Qed.

Lemma scalars_dda_front (hw : config) (s : state) :
  stRunSingleton.timer_ticks_downcount (st (dda_front hw s))
  = stRunSingleton.timer_ticks_downcount (st s)
  /\ stRunSingleton.timer_ticks_X_substeps (st (dda_front hw s))
     = stRunSingleton.timer_ticks_X_substeps (st s)
  /\ stRunSingleton.magic_start (st (dda_front hw s))
     = stRunSingleton.magic_start (st s).
Proof.
  unfold dda_front. cbv zeta. rewrite !st_call.
  repeat split.
  - rewrite !(proj1 (scalars_dda_motor _ _ _)), !st_call. reflexivity.
  - rewrite !(proj1 (proj2 (scalars_dda_motor _ _ _))), !st_call. reflexivity.
  - rewrite !(proj2 (proj2 (scalars_dda_motor _ _ _))), !st_call. reflexivity.
Qed.

Lemma filter_app_nil {A : Type} (f : A -> bool) (l t : list A) :
  filter f l = [] -> filter f (l ++ t) = filter f t.
Proof. intros H. rewrite filter_app, H. reflexivity. Qed.

Lemma on_timer_step_sets (hw : config) (s : state) (t : timer) :
  filter (on_timer t) (step_sets hw s) = [].
Proof.
  unfold step_sets. cbn [filter].
  destruct (pulse_now hw s MOTOR_1), (pulse_now hw s MOTOR_2),
    (pulse_now hw s MOTOR_3), (pulse_now hw s MOTOR_4),
    (pulse_now hw s MOTOR_5), (pulse_now hw s MOTOR_6); reflexivity.
Qed.

(** X2. A DDA tick that does not bring the down-counter to zero makes
    exactly these calls, in this order: it acknowledges the interrupt,
    clears [proof_of_timer], sets the step pin of every wired motor whose
    accumulator plus increment is positive (motor 1 first), clears all six
    step pins and sets [proof_of_timer]. It decrements the down-counter,
    leaves the prep singleton, [timer_ticks_X_substeps] and every increment
    as they were, and moves the accumulator of each wired motor by one DDA
    step, each motor by its own increment and accumulator alone. *)
Theorem dda_tick_effect (hw : config) (s : state) :
  int32 (stRunSingleton.timer_ticks_downcount (st s) - 1) <> 0 ->
  let s' := dda_timer_interrupt hw s in
  trace s'
  = pin_set proof_of_timer
    :: step_clears ++ step_sets hw s
       ++ [pin_clear proof_of_timer; timer_getInterruptCause dda_timer] ++ trace s
  /\ sps s' = sps s
  /\ stRunSingleton.timer_ticks_downcount (st s')
     = int32 (stRunSingleton.timer_ticks_downcount (st s) - 1)
  /\ stRunSingleton.timer_ticks_X_substeps (st s')
     = stRunSingleton.timer_ticks_X_substeps (st s)
  /\ forall mt,
       st_m s' mt
       = stRunMotor.mk (stRunMotor.phase_increment (st_m s mt))
           (next_accumulator hw s mt)
           (stRunMotor.step_count_diagnostic (st_m s mt)).
Proof.
  intros Hd. cbv zeta. rewrite dda_timer_interrupt_eq. cbv zeta.
  destruct (scalars_dda_front hw s) as (D & X & _).
  rewrite downcount_st_set_timer_ticks_downcount, D.
  destruct (Z.eqb_spec (int32 (stRunSingleton.timer_ticks_downcount (st s) - 1)) 0)
    as [E|_]; [contradiction|].
  rewrite trace_call, trace_st_set_timer_ticks_downcount, trace_dda_front.
  rewrite sps_call, sps_st_set_timer_ticks_downcount, sps_dda_front.
  rewrite st_call, downcount_st_set_timer_ticks_downcount.
  repeat split.
  - exact X.
  - intros mt. rewrite st_m_call, st_m_st_set_timer_ticks_downcount.
    apply st_m_dda_front.
Qed.

Lemma dda_tick_effect_witness :
  trace (dda_timer_interrupt hw_ref (running 200 2000 1000 (-500)))
  = pin_set proof_of_timer
    :: step_clears ++ step_sets hw_ref (running 200 2000 1000 (-500))
       ++ [pin_clear proof_of_timer; timer_getInterruptCause dda_timer]
       ++ trace (running 200 2000 1000 (-500)).
Proof.
  apply (dda_tick_effect hw_ref (running 200 2000 1000 (-500))).
  vm_compute. discriminate.
Defined.

(** *** A move from its first tick to its last *)

Lemma on_timer_dda_tick (hw : config) (s : state) :
  int32 (stRunSingleton.timer_ticks_downcount (st s) - 1) <> 0 ->
  filter (on_timer dda_timer) (trace (dda_timer_interrupt hw s))
  = timer_getInterruptCause dda_timer :: filter (on_timer dda_timer) (trace s).
Proof.
  intros Hd. rewrite dda_timer_interrupt_eq. cbv zeta.
  destruct (scalars_dda_front hw s) as (D & _ & _).
  rewrite downcount_st_set_timer_ticks_downcount, D.
  destruct (Z.eqb_spec (int32 (stRunSingleton.timer_ticks_downcount (st s) - 1)) 0)
    as [E|_]; [contradiction|].
  rewrite trace_call, trace_st_set_timer_ticks_downcount, trace_dda_front.
  cbn [filter on_timer]. unfold step_clears. cbn [app filter on_timer].
  rewrite filter_app, on_timer_step_sets. reflexivity.
Qed.

Lemma sps_dda_tick (hw : config) (s : state) :
  int32 (stRunSingleton.timer_ticks_downcount (st s) - 1) <> 0 ->
  sps (dda_timer_interrupt hw s) = sps s
  /\ stRunSingleton.timer_ticks_downcount (st (dda_timer_interrupt hw s))
     = int32 (stRunSingleton.timer_ticks_downcount (st s) - 1).
Proof.
  intros Hd. rewrite dda_timer_interrupt_eq. cbv zeta.
  destruct (scalars_dda_front hw s) as (D & _ & _).
  rewrite downcount_st_set_timer_ticks_downcount, D.
  destruct (Z.eqb_spec (int32 (stRunSingleton.timer_ticks_downcount (st s) - 1)) 0)
    as [E|_]; [contradiction|].
  rewrite sps_call, sps_st_set_timer_ticks_downcount, sps_dda_front.
  rewrite st_call, downcount_st_set_timer_ticks_downcount. split; reflexivity.
Qed.

(** [n] ticks in a row none of which brings the down-counter to zero: the
    counter is positive and more than [n], or it is not positive at all. *)
Lemma dda_ticks_running (hw : config) (s : state) (n : nat) :
  - 2 ^ 31 <= stRunSingleton.timer_ticks_downcount (st s) - Z.of_nat n ->
  stRunSingleton.timer_ticks_downcount (st s) < 2 ^ 31 ->
  stRunSingleton.timer_ticks_downcount (st s) <= 0
  \/ Z.of_nat n < stRunSingleton.timer_ticks_downcount (st s) ->
  let sn := Nat.iter n (dda_timer_interrupt hw) s in
  stRunSingleton.timer_ticks_downcount (st sn)
  = stRunSingleton.timer_ticks_downcount (st s) - Z.of_nat n
  /\ sps sn = sps s
  /\ filter (on_timer dda_timer) (trace sn)
     = repeat (timer_getInterruptCause dda_timer) n
       ++ filter (on_timer dda_timer) (trace s).
Proof.
  cbv zeta. induction n as [|n IH]; intros Hlo Hhi Hd.
  - cbn [Nat.iter nat_rect repeat app]. repeat split. cbn. lia.
  - rewrite Nat.iter_succ.
    destruct IH as (D & P & F); [lia|lia|lia|].
    assert (Hne : int32 (stRunSingleton.timer_ticks_downcount
                           (st (Nat.iter n (dda_timer_interrupt hw) s)) - 1) <> 0).
    { rewrite D, int32_small by lia. lia. }
    destruct (sps_dda_tick hw _ Hne) as (P' & D').
    rewrite (on_timer_dda_tick hw _ Hne), P', D', D, F, P.
    rewrite int32_small by lia.
    repeat split. lia.
Qed.

(** X3. A move whose down-counter stands at [T] (between 1 and 2^31 - 1)
    takes exactly [T] ticks: after any smaller number [n] of ticks the
    counter is [T - n], [st_isbusy] still answers true, the prep singleton is
    untouched and the DDA timer has only been acknowledged, never stopped or
    started; the [T]-th tick, and none before, runs the end of the move
    (power-down, [st_disable], [_load_move]). *)
Theorem dda_move_duration (hw : config) (s : state) (T : Z) :
  0 < T < 2 ^ 31 ->
  stRunSingleton.timer_ticks_downcount (st s) = T ->
  (forall n : nat, Z.of_nat n < T ->
     let sn := Nat.iter n (dda_timer_interrupt hw) s in
     stRunSingleton.timer_ticks_downcount (st sn) = T - Z.of_nat n
     /\ st_isbusy sn = true
     /\ sps sn = sps s
     /\ filter (on_timer dda_timer) (trace sn)
        = repeat (timer_getInterruptCause dda_timer) n
          ++ filter (on_timer dda_timer) (trace s))
  /\ Nat.iter (Z.to_nat T) (dda_timer_interrupt hw) s
     = call (pin_set proof_of_timer)
         (dda_end_of_move hw
            (st_set_timer_ticks_downcount 0
               (dda_front hw
                  (Nat.iter (Z.to_nat (T - 1)) (dda_timer_interrupt hw) s)))).
Proof.
  intros HT Hd.
  assert (R : forall n : nat, Z.of_nat n < T ->
            stRunSingleton.timer_ticks_downcount
              (st (Nat.iter n (dda_timer_interrupt hw) s)) = T - Z.of_nat n
            /\ sps (Nat.iter n (dda_timer_interrupt hw) s) = sps s
            /\ filter (on_timer dda_timer)
                 (trace (Nat.iter n (dda_timer_interrupt hw) s))
               = repeat (timer_getInterruptCause dda_timer) n
                 ++ filter (on_timer dda_timer) (trace s)).
  { intros n Hn. rewrite <- Hd. apply dda_ticks_running; lia. }
  split.
  - intros n Hn. cbv zeta. destruct (R n Hn) as (D & P & F).
    repeat split; try assumption.
    unfold st_isbusy. rewrite D.
    destruct (Z.eqb_spec (T - Z.of_nat n) 0); [lia|reflexivity].
  - replace (Z.to_nat T) with (Datatypes.S (Z.to_nat (T - 1))) by lia.
    rewrite Nat.iter_succ, dda_timer_interrupt_eq. cbv zeta.
    destruct (R (Z.to_nat (T - 1)) ltac:(lia)) as (D & _ & _).
    destruct (scalars_dda_front hw
                (Nat.iter (Z.to_nat (T - 1)) (dda_timer_interrupt hw) s))
      as (D' & _ & _).
    rewrite downcount_st_set_timer_ticks_downcount, D', D.
    replace (T - Z.of_nat (Z.to_nat (T - 1)) - 1) with 0 by lia.
    reflexivity.
Qed.

Lemma dda_move_duration_witness :
  Nat.iter (Z.to_nat 200) (dda_timer_interrupt hw_ref) (running 200 2000 1000 0)
  = call (pin_set proof_of_timer)
      (dda_end_of_move hw_ref
         (st_set_timer_ticks_downcount 0
            (dda_front hw_ref
               (Nat.iter (Z.to_nat (200 - 1)) (dda_timer_interrupt hw_ref)
                  (running 200 2000 1000 0))))).
Proof.
  apply (proj2 (dda_move_duration hw_ref (running 200 2000 1000 0) 200
                  ltac:(lia) eq_refl)).
Defined.

Lemma trace_load_motor_timers (mt : motor) (v : Z) (s : state) (t : timer) :
  filter (on_timer t) (trace (load_motor mt v s)) = filter (on_timer t) (trace s).
Proof.
  unfold load_motor. cbv zeta.
  destruct (negb _); [destruct (stPrepMotor.dir _ =? 0)|];
    destruct (stPrepSingleton.counter_reset_flag _);
    rewrite ?trace_call; cbn [filter on_timer]; reflexivity.
Qed.

Lemma sps_st_enable (s : state) : sps (st_enable s) = sps s.
Proof. reflexivity. Qed.

Lemma sps_load_aline (s : state) : sps (load_aline s) = sps s.
Proof.
  unfold load_aline. cbv zeta.
  rewrite sps_st_enable. do 6 rewrite sps_load_motor.
  rewrite sps_st_set_timer_ticks_X_substeps, sps_st_set_timer_ticks_downcount.
  reflexivity.
Qed.

Lemma on_timer_st_enable (s : state) :
  filter (on_timer dda_timer) (trace (st_enable s))
  = timer_start dda_timer :: filter (on_timer dda_timer) (trace s).
Proof. reflexivity. Qed.

Lemma on_timer_load_aline (s : state) :
  filter (on_timer dda_timer) (trace (load_aline s))
  = timer_start dda_timer :: filter (on_timer dda_timer) (trace s).
Proof.
  unfold load_aline. cbv zeta.
  rewrite on_timer_st_enable.
  do 6 rewrite trace_load_motor_timers.
  rewrite trace_st_set_timer_ticks_X_substeps, trace_st_set_timer_ticks_downcount.
  reflexivity.
Qed.

Lemma on_timer_load_done (s : state) :
  filter (on_timer dda_timer) (trace (load_done s))
  = filter (on_timer dda_timer) (trace s).
Proof. reflexivity. Qed.

(** X4. An aline staged with [timer_ticks = 0] is loaded all the same: the
    loader starts the DDA timer with the down-counter at 0, so [st_isbusy]
    answers false right after the load, with the timer running. The ticks
    that follow take the counter below zero without ever finding it at
    zero: for every [n] up to 2^31 the counter is [-n] after [n] ticks, so
    [st_isbusy] answers true from the first tick on, the prep singleton is
    the one the loader left and the DDA timer has not been stopped. *)
Theorem zero_tick_aline_runs_on (hw : config) (s : state) (n : nat) :
  stPrepSingleton.move_type (sps s) = MOVE_TYPE_ALINE ->
  stPrepSingleton.timer_ticks (sps s) = 0 ->
  Z.of_nat n <= 2 ^ 31 ->
  let s1 := _load_move s in
  let sn := Nat.iter n (dda_timer_interrupt hw) s1 in
  st_isbusy s1 = false
  /\ filter (on_timer dda_timer) (trace s1)
     = timer_start dda_timer :: filter (on_timer dda_timer) (trace s)
  /\ stRunSingleton.timer_ticks_downcount (st sn) = - Z.of_nat n
  /\ st_isbusy sn = negb (Nat.eqb n 0)
  /\ sps sn = sps s1
  /\ filter (on_timer dda_timer) (trace sn)
     = repeat (timer_getInterruptCause dda_timer) n
       ++ timer_start dda_timer :: filter (on_timer dda_timer) (trace s).
Proof.
  intros Hmove Hticks Hn. cbv zeta.
  assert (D0 : stRunSingleton.timer_ticks_downcount (st (_load_move s)) = 0).
  { rewrite downcount_load_aline, Hticks by exact Hmove. reflexivity. }
  assert (F0 : filter (on_timer dda_timer) (trace (_load_move s))
               = timer_start dda_timer :: filter (on_timer dda_timer) (trace s)).
  { rewrite (_load_move_aline s Hmove), on_timer_load_done.
    apply on_timer_load_aline. }
  destruct (dda_ticks_running hw (_load_move s) n) as (D & P & F);
    [rewrite D0; lia | rewrite D0; lia | left; rewrite D0; lia |].
  unfold st_isbusy. rewrite D0, D, D0, F, F0.
  split; [reflexivity|]. split; [reflexivity|]. split; [reflexivity|].
  split; [|split; [exact P|reflexivity]].
  destruct n as [|k]; [reflexivity|].
  cbn [Nat.eqb negb].
  destruct (Z.eqb_spec (- Z.of_nat (Datatypes.S k)) 0); [lia|reflexivity].
Qed.

Lemma zero_tick_aline_runs_on_witness :
  stPrepSingleton.timer_ticks
    (snd (st_prep_line hw_ref (steps_1 1) (f32_of_Z 3)
            (sps (stepper_init hw_ref power_on)))) = 0
  /\ st_isbusy
       (Nat.iter 5 (dda_timer_interrupt hw_ref)
          (_load_move
             (with_sps (snd (st_prep_line hw_ref (steps_1 1) (f32_of_Z 3)
                               (sps (stepper_init hw_ref power_on))))
                (stepper_init hw_ref power_on)))) = true.
Proof.
  split; [vm_compute; reflexivity|].
  refine (proj1 (proj2 (proj2 (proj2 (zero_tick_aline_runs_on hw_ref
           (with_sps (snd (st_prep_line hw_ref (steps_1 1) (f32_of_Z 3)
                             (sps (stepper_init hw_ref power_on))))
              (stepper_init hw_ref power_on)) 5 _ _ _))))).
  - vm_compute. reflexivity.
  - vm_compute. reflexivity.
  - lia.
Defined.

(** The pulses of a whole move, its last tick included, are those of
    [dda_run]. *)
Lemma pulses_dda_move (hw : config) (s : state) (mt : motor) (T : Z) :
  step_isNull hw mt = false ->
  0 < T < 2 ^ 31 ->
  stRunSingleton.timer_ticks_downcount (st s) = T ->
  pulses mt (trace (Nat.iter (Z.to_nat T) (dda_timer_interrupt hw) s))
  = pulses mt (trace s)
    + snd (dda_run (Z.to_nat T) (stRunMotor.phase_increment (st_m s mt))
                   (stRunSingleton.timer_ticks_X_substeps (st s))
                   (stRunMotor.phase_accumulator (st_m s mt))).
Proof.
  intros Hw HT Hd.
  replace (Z.to_nat T) with (Datatypes.S (Z.to_nat (T - 1))) by lia.
  rewrite Nat.iter_succ. cbn [dda_run].
  pose proof (view_dda_ticks hw mt s (Z.to_nat (T - 1)) Hw ltac:(lia)) as V.
  rewrite pulses_dda_timer_interrupt by exact Hw.
  unfold view in V. injection V as V1 V2 V3 V4 V5.
  rewrite V1, V2, V3, V5.
  destruct (dda_run (Z.to_nat (T - 1)) _ _ _) as [a c]. cbn [fst snd].
  destruct (dda_tick _ _ a) as [a' p]. cbn [fst snd]. lia.
Qed.

(** X5. While a move runs, the accumulator of a wired motor whose increment
    is at most [timer_ticks_X_substeps] stays between
    [- timer_ticks_X_substeps] and 0 once it is there, and no step is lost
    or invented: after [n] ticks the accumulator plus
    [timer_ticks_X_substeps] times the pulses emitted equals the starting
    accumulator plus [n] times the increment. *)
Theorem dda_accumulator_bounded (hw : config) (s : state) (mt : motor) (n : nat) :
  step_isNull hw mt = false ->
  0 < stRunSingleton.timer_ticks_X_substeps (st s) < 2 ^ 31 ->
  0 <= stRunMotor.phase_increment (st_m s mt)
    <= stRunSingleton.timer_ticks_X_substeps (st s) ->
  - stRunSingleton.timer_ticks_X_substeps (st s)
    <= stRunMotor.phase_accumulator (st_m s mt) <= 0 ->
  Z.of_nat n < stRunSingleton.timer_ticks_downcount (st s) < 2 ^ 31 ->
  let sn := Nat.iter n (dda_timer_interrupt hw) s in
  - stRunSingleton.timer_ticks_X_substeps (st s)
    <= stRunMotor.phase_accumulator (st_m sn mt) <= 0
  /\ stRunMotor.phase_accumulator (st_m sn mt)
     + (pulses mt (trace sn) - pulses mt (trace s))
       * stRunSingleton.timer_ticks_X_substeps (st s)
     = stRunMotor.phase_accumulator (st_m s mt)
       + Z.of_nat n * stRunMotor.phase_increment (st_m s mt).
Proof.
  intros Hw HX Hinc Hacc Hd. cbv zeta.
  pose proof (view_dda_ticks hw mt s n Hw Hd) as V.
  pose proof (dda_run_invariant _ _ HX Hinc n _ Hacc) as Inv.
  unfold view in V. injection V as _ V2 _ _ V5.
  destruct (dda_run n _ _ _) as [a c]. cbn [fst snd] in V2, V5.
  destruct Inv as (Ha & _ & Heq & _).
  rewrite V2, V5. split; [exact Ha|]. lia.
Qed.

Lemma dda_accumulator_bounded_witness :
  - 2000 <= stRunMotor.phase_accumulator
              (st_m (Nat.iter 150 (dda_timer_interrupt hw_ref)
                       (running 200 2000 1000 (-500))) MOTOR_1) <= 0.
Proof.
  apply (dda_accumulator_bounded hw_ref (running 200 2000 1000 (-500)) MOTOR_1 150);
    try reflexivity; simpl; lia.
Defined.

(** X6. Over a whole move of [T] ticks the pulses emitted on a wired motor,
    times [timer_ticks_X_substeps], lie between [acc + T * inc] and
    [acc + T * inc + timer_ticks_X_substeps], where [acc] is the accumulator
    the move starts with (not positive, not below
    [- timer_ticks_X_substeps]) and [inc] the increment (at most
    [timer_ticks_X_substeps]): for every starting accumulator in that
    range the pulse count is within one of
    [T * inc / timer_ticks_X_substeps]. An accumulator outside the range
    is not covered. *)
Theorem dda_move_pulse_error (hw : config) (s : state) (mt : motor) (T : Z) :
  step_isNull hw mt = false ->
  0 < stRunSingleton.timer_ticks_X_substeps (st s) < 2 ^ 31 ->
  0 <= stRunMotor.phase_increment (st_m s mt)
    <= stRunSingleton.timer_ticks_X_substeps (st s) ->
  - stRunSingleton.timer_ticks_X_substeps (st s)
    <= stRunMotor.phase_accumulator (st_m s mt) <= 0 ->
  0 < T < 2 ^ 31 ->
  stRunSingleton.timer_ticks_downcount (st s) = T ->
  let k := pulses mt (trace (Nat.iter (Z.to_nat T) (dda_timer_interrupt hw) s))
           - pulses mt (trace s) in
  stRunMotor.phase_accumulator (st_m s mt)
    + T * stRunMotor.phase_increment (st_m s mt)
  <= k * stRunSingleton.timer_ticks_X_substeps (st s)
  <= stRunMotor.phase_accumulator (st_m s mt)
     + T * stRunMotor.phase_increment (st_m s mt)
     + stRunSingleton.timer_ticks_X_substeps (st s).
Proof.
  intros Hw HX Hinc Hacc HT Hd. cbv zeta.
  rewrite (pulses_dda_move hw s mt T Hw HT Hd).
  pose proof (dda_run_invariant _ _ HX Hinc (Z.to_nat T) _ Hacc) as Inv.
  destruct (dda_run (Z.to_nat T) _ _ _) as [a c]. cbn [snd].
  destruct Inv as (Ha & _ & Heq & _).
  rewrite Z2Nat.id in Heq by lia.
  replace (pulses mt (trace s) + c - pulses mt (trace s)) with c by lia.
  lia.
Qed.

Lemma dda_move_pulse_error_witness :
  let k := pulses MOTOR_1
             (trace (Nat.iter (Z.to_nat 200) (dda_timer_interrupt hw_ref)
                       (running 200 2000 1000 (-500))))
           - pulses MOTOR_1 (trace (running 200 2000 1000 (-500))) in
  -500 + 200 * 1000 <= k * 2000 <= -500 + 200 * 1000 + 2000.
Proof.
  apply (dda_move_pulse_error hw_ref (running 200 2000 1000 (-500)) MOTOR_1 200);
    try reflexivity; simpl; lia.
Defined.

(** Outside the range the bound fails: a move of 60 ticks with
    [timer_ticks_X_substeps = 600] and increment 20 (two steps) that starts
    with the accumulator at -1800 emits no pulse at all. *)
Example dda_move_pulse_error_out_of_range :
  pulses MOTOR_1
    (trace (Nat.iter 60 (dda_timer_interrupt hw_ref) (running 60 600 20 (-1800))))
  = 0.
Proof. vm_compute. reflexivity. Qed.

(** *** The loader and the exec interrupt *)

Lemma sps_load_done (s : state) :
  sps (load_done s) = sps_set_exec_state PREP_BUFFER_OWNED_BY_EXEC (sps s).
Proof. reflexivity. Qed.

Lemma _load_move_dwell (s : state) :
  stPrepSingleton.move_type (sps s) = MOVE_TYPE_DWELL ->
  _load_move s
  = load_done (call (timer_start dwell_timer)
                 (st_set_timer_ticks_downcount
                    (int32 (stPrepSingleton.timer_ticks (sps s))) s)).
Proof.
  intros H. unfold _load_move, load_done. cbv zeta. rewrite H. reflexivity.
Qed.

Lemma _load_move_null (s : state) :
  stPrepSingleton.move_type (sps s) = MOVE_TYPE_NULL ->
  _load_move s = load_done s.
Proof.
  intros H. unfold _load_move, load_done. cbv zeta. rewrite H. reflexivity.
Qed.

Lemma sps__load_move (s : state) :
  sps (_load_move s) = sps_set_exec_state PREP_BUFFER_OWNED_BY_EXEC (sps s).
Proof.
  destruct (stPrepSingleton.move_type (sps s)) eqn:E.
  - rewrite (_load_move_null s E). apply sps_load_done.
  - rewrite (_load_move_aline s E), sps_load_done, sps_load_aline. reflexivity.
  - rewrite (_load_move_dwell s E). reflexivity.
Qed.

Lemma hd__load_move (s : state) :
  hd_error (trace (_load_move s)) = Some (timer_setInterruptPending exec_timer).
Proof.
  destruct (stPrepSingleton.move_type (sps s)) eqn:E.
  - rewrite (_load_move_null s E). reflexivity.
  - rewrite (_load_move_aline s E). reflexivity.
  - rewrite (_load_move_dwell s E). reflexivity.
Qed.

(** X7. Whatever is staged, [_load_move] writes nothing in the prep
    singleton but [exec_state], which it always leaves owned by the exec
    side, and its last call always pends the exec interrupt. When the
    staged move is a dwell or a null move it makes no call on any pin and
    leaves the runtime of every motor and [timer_ticks_X_substeps] as they
    were; a null move leaves the whole runtime as it was. *)
Theorem load_move_hands_back (s : state) :
  sps (_load_move s) = sps_set_exec_state PREP_BUFFER_OWNED_BY_EXEC (sps s)
  /\ hd_error (trace (_load_move s)) = Some (timer_setInterruptPending exec_timer)
  /\ (stPrepSingleton.move_type (sps s) = MOVE_TYPE_DWELL ->
      trace (_load_move s)
      = timer_setInterruptPending exec_timer :: timer_start dwell_timer :: trace s
      /\ stRunSingleton.timer_ticks_downcount (st (_load_move s))
         = int32 (stPrepSingleton.timer_ticks (sps s))
      /\ stRunSingleton.timer_ticks_X_substeps (st (_load_move s))
         = stRunSingleton.timer_ticks_X_substeps (st s)
      /\ forall mt, st_m (_load_move s) mt = st_m s mt)
  /\ (stPrepSingleton.move_type (sps s) = MOVE_TYPE_NULL ->
      trace (_load_move s) = timer_setInterruptPending exec_timer :: trace s
      /\ st (_load_move s) = st s).
Proof.
  split; [apply sps__load_move|]. split; [apply hd__load_move|]. split.
  - intros E. rewrite (_load_move_dwell s E). repeat split.
  - intros E. rewrite (_load_move_null s E). split; reflexivity.
Qed.

Lemma load_move_hands_back_witness :
  trace (_load_move (staged_dwell 50 (stepper_init hw_ref power_on)))
  = timer_setInterruptPending exec_timer :: timer_start dwell_timer
    :: trace (staged_dwell 50 (stepper_init hw_ref power_on)).
Proof.
  apply (proj1 (proj2 (proj2 (load_move_hands_back
                                (staged_dwell 50 (stepper_init hw_ref power_on)))))
           eq_refl).
Defined.

Lemma _exec_move_owned_by_loader
    (f : stPrepSingleton.t -> stat_t * stPrepSingleton.t) (s : state) :
  stPrepSingleton.exec_state (sps s) = PREP_BUFFER_OWNED_BY_LOADER ->
  _exec_move f s = s.
Proof. intros H. unfold _exec_move. rewrite H. reflexivity. Qed.

Lemma exec_state__exec_move
    (g : stPrepSingleton.t -> stat_t * stPrepSingleton.t) (s : state) :
  stPrepSingleton.exec_state (sps s) = PREP_BUFFER_OWNED_BY_EXEC ->
  fst (g (sps s)) <> STAT_NOOP ->
  sps (_exec_move g s)
  = sps_set_exec_state PREP_BUFFER_OWNED_BY_LOADER (snd (g (sps s)))
  /\ st (_exec_move g s) = st s
  /\ trace (_exec_move g s)
     = if stRunSingleton.timer_ticks_downcount (st s) =? 0
       then timer_setInterruptPending load_timer :: trace s
       else trace s.
Proof.
  intros Hx Hg. unfold _exec_move. rewrite Hx.
  destruct (g (sps s)) as [status p]. cbn [fst snd] in *.
  destruct status; try contradiction; cbv zeta; unfold _request_load_move;
    cbn [st with_sps]; destruct (_ =? 0); repeat split.
Qed.

(** X8. Once the exec interrupt has staged a move (the planner returned
    anything but [STAT_NOOP]), the prep buffer belongs to the loader: the
    load interrupt has been pended if and only if the runtime was idle
    (down-counter at zero), and until the loader has run every further
    exec interrupt leaves the state as it is without calling the planner,
    [st_request_exec_move] pends nothing and [st_prep_line] answers
    [STAT_INTERNAL_ERROR] without touching the buffer. *)
Theorem staged_move_is_protected
    (hw : config) (f g : stPrepSingleton.t -> stat_t * stPrepSingleton.t)
    (steps : motor -> spec_float) (microseconds : spec_float) (s : state) :
  stPrepSingleton.exec_state (sps s) = PREP_BUFFER_OWNED_BY_EXEC ->
  fst (g (sps s)) <> STAT_NOOP ->
  let s1 := _exec_move g s in
  stPrepSingleton.exec_state (sps s1) = PREP_BUFFER_OWNED_BY_LOADER
  /\ trace s1
     = (if stRunSingleton.timer_ticks_downcount (st s) =? 0
        then timer_setInterruptPending load_timer :: trace s
        else trace s)
  /\ _exec_move f s1 = s1
  /\ st_request_exec_move s1 = s1
  /\ st_prep_line hw steps microseconds (sps s1) = (STAT_INTERNAL_ERROR, sps s1).
Proof.
  intros Hx Hg. cbv zeta.
  destruct (exec_state__exec_move g s Hx Hg) as (P & _ & T).
  assert (L : stPrepSingleton.exec_state (sps (_exec_move g s))
              = PREP_BUFFER_OWNED_BY_LOADER) by (rewrite P; reflexivity).
  split; [exact L|]. split; [exact T|]. split.
  - apply _exec_move_owned_by_loader. exact L.
  - split.
    + unfold st_request_exec_move. rewrite L. reflexivity.
    + unfold st_prep_line. rewrite L. reflexivity.
Qed.

Lemma staged_move_is_protected_witness :
  _exec_move (st_prep_line hw_ref (steps_1 1) (f32_of_Z 100))
    (_exec_move (st_prep_line hw_ref (steps_1 10) (f32_of_Z 1000))
       (stepper_init hw_ref power_on))
  = _exec_move (st_prep_line hw_ref (steps_1 10) (f32_of_Z 1000))
      (stepper_init hw_ref power_on).
Proof.
  refine (proj1 (proj2 (proj2
            (staged_move_is_protected hw_ref
               (st_prep_line hw_ref (steps_1 1) (f32_of_Z 100))
               (st_prep_line hw_ref (steps_1 10) (f32_of_Z 1000))
               (steps_1 1) (f32_of_Z 100) (stepper_init hw_ref power_on) _ _)))).
  - reflexivity.
  - vm_compute. discriminate.
Defined.

Lemma X_substeps_load_motor (mt : motor) (v : Z) (s : state) :
  stRunSingleton.timer_ticks_X_substeps (st (load_motor mt v s))
  = stRunSingleton.timer_ticks_X_substeps (st s).
Proof.
  rewrite st_load_motor. cbv zeta.
  destruct (stPrepSingleton.counter_reset_flag (sps s)); reflexivity.
Qed.

Lemma X_substeps_load_aline (s : state) :
  stPrepSingleton.move_type (sps s) = MOVE_TYPE_ALINE ->
  stRunSingleton.timer_ticks_X_substeps (st (_load_move s))
  = int32 (stPrepSingleton.timer_ticks_X_substeps (sps s)).
Proof.
  intros Hmove. rewrite (_load_move_aline s Hmove), st_load_done.
  unfold load_aline, st_enable. cbv zeta.
  rewrite !st_call. do 6 rewrite X_substeps_load_motor.
  reflexivity.
Qed.

Lemma on_timer__load_move_aline (s : state) :
  stPrepSingleton.move_type (sps s) = MOVE_TYPE_ALINE ->
  filter (on_timer dda_timer) (trace (_load_move s))
  = timer_start dda_timer :: filter (on_timer dda_timer) (trace s).
Proof.
  intros Hmove. rewrite (_load_move_aline s Hmove), on_timer_load_done.
  apply on_timer_load_aline.
Qed.

Lemma sps_set_exec_state_twice (a b : prepBufferState) (p : stPrepSingleton.t) :
  sps_set_exec_state a (sps_set_exec_state b p) = sps_set_exec_state a p.
Proof. reflexivity. Qed.

Lemma sps_set_exec_state_same (p : stPrepSingleton.t) :
  sps_set_exec_state (stPrepSingleton.exec_state p) p = p.
Proof. destruct p. reflexivity. Qed.

(** X9. From an idle runtime with the prep buffer owned by the exec side,
    an exec interrupt in which the planner calls [st_prep_line] with a line
    it accepts, followed by the load interrupt it pends, starts the move:
    the down-counter is the (truncated) tick count of the line, every
    motor's increment is the cast of its absolute step count times
    [DDA_SUBSTEPS], [timer_ticks_X_substeps] is the staged product, the
    DDA timer has been started, and the prep buffer, still holding the
    line, is back with the exec side. *)
Theorem exec_load_starts_move (hw : config) (steps : motor -> spec_float)
    (microseconds : spec_float) (s : state) (p' : stPrepSingleton.t) :
  stRunSingleton.timer_ticks_downcount (st s) = 0 ->
  st_prep_line hw steps microseconds (sps s) = (STAT_OK, p') ->
  let s1 := exec_timer_interrupt (st_prep_line hw steps microseconds) s in
  let s2 := load_timer_interrupt s1 in
  hd_error (trace s1) = Some (timer_setInterruptPending load_timer)
  /\ sps s2 = p'
  /\ stRunSingleton.timer_ticks_downcount (st s2)
     = int32 (float_to_uint32 (uint32_out_of_range hw) (line_ticks hw microseconds))
  /\ stRunSingleton.timer_ticks_X_substeps (st s2)
     = int32 (stPrepSingleton.timer_ticks_X_substeps p')
  /\ (forall mt,
        stRunMotor.phase_increment (st_m s2 mt)
        = int32 (float_to_uint32 (uint32_out_of_range hw)
                   (fabs (f32_mul (steps mt) (f32_of_Z (DDA_SUBSTEPS hw))))))
  /\ filter (on_timer dda_timer) (trace s2)
     = timer_start dda_timer :: filter (on_timer dda_timer) (trace s).
Proof.
  intros Hidle Hok. cbv zeta.
  destruct (st_prep_line_ok hw steps microseconds (sps s) p' Hok)
    as (Hx & _ & _ & Ht & _ & _ & _ & Hmove & Hx' & _ & Hm).
  unfold exec_timer_interrupt, load_timer_interrupt. cbv zeta.
  set (s0 := call (timer_getInterruptCause exec_timer) s).
  assert (G : fst (st_prep_line hw steps microseconds (sps s0)) <> STAT_NOOP).
  { change (sps s0) with (sps s). rewrite Hok. discriminate. }
  destruct (exec_state__exec_move (st_prep_line hw steps microseconds) s0 Hx G)
    as (P & S & T).
  change (sps s0) with (sps s) in P. rewrite Hok in P. cbn [snd] in P.
  change (st s0) with (st s) in T. rewrite Hidle in T. cbn [Z.eqb] in T.
  set (s1 := _exec_move (st_prep_line hw steps microseconds) s0) in *.
  set (s1' := call (timer_getInterruptCause load_timer) s1).
  assert (P1 : sps s1' = sps_set_exec_state PREP_BUFFER_OWNED_BY_LOADER p')
    by exact P.
  assert (M1 : stPrepSingleton.move_type (sps s1') = MOVE_TYPE_ALINE)
    by (rewrite P1; exact Hmove).
  split; [rewrite T; reflexivity|].
  split.
  { rewrite sps__load_move, P1, sps_set_exec_state_twice, <- Hx'.
    apply sps_set_exec_state_same. }
  split; [rewrite (downcount_load_aline s1' M1), P1; cbn; rewrite Ht; reflexivity|].
  split; [rewrite (X_substeps_load_aline s1' M1), P1; reflexivity|].
  split.
  - intros mt. rewrite (st_m_load_aline s1' mt M1), P1.
    cbn [stRunMotor.phase_increment].
    change (stPrepSingleton.m (sps_set_exec_state PREP_BUFFER_OWNED_BY_LOADER p'))
      with (stPrepSingleton.m p').
    rewrite Hm, m_prep_motors. reflexivity.
  - rewrite (on_timer__load_move_aline s1' M1).
    unfold s1'. rewrite trace_call. cbn [filter on_timer].
    rewrite T. reflexivity.
Qed.

Lemma exec_load_starts_move_witness :
  stRunSingleton.timer_ticks_downcount
    (st (load_timer_interrupt
           (exec_timer_interrupt
              (st_prep_line hw_ref (steps_1 100) (f32_of_Z 1000))
              (stepper_init hw_ref power_on))))
  = int32 (float_to_uint32 (uint32_out_of_range hw_ref)
             (line_ticks hw_ref (f32_of_Z 1000))).
Proof.
  refine (proj1 (proj2 (proj2
            (exec_load_starts_move hw_ref (steps_1 100) (f32_of_Z 1000)
               (stepper_init hw_ref power_on)
               (snd (st_prep_line hw_ref (steps_1 100) (f32_of_Z 1000)
                       (sps (stepper_init hw_ref power_on)))) _ _)))).
  - reflexivity.
  - vm_compute. reflexivity.
Defined.

(** *** From one move to the next *)

Lemma dda_move_end (hw : config) (s : state) (T : Z) :
  0 < T < 2 ^ 31 ->
  stRunSingleton.timer_ticks_downcount (st s) = T ->
  exists x,
    Nat.iter (Z.to_nat T) (dda_timer_interrupt hw) s
    = call (pin_set proof_of_timer) (dda_end_of_move hw x)
    /\ sps x = sps s
    /\ stRunSingleton.timer_ticks_downcount (st x) = 0
    /\ filter (on_timer dda_timer) (trace x)
       = repeat (timer_getInterruptCause dda_timer) (Z.to_nat T)
         ++ filter (on_timer dda_timer) (trace s).
Proof.
  intros HT Hd.
  set (sn := Nat.iter (Z.to_nat (T - 1)) (dda_timer_interrupt hw) s).
  exists (st_set_timer_ticks_downcount 0 (dda_front hw sn)).
  destruct (dda_ticks_running hw s (Z.to_nat (T - 1))) as (D & P & F);
    [lia | lia | right; lia |]. fold sn in D, P, F.
  split; [|split; [|split; [reflexivity|]]].
  - replace (Z.to_nat T) with (Datatypes.S (Z.to_nat (T - 1))) by lia.
    rewrite Nat.iter_succ. fold sn. rewrite dda_timer_interrupt_eq. cbv zeta.
    destruct (scalars_dda_front hw sn) as (D' & _ & _).
    rewrite downcount_st_set_timer_ticks_downcount, D', D, Hd.
    replace (T - Z.of_nat (Z.to_nat (T - 1)) - 1) with 0 by lia.
    reflexivity.
  - rewrite sps_st_set_timer_ticks_downcount, sps_dda_front. exact P.
  - rewrite trace_st_set_timer_ticks_downcount, trace_dda_front.
    unfold step_clears. cbn [app filter on_timer].
    rewrite filter_app, on_timer_step_sets. cbn [app filter on_timer].
    rewrite F.
    replace (Z.to_nat T) with (Datatypes.S (Z.to_nat (T - 1))) by lia.
    reflexivity.
Qed.

Lemma sps_power_down (hw : config) (mt : motor) (s : state) :
  sps (power_down hw mt s) = sps s.
Proof. unfold power_down. destruct (_ =? 1); reflexivity. Qed.

Lemma on_timer_power_down (hw : config) (mt : motor) (s : state) (t : timer) :
  filter (on_timer t) (trace (power_down hw mt s)) = filter (on_timer t) (trace s).
Proof. unfold power_down. destruct (_ =? 1); reflexivity. Qed.

Lemma sps_st_disable (s : state) : sps (st_disable s) = sps s.
Proof. reflexivity. Qed.

Lemma on_timer_st_disable (s : state) :
  filter (on_timer dda_timer) (trace (st_disable s))
  = timer_stop dda_timer :: filter (on_timer dda_timer) (trace s).
Proof. reflexivity. Qed.

Lemma st_m_st_disable (s : state) (mt : motor) :
  st_m (st_disable s) mt
  = stRunMotor.mk 0 (stRunMotor.phase_accumulator (st_m s mt))
      (stRunMotor.step_count_diagnostic (st_m s mt)).
Proof. destruct mt; reflexivity. Qed.

(** The state the end of a move hands to the loader. *)
Lemma dda_end_of_move_eq (hw : config) (s : state) :
  exists y,
    dda_end_of_move hw s = _load_move y
    /\ sps y = sps s
    /\ stRunSingleton.timer_ticks_downcount (st y)
       = stRunSingleton.timer_ticks_downcount (st s)
    /\ (forall mt, stRunMotor.phase_increment (st_m y mt) = 0)
    /\ filter (on_timer dda_timer) (trace y)
       = timer_stop dda_timer :: filter (on_timer dda_timer) (trace s).
Proof.
  unfold dda_end_of_move. cbv zeta.
  eexists. split; [reflexivity|].
  split; [rewrite sps_st_disable, !sps_power_down; reflexivity|].
  split.
  { change (stRunSingleton.timer_ticks_downcount (st (st_disable ?x)))
      with (stRunSingleton.timer_ticks_downcount (st x)).
    unfold power_down.
    repeat match goal with |- context [if ?c then _ else _] => destruct c end;
      reflexivity. }
  split; [intros mt; rewrite st_m_st_disable; reflexivity|].
  rewrite on_timer_st_disable, !on_timer_power_down. reflexivity.
Qed.

(** X10. The last tick of a move loads the next one without leaving the
    interrupt. With the down-counter at [T] and an aline staged, after
    [T] ticks the runtime holds the staged move (down-counter,
    [timer_ticks_X_substeps] and every increment), the prep buffer is
    owned by the exec side, and on the DDA timer the [T] acknowledgements
    are followed by one stop and one start. With a null move staged
    instead, the runtime is idle after the [T] ticks: [st_isbusy] answers
    false, every increment is 0 and the DDA timer is stopped. *)
Theorem next_move_starts_on_last_tick (hw : config) (s : state) (T : Z) :
  0 < T < 2 ^ 31 ->
  stRunSingleton.timer_ticks_downcount (st s) = T ->
  let sT := Nat.iter (Z.to_nat T) (dda_timer_interrupt hw) s in
  sps sT = sps_set_exec_state PREP_BUFFER_OWNED_BY_EXEC (sps s)
  /\ (stPrepSingleton.move_type (sps s) = MOVE_TYPE_ALINE ->
      stRunSingleton.timer_ticks_downcount (st sT)
      = int32 (stPrepSingleton.timer_ticks (sps s))
      /\ stRunSingleton.timer_ticks_X_substeps (st sT)
         = int32 (stPrepSingleton.timer_ticks_X_substeps (sps s))
      /\ (forall mt,
            stRunMotor.phase_increment (st_m sT mt)
            = int32 (stPrepMotor.phase_increment (stPrepSingleton.m (sps s) mt)))
      /\ filter (on_timer dda_timer) (trace sT)
         = timer_start dda_timer :: timer_stop dda_timer
           :: repeat (timer_getInterruptCause dda_timer) (Z.to_nat T)
              ++ filter (on_timer dda_timer) (trace s))
  /\ (stPrepSingleton.move_type (sps s) = MOVE_TYPE_NULL ->
      st_isbusy sT = false
      /\ (forall mt, stRunMotor.phase_increment (st_m sT mt) = 0)
      /\ filter (on_timer dda_timer) (trace sT)
         = timer_stop dda_timer
           :: repeat (timer_getInterruptCause dda_timer) (Z.to_nat T)
              ++ filter (on_timer dda_timer) (trace s)).
Proof.
  intros HT Hd. cbv zeta.
  destruct (dda_move_end hw s T HT Hd) as (x & E & Px & Dx & Fx).
  destruct (dda_end_of_move_eq hw x) as (y & Ey & Py & Dy & Iy & Fy).
  rewrite E, Ey.
  rewrite sps_call, trace_call. cbn [filter on_timer].
  split; [rewrite sps__load_move, Py, Px; reflexivity|].
  split.
  - intros Hmove.
    assert (My : stPrepSingleton.move_type (sps y) = MOVE_TYPE_ALINE)
      by (rewrite Py, Px; exact Hmove).
    rewrite st_call.
    rewrite (downcount_load_aline y My), (X_substeps_load_aline y My).
    rewrite (on_timer__load_move_aline y My), Fy, Fx, Py, Px.
    repeat split.
    intros mt. rewrite st_m_call, (st_m_load_aline y mt My), Py, Px. reflexivity.
  - intros Hnull.
    assert (Ny : stPrepSingleton.move_type (sps y) = MOVE_TYPE_NULL)
      by (rewrite Py, Px; exact Hnull).
    rewrite (_load_move_null y Ny).
    unfold st_isbusy. rewrite st_call, st_load_done, Dy.
    rewrite Dx. cbn [Z.eqb].
    rewrite trace_load_done. cbn [filter on_timer].
    rewrite Fy, Fx. repeat split.
    intros mt. rewrite st_m_call, (st_m_st _ _ mt (st_load_done y)). apply Iy.
Qed.

Lemma next_move_starts_on_last_tick_witness :
  sps (Nat.iter (Z.to_nat 200) (dda_timer_interrupt hw_ref)
         (exec_timer_interrupt (st_prep_line hw_ref (steps_1 1) (f32_of_Z 100))
            (running 200 2000 100 0)))
  = sps_set_exec_state PREP_BUFFER_OWNED_BY_EXEC
      (sps (exec_timer_interrupt (st_prep_line hw_ref (steps_1 1) (f32_of_Z 100))
              (running 200 2000 100 0))).
Proof.
  refine (proj1 (next_move_starts_on_last_tick hw_ref
                   (exec_timer_interrupt
                      (st_prep_line hw_ref (steps_1 1) (f32_of_Z 100))
                      (running 200 2000 100 0)) 200 _ _)).
  - lia.
  - vm_compute. reflexivity.
Defined.

(** *** Stopping in the middle of a move *)

(** X11. [st_disable] never touches the down-counter: called while a move
    is running it stops the DDA timer and clears the increments, but
    [st_isbusy] keeps answering true, [_request_load_move] pends nothing,
    and an exec interrupt that stages a new move (whatever the planner
    stages) pends no load either, so with the DDA timer stopped nothing
    is left to load the staged move. *)
Theorem st_disable_leaves_busy
    (g : stPrepSingleton.t -> stat_t * stPrepSingleton.t) (s : state) :
  stRunSingleton.timer_ticks_downcount (st s) <> 0 ->
  let s1 := st_disable s in
  st_isbusy s1 = true
  /\ stRunSingleton.timer_ticks_downcount (st s1)
     = stRunSingleton.timer_ticks_downcount (st s)
  /\ filter (on_timer dda_timer) (trace s1)
     = timer_stop dda_timer :: filter (on_timer dda_timer) (trace s)
  /\ _request_load_move s1 = s1
  /\ trace (_exec_move g s1) = trace s1
  /\ st_isbusy (_exec_move g s1) = true.
Proof.
  intros Hd. cbv zeta.
  assert (D : stRunSingleton.timer_ticks_downcount (st (st_disable s))
              = stRunSingleton.timer_ticks_downcount (st s)) by reflexivity.
  assert (B : (stRunSingleton.timer_ticks_downcount (st (st_disable s)) =? 0) = false)
    by (rewrite D; apply Z.eqb_neq; exact Hd).
  split; [unfold st_isbusy; rewrite B; reflexivity|].
  split; [exact D|].
  split; [apply on_timer_st_disable|].
  split; [unfold _request_load_move; rewrite B; reflexivity|].
  generalize dependent (st_disable s). intros s1 _ B.
  unfold _exec_move, st_isbusy.
  destruct (stPrepSingleton.exec_state (sps s1)); [rewrite B; split; reflexivity|].
  destruct (g (sps s1)) as [status p]. cbv zeta.
  destruct status; unfold _request_load_move; cbn [st with_sps trace];
    rewrite ?B; cbn [st with_sps trace]; rewrite ?B; split; reflexivity.
Qed.

Lemma st_disable_leaves_busy_witness :
  st_isbusy (st_disable (running 200 2000 1000 0)) = true.
Proof.
  refine (proj1 (st_disable_leaves_busy (fun p => (STAT_NOOP, p))
                   (running 200 2000 1000 0) _)).
  vm_compute. discriminate.
Defined.

(** *** Dwells *)

Lemma dwell_tick_running (s : state) :
  int32 (stRunSingleton.timer_ticks_downcount (st s) - 1) <> 0 ->
  dwell_timer_interrupt s
  = st_set_timer_ticks_downcount
      (int32 (stRunSingleton.timer_ticks_downcount (st s) - 1))
      (call (timer_getInterruptCause dwell_timer) s).
Proof.
  intros H. unfold dwell_timer_interrupt. cbv zeta.
  rewrite downcount_st_set_timer_ticks_downcount, st_call.
  destruct (Z.eqb_spec (int32 (stRunSingleton.timer_ticks_downcount (st s) - 1)) 0);
    [contradiction|reflexivity].
Qed.

Lemma dwell_ticks_running (s : state) (T : Z) (n : nat) :
  0 < T < 2 ^ 31 ->
  stRunSingleton.timer_ticks_downcount (st s) = T ->
  Z.of_nat n < T ->
  let sn := Nat.iter n dwell_timer_interrupt s in
  stRunSingleton.timer_ticks_downcount (st sn) = T - Z.of_nat n
  /\ sps sn = sps s
  /\ trace sn = repeat (timer_getInterruptCause dwell_timer) n ++ trace s
  /\ stRunSingleton.timer_ticks_X_substeps (st sn)
     = stRunSingleton.timer_ticks_X_substeps (st s)
  /\ forall mt, st_m sn mt = st_m s mt.
Proof.
  intros HT Hd. cbv zeta. induction n as [|n IH]; intros Hn.
  - cbn [Nat.iter nat_rect repeat app]. repeat split. cbn. lia.
  - rewrite Nat.iter_succ.
    destruct IH as (D & P & F & X & M); [lia|].
    assert (Hne : int32 (stRunSingleton.timer_ticks_downcount
                           (st (Nat.iter n dwell_timer_interrupt s)) - 1) <> 0).
    { rewrite D, int32_small by lia. lia. }
    rewrite (dwell_tick_running _ Hne), D.
    rewrite downcount_st_set_timer_ticks_downcount,
      sps_st_set_timer_ticks_downcount, trace_st_set_timer_ticks_downcount,
      sps_call, trace_call, P, F.
    rewrite int32_small by lia.
    split; [lia|]. split; [reflexivity|]. split; [reflexivity|].
    split; [exact X|].
    intros mt. rewrite st_m_st_set_timer_ticks_downcount, st_m_call. apply M.
Qed.

(** X12. A dwell whose down-counter stands at [T] (between 1 and 2^31 - 1)
    lasts exactly [T] ticks of the dwell timer: each of the first [T - 1]
    ticks only acknowledges the interrupt and decrements the counter
    ([st_isbusy] answers true, nothing else in the runtime or the prep
    singleton moves, no other call is made), and the [T]-th tick stops the
    dwell timer and runs the loader. *)
Theorem dwell_duration (s : state) (T : Z) :
  0 < T < 2 ^ 31 ->
  stRunSingleton.timer_ticks_downcount (st s) = T ->
  (forall n : nat, Z.of_nat n < T ->
     let sn := Nat.iter n dwell_timer_interrupt s in
     stRunSingleton.timer_ticks_downcount (st sn) = T - Z.of_nat n
     /\ st_isbusy sn = true
     /\ sps sn = sps s
     /\ trace sn = repeat (timer_getInterruptCause dwell_timer) n ++ trace s
     /\ stRunSingleton.timer_ticks_X_substeps (st sn)
        = stRunSingleton.timer_ticks_X_substeps (st s)
     /\ forall mt, st_m sn mt = st_m s mt)
  /\ Nat.iter (Z.to_nat T) dwell_timer_interrupt s
     = _load_move
         (call (timer_stop dwell_timer)
            (st_set_timer_ticks_downcount 0
               (call (timer_getInterruptCause dwell_timer)
                  (Nat.iter (Z.to_nat (T - 1)) dwell_timer_interrupt s)))).
Proof.
  intros HT Hd. split.
  - intros n Hn. cbv zeta.
    destruct (dwell_ticks_running s T n HT Hd Hn) as (D & P & F & X & M).
    repeat split; try assumption.
    unfold st_isbusy. rewrite D.
    destruct (Z.eqb_spec (T - Z.of_nat n) 0); [lia|reflexivity].
  - replace (Z.to_nat T) with (Datatypes.S (Z.to_nat (T - 1))) by lia.
    rewrite Nat.iter_succ.
    destruct (dwell_ticks_running s T (Z.to_nat (T - 1)) HT Hd ltac:(lia))
      as (D & _).
    unfold dwell_timer_interrupt at 1. cbv zeta.
    rewrite downcount_st_set_timer_ticks_downcount, st_call, D.
    replace (T - Z.of_nat (Z.to_nat (T - 1)) - 1) with 0 by lia.
    reflexivity.
Qed.

Lemma dwell_duration_witness :
  Nat.iter (Z.to_nat 50) dwell_timer_interrupt (dwelling 50)
  = _load_move
      (call (timer_stop dwell_timer)
         (st_set_timer_ticks_downcount 0
            (call (timer_getInterruptCause dwell_timer)
               (Nat.iter (Z.to_nat (50 - 1)) dwell_timer_interrupt (dwelling 50))))).
Proof.
  refine (proj2 (dwell_duration (dwelling 50) 50 _ _)).
  - lia.
  - reflexivity.
Defined.

Lemma calls_on_step_load_motor (mt mt' : motor) (v : Z) (s : state) :
  calls_on (step mt') (trace (load_motor mt v s)) = calls_on (step mt') (trace s).
Proof.
  unfold load_motor. cbv zeta.
  destruct (negb _); [destruct (stPrepMotor.dir _ =? 0)|];
    destruct (stPrepSingleton.counter_reset_flag _);
    rewrite ?calls_on_call by reflexivity; reflexivity.
Qed.

Lemma calls_on_step__load_move (mt : motor) (s : state) :
  calls_on (step mt) (trace (_load_move s)) = calls_on (step mt) (trace s).
Proof.
  destruct (stPrepSingleton.move_type (sps s)) eqn:E.
  - rewrite (_load_move_null s E). reflexivity.
  - rewrite (_load_move_aline s E), trace_load_done, calls_on_cons.
    cbn [on_pin]. unfold load_aline, st_enable. cbv zeta.
    rewrite !calls_on_call by reflexivity.
    do 6 rewrite calls_on_step_load_motor. reflexivity.
  - rewrite (_load_move_dwell s E). reflexivity.
Qed.

(** X13. The dwell interrupt never touches a step line: whatever the
    state, and for any number of dwell ticks, the tick that runs the
    loader included, the calls made on the step pin of every motor are
    those made before. *)
Theorem dwell_never_steps (s : state) (n : nat) (mt : motor) :
  calls_on (step mt) (trace (Nat.iter n dwell_timer_interrupt s))
  = calls_on (step mt) (trace s).
Proof.
  induction n as [|n IH]; [reflexivity|].
  rewrite Nat.iter_succ, <- IH.
  generalize (Nat.iter n dwell_timer_interrupt s). intros x.
  unfold dwell_timer_interrupt. cbv zeta.
  destruct (_ =? 0).
  - rewrite calls_on_step__load_move. reflexivity.
  - reflexivity.
Qed.

(** *** What [st_prep_line] stages for each motor *)

Lemma SFabs_binary_round_aux (s s' : bool) (m e : Z) (l : location) :
  SFabs (binary_round_aux prec32 emax32 s m e l)
  = SFabs (binary_round_aux prec32 emax32 s' m e l).
Proof.
  unfold binary_round_aux.
  destruct (shr_fexp prec32 emax32 m e l) as [mrs' e'].
  destruct (shr_fexp prec32 emax32 _ e' loc_Exact) as [mrs'' e''].
  destruct (shr_m mrs''); [reflexivity| |reflexivity].
  destruct (e'' <=? emax32 - prec32); reflexivity.
Qed.

Lemma fabs_f32_mul_opp (x y : spec_float) :
  fabs (f32_mul (SFopp x) y) = fabs (f32_mul x y).
Proof.
  unfold fabs, f32_mul.
  destruct x as [sx|sx| |sx mx ex], y as [sy|sy| |sy my ey];
    try reflexivity.
  cbn [SFopp SFmul]. apply SFabs_binary_round_aux.
Qed.

Lemma SFltb_opp_zero (x : spec_float) :
  is_nonzero_number x = true ->
  SFltb (SFopp x) (f32_of_Z 0) = negb (SFltb x (f32_of_Z 0)).
Proof.
  destruct x as [sx|sx| |sx mx ex]; try discriminate; intros _;
    destruct sx; reflexivity.
Qed.

Lemma SFltb_opp_zero_same (x : spec_float) :
  is_nonzero_number x = false ->
  SFltb (SFopp x) (f32_of_Z 0) = SFltb x (f32_of_Z 0).
Proof.
  destruct x as [sx|sx| |sx mx ex]; try discriminate; intros _;
    try destruct sx; reflexivity.
Qed.

Lemma st_prep_line_accepts (hw : config) (steps steps' : motor -> spec_float)
    (microseconds : spec_float) (p p1 : stPrepSingleton.t) :
  st_prep_line hw steps microseconds p = (STAT_OK, p1) ->
  st_prep_line hw steps' microseconds p
  = (STAT_OK, snd (st_prep_line hw steps' microseconds p)).
Proof.
  intros H.
  destruct (st_prep_line_ok hw steps microseconds p p1 H) as (Hx & Hf & He & _).
  unfold st_prep_line. rewrite Hx, Hf, He. reflexivity.
Qed.

(** X14. Reversing the sign of every step count stages the same move the
    other way round: where [st_prep_line] accepts a line it accepts the
    reversed one too, with the same [timer_ticks], [timer_ticks_X_substeps],
    reset flag and the same increment for every motor; the direction of
    every motor whose step count is a number other than zero is the
    opposite one, and the direction of a motor whose step count is a zero
    of either sign (or a NaN) is what it was. *)
Theorem st_prep_line_reverse (hw : config) (steps : motor -> spec_float)
    (microseconds : spec_float) (p p1 : stPrepSingleton.t) :
  st_prep_line hw steps microseconds p = (STAT_OK, p1) ->
  let r := st_prep_line hw (fun i => SFopp (steps i)) microseconds p in
  fst r = STAT_OK
  /\ stPrepSingleton.timer_ticks (snd r) = stPrepSingleton.timer_ticks p1
  /\ stPrepSingleton.timer_ticks_X_substeps (snd r)
     = stPrepSingleton.timer_ticks_X_substeps p1
  /\ stPrepSingleton.counter_reset_flag (snd r)
     = stPrepSingleton.counter_reset_flag p1
  /\ forall i,
       stPrepMotor.phase_increment (stPrepSingleton.m (snd r) i)
       = stPrepMotor.phase_increment (stPrepSingleton.m p1 i)
       /\ stPrepMotor.dir (stPrepSingleton.m (snd r) i)
          = if is_nonzero_number (steps i)
            then int8 (Z.lxor (if SFltb (steps i) (f32_of_Z 0) then 0 else 1)
                              (polarity hw i))
            else stPrepMotor.dir (stPrepSingleton.m p1 i).
Proof.
  intros H1. cbv zeta.
  pose proof (st_prep_line_accepts hw steps (fun i => SFopp (steps i))
                microseconds p p1 H1) as H2.
  destruct (st_prep_line_ok hw _ _ p p1 H1)
    as (_ & _ & _ & Ht1 & Hx1 & Hf1 & _ & _ & _ & _ & Hm1).
  destruct (st_prep_line_ok hw _ _ p _ H2)
    as (_ & _ & _ & Ht2 & Hx2 & Hf2 & _ & _ & _ & _ & Hm2).
  rewrite H2 at 1. cbn [fst].
  split; [reflexivity|].
  split; [rewrite Ht1, Ht2; reflexivity|].
  split; [rewrite Hx1, Hx2; reflexivity|].
  split; [rewrite Hf1, Hf2; reflexivity|].
  intros i. rewrite Hm1, Hm2, !m_prep_motors.
  cbn [stPrepMotor.phase_increment stPrepMotor.dir].
  rewrite fabs_f32_mul_opp. split; [reflexivity|].
  destruct (is_nonzero_number (steps i)) eqn:N.
  - rewrite (SFltb_opp_zero _ N).
    destruct (SFltb (steps i) (f32_of_Z 0)); reflexivity.
  - rewrite (SFltb_opp_zero_same _ N). reflexivity.
Qed.

Lemma st_prep_line_reverse_witness :
  stPrepMotor.dir
    (stPrepSingleton.m
       (snd (st_prep_line hw_ref (fun i => SFopp (steps_1 100 i)) (f32_of_Z 1000)
               (sps (stepper_init hw_ref power_on)))) MOTOR_1)
  = if is_nonzero_number (steps_1 100 MOTOR_1)
    then int8 (Z.lxor (if SFltb (steps_1 100 MOTOR_1) (f32_of_Z 0) then 0 else 1)
                      (polarity hw_ref MOTOR_1))
    else stPrepMotor.dir
           (stPrepSingleton.m
              (snd (st_prep_line hw_ref (steps_1 100) (f32_of_Z 1000)
                      (sps (stepper_init hw_ref power_on)))) MOTOR_1).
Proof.
  refine (proj2 (proj2 (proj2 (proj2 (proj2
            (st_prep_line_reverse hw_ref (steps_1 100) (f32_of_Z 1000)
               (sps (stepper_init hw_ref power_on))
               (snd (st_prep_line hw_ref (steps_1 100) (f32_of_Z 1000)
                       (sps (stepper_init hw_ref power_on)))) _)))) MOTOR_1)).
  vm_compute. reflexivity.
Defined.

(** *** The lines of the motors at a load and at the end of a move *)

Lemma trace_load_motor (mt : motor) (v : Z) (s : state) :
  trace (load_motor mt v s) = motor_lines (sps s) mt ++ trace s.
Proof.
  unfold load_motor, motor_lines. cbv zeta.
  replace (stRunMotor.phase_increment _ =? 0)
    with (int32 (stPrepMotor.phase_increment (stPrepSingleton.m (sps s) mt)) =? 0).
  - assert (S1 : forall a b c, sps (st_m_set_phase_accumulator a b c) = sps c)
      by reflexivity.
    assert (S2 : forall a b c, sps (st_m_set_phase_increment a b c) = sps c)
      by reflexivity.
    destruct (stPrepSingleton.counter_reset_flag _);
      destruct (int32 _ =? 0); simpl negb; cbv iota; try reflexivity;
      rewrite ?S1, ?S2;
      destruct (stPrepMotor.dir _ =? 0); reflexivity.
  - f_equal.
    destruct (stPrepSingleton.counter_reset_flag _);
      unfold st_m_set_phase_accumulator, st_m_set_phase_increment, st_set_m,
        with_st, st_m, upd; simpl; rewrite ?motor_eqb_refl; simpl;
      rewrite ?motor_eqb_refl; reflexivity.
Qed.

Lemma trace_load_aline (s : state) :
  trace (load_aline s)
  = timer_start dda_timer :: pin_clear enable
    :: motor_lines (sps s) MOTOR_6 ++ motor_lines (sps s) MOTOR_5
    ++ motor_lines (sps s) MOTOR_4 ++ motor_lines (sps s) MOTOR_3
    ++ motor_lines (sps s) MOTOR_2 ++ motor_lines (sps s) MOTOR_1 ++ trace s.
Proof.
  unfold load_aline. cbv zeta.
  unfold st_enable. cbv zeta. rewrite !trace_call.
  do 6 rewrite trace_load_motor.
  do 5 rewrite sps_load_motor.
  rewrite sps_st_set_timer_ticks_X_substeps, sps_st_set_timer_ticks_downcount.
  rewrite trace_st_set_timer_ticks_X_substeps, trace_st_set_timer_ticks_downcount.
  reflexivity.
Qed.

Lemma calls_on_app (p : pin) (a b : list event) :
  calls_on p (a ++ b) = calls_on p a ++ calls_on p b.
Proof. apply filter_app. Qed.

Lemma calls_on_enable_motor_lines (p : stPrepSingleton.t) (mt mt' : motor) :
  calls_on (enable_of mt) (motor_lines p mt')
  = if motor_eqb mt' mt
    then if int32 (stPrepMotor.phase_increment (stPrepSingleton.m p mt')) =? 0
         then [] else [pin_clear (enable_of mt)]
    else [].
Proof.
  unfold motor_lines.
  destruct (int32 _ =? 0); [destruct (motor_eqb mt' mt); reflexivity|].
  destruct (stPrepMotor.dir _ =? 0); destruct mt, mt'; reflexivity.
Qed.

Lemma calls_on_dir_motor_lines (p : stPrepSingleton.t) (mt mt' : motor) :
  calls_on (dir mt) (motor_lines p mt')
  = if motor_eqb mt' mt
    then if int32 (stPrepMotor.phase_increment (stPrepSingleton.m p mt')) =? 0
         then []
         else [if stPrepMotor.dir (stPrepSingleton.m p mt) =? 0
               then pin_clear (dir mt) else pin_set (dir mt)]
    else [].
Proof.
  unfold motor_lines.
  destruct (int32 _ =? 0); [destruct (motor_eqb mt' mt); reflexivity|].
  destruct mt, mt'; cbn [motor_eqb];
    destruct (stPrepMotor.dir _ =? 0); reflexivity.
Qed.

(** X15. The calls of an aline load, in order. For each motor in turn
    (motor 1 first) whose staged increment is not zero as a 32-bit value
    the loader writes the direction line (cleared when the staged
    direction is 0, set otherwise) and then clears the motor's enable line;
    for a motor with a zero increment it makes no call. It then clears the
    common enable, starts the DDA timer and pends the exec interrupt, and
    makes no other call. *)
Theorem load_aline_calls (s : state) :
  stPrepSingleton.move_type (sps s) = MOVE_TYPE_ALINE ->
  trace (_load_move s)
  = timer_setInterruptPending exec_timer :: timer_start dda_timer
    :: pin_clear enable
    :: motor_lines (sps s) MOTOR_6 ++ motor_lines (sps s) MOTOR_5
    ++ motor_lines (sps s) MOTOR_4 ++ motor_lines (sps s) MOTOR_3
    ++ motor_lines (sps s) MOTOR_2 ++ motor_lines (sps s) MOTOR_1 ++ trace s.
Proof.
  intros Hmove.
  rewrite (_load_move_aline s Hmove), trace_load_done, trace_load_aline.
  reflexivity.
Qed.

(** An aline of 1000 microseconds with 100 steps forward on motor 1 and 50
    steps backward on motor 2, staged by the exec interrupt after
    [stepper_init]: the load writes the two motors' direction and enable
    lines and makes no call for the four idle motors. *)
Lemma load_aline_calls_witness :
  trace (_load_move
           (exec_timer_interrupt
              (st_prep_line hw_ref
                 (fun i => match i with
                           | MOTOR_1 => f32_of_Z 100
                           | MOTOR_2 => f32_of_Z (-50)
                           | _ => f32_of_Z 0
                           end)
                 (f32_of_Z 1000))
              (stepper_init hw_ref power_on)))
  = [timer_setInterruptPending exec_timer; timer_start dda_timer;
     pin_clear enable;
     pin_clear (enable_of MOTOR_2); pin_set (dir MOTOR_2);
     pin_clear (enable_of MOTOR_1); pin_clear (dir MOTOR_1);
     timer_setInterruptPending load_timer;
     timer_getInterruptCause exec_timer].
Proof.
  refine (eq_trans
            (load_aline_calls
               (exec_timer_interrupt
                  (st_prep_line hw_ref
                     (fun i => match i with
                               | MOTOR_1 => f32_of_Z 100
                               | MOTOR_2 => f32_of_Z (-50)
                               | _ => f32_of_Z 0
                               end)
                     (f32_of_Z 1000))
                  (stepper_init hw_ref power_on)) _) _).
  - vm_compute. reflexivity.
  - vm_compute. reflexivity.
Defined.

Lemma calls_on_enable__load_move (s : state) (mt : motor) :
  calls_on (enable_of mt) (trace (_load_move s))
  = if moves_next (sps s) mt
    then pin_clear (enable_of mt) :: calls_on (enable_of mt) (trace s)
    else calls_on (enable_of mt) (trace s).
Proof.
  unfold moves_next.
  destruct (stPrepSingleton.move_type (sps s)) eqn:E.
  - rewrite (_load_move_null s E). reflexivity.
  - rewrite (_load_move_aline s E), trace_load_done, trace_load_aline.
    rewrite !calls_on_cons. cbn [on_pin pin_eqb]. cbv iota.
    rewrite !calls_on_app, !calls_on_enable_motor_lines.
    destruct mt; cbn [motor_eqb app];
      destruct (int32 _ =? 0); reflexivity.
  - rewrite (_load_move_dwell s E). reflexivity.
Qed.

Lemma calls_on_enable_power_down (hw : config) (mt mt' : motor) (s : state) :
  calls_on (enable_of mt) (trace (power_down hw mt' s))
  = if motor_eqb mt' mt && (power_mode hw mt' =? 1)
    then pin_set (enable_of mt) :: calls_on (enable_of mt) (trace s)
    else calls_on (enable_of mt) (trace s).
Proof.
  unfold power_down.
  destruct (power_mode hw mt' =? 1); [|rewrite andb_false_r; reflexivity].
  rewrite andb_true_r, trace_call, calls_on_cons.
  destruct mt, mt'; reflexivity.
Qed.

Lemma calls_on_enable_st_disable (s : state) (mt : motor) :
  calls_on (enable_of mt) (trace (st_disable s))
  = match mt with
    | MOTOR_3 => calls_on (enable_of mt) (trace s)
    | _ => pin_set (enable_of mt) :: calls_on (enable_of mt) (trace s)
    end.
Proof. destruct mt; reflexivity. Qed.

(** X16. The enable line of a motor after the end of a move. For every
    motor but motor 3 the last call on its enable line, once the last tick
    has run the end of the move, is a clear (motor energised) when the
    move staged next is an aline with a nonzero increment for it, and a
    set (motor de-energised) otherwise: the power mode of the motor plays
    no part. Motor 3 is the one motor for which the power mode decides:
    with a power mode other than 1 and nothing to do in the next move, the
    end of the move makes no call on its enable line at all. *)
Theorem end_of_move_enable_lines (hw : config) (s : state) (mt : motor) :
  dda_end_of_move hw s = _load_move (dda_stop hw s)
  /\ (mt <> MOTOR_3 ->
      hd_error (calls_on (enable_of mt) (trace (dda_end_of_move hw s)))
      = Some (if moves_next (sps s) mt
              then pin_clear (enable_of mt) else pin_set (enable_of mt)))
  /\ calls_on (enable_of MOTOR_3) (trace (dda_end_of_move hw s))
     = (if moves_next (sps s) MOTOR_3 then [pin_clear (enable_of MOTOR_3)] else [])
       ++ (if power_mode hw MOTOR_3 =? 1 then [pin_set (enable_of MOTOR_3)] else [])
       ++ calls_on (enable_of MOTOR_3) (trace s).
Proof.
  assert (E : dda_end_of_move hw s = _load_move (dda_stop hw s)) by reflexivity.
  assert (P : sps (dda_stop hw s) = sps s).
  { unfold dda_stop. cbv zeta. rewrite sps_st_disable, !sps_power_down. reflexivity. }
  split; [exact E|]. rewrite E. split.
  - intros Hmt. rewrite calls_on_enable__load_move, P.
    destruct (moves_next (sps s) mt); [reflexivity|].
    unfold dda_stop. cbv zeta. rewrite calls_on_enable_st_disable.
    destruct mt; try reflexivity. exfalso. apply Hmt. reflexivity.
  - rewrite calls_on_enable__load_move, P.
    unfold dda_stop. cbv zeta. rewrite calls_on_enable_st_disable.
    rewrite !calls_on_enable_power_down. cbn [motor_eqb andb].
    destruct (moves_next (sps s) MOTOR_3);
      destruct (power_mode hw MOTOR_3 =? 1); reflexivity.
Qed.

Lemma end_of_move_enable_lines_witness :
  hd_error (calls_on (enable_of MOTOR_1)
              (trace (dda_end_of_move hw_ref (running 1 200 20 (-200)))))
  = Some (if moves_next (sps (running 1 200 20 (-200))) MOTOR_1
          then pin_clear (enable_of MOTOR_1) else pin_set (enable_of MOTOR_1)).
Proof.
  refine (proj1 (proj2 (end_of_move_enable_lines hw_ref (running 1 200 20 (-200))
                          MOTOR_1)) _).
  discriminate.
Defined.

Lemma calls_on_dir__load_move (s : state) (mt : motor) :
  calls_on (dir mt) (trace (_load_move s))
  = if moves_next (sps s) mt
    then (if stPrepMotor.dir (stPrepSingleton.m (sps s) mt) =? 0
          then pin_clear (dir mt) else pin_set (dir mt))
         :: calls_on (dir mt) (trace s)
    else calls_on (dir mt) (trace s).
Proof.
  unfold moves_next.
  destruct (stPrepSingleton.move_type (sps s)) eqn:E.
  - rewrite (_load_move_null s E). reflexivity.
  - rewrite (_load_move_aline s E), trace_load_done, trace_load_aline.
    rewrite !calls_on_cons. cbn [on_pin pin_eqb]. cbv iota.
    rewrite !calls_on_app, !calls_on_dir_motor_lines.
    destruct mt; cbn [motor_eqb app];
      destruct (int32 _ =? 0); reflexivity.
  - rewrite (_load_move_dwell s E). reflexivity.
Qed.

Lemma prep_dir_is_zero (b : bool) (pol : Z) :
  pol = 0 \/ pol = 1 ->
  (int8 (Z.lxor (if b then 1 else 0) pol) =? 0) = negb (xorb b (pol =? 1)).
Proof. intros [H|H]; rewrite H; destruct b; reflexivity. Qed.

(** X17. How a line drives the direction and enable lines of a motor.
    From an idle runtime, an exec interrupt whose planner calls
    [st_prep_line] with a line it accepts, followed by the load interrupt:
    a motor whose increment is not zero has its direction line written
    once, set when the step count is below zero and the polarity is 0, or
    when it is not below zero and the polarity is 1, and cleared otherwise,
    and its enable line cleared once; a motor whose increment is zero has
    neither line called. A step count of zero of either sign gives the
    increment zero (with [DDA_SUBSTEPS] a finite float). *)
Theorem line_drives_direction (hw : config) (steps : motor -> spec_float)
    (microseconds : spec_float) (s : state) (p' : stPrepSingleton.t) (i : motor) :
  stRunSingleton.timer_ticks_downcount (st s) = 0 ->
  st_prep_line hw steps microseconds (sps s) = (STAT_OK, p') ->
  let s2 := load_timer_interrupt
              (exec_timer_interrupt (st_prep_line hw steps microseconds) s) in
  let inc := float_to_uint32 (uint32_out_of_range hw)
               (fabs (f32_mul (steps i) (f32_of_Z (DDA_SUBSTEPS hw)))) in
  (int32 inc <> 0 -> polarity hw i = 0 \/ polarity hw i = 1 ->
   calls_on (dir i) (trace s2)
   = (if xorb (SFltb (steps i) (f32_of_Z 0)) (polarity hw i =? 1)
      then pin_set (dir i) else pin_clear (dir i))
     :: calls_on (dir i) (trace s)
   /\ calls_on (enable_of i) (trace s2)
      = pin_clear (enable_of i) :: calls_on (enable_of i) (trace s))
  /\ (int32 inc = 0 ->
      calls_on (dir i) (trace s2) = calls_on (dir i) (trace s)
      /\ calls_on (enable_of i) (trace s2) = calls_on (enable_of i) (trace s))
  /\ (forall b, steps i = S754_zero b ->
      isfinite (f32_of_Z (DDA_SUBSTEPS hw)) = true -> inc = 0).
Proof.
  intros Hidle Hok. cbv zeta.
  destruct (st_prep_line_ok hw steps microseconds (sps s) p' Hok)
    as (Hx & _ & _ & _ & _ & _ & _ & Hmove & _ & _ & Hm).
  unfold exec_timer_interrupt, load_timer_interrupt. cbv zeta.
  set (s0 := call (timer_getInterruptCause exec_timer) s).
  assert (G : fst (st_prep_line hw steps microseconds (sps s0)) <> STAT_NOOP).
  { change (sps s0) with (sps s). rewrite Hok. discriminate. }
  destruct (exec_state__exec_move (st_prep_line hw steps microseconds) s0 Hx G)
    as (P & S & T).
  change (sps s0) with (sps s) in P. rewrite Hok in P. cbn [snd] in P.
  change (st s0) with (st s) in T. rewrite Hidle in T. cbn [Z.eqb] in T.
  set (s1 := _exec_move (st_prep_line hw steps microseconds) s0) in *.
  set (s1' := call (timer_getInterruptCause load_timer) s1).
  assert (P1 : sps s1' = sps_set_exec_state PREP_BUFFER_OWNED_BY_LOADER p')
    by exact P.
  assert (M : stPrepSingleton.m (sps s1') i
              = stPrepMotor.mk
                  (float_to_uint32 (uint32_out_of_range hw)
                     (fabs (f32_mul (steps i) (f32_of_Z (DDA_SUBSTEPS hw)))))
                  (int8 (Z.lxor (if SFltb (steps i) (f32_of_Z 0) then 1 else 0)
                                (polarity hw i)))).
  { rewrite P1.
    change (stPrepSingleton.m (sps_set_exec_state PREP_BUFFER_OWNED_BY_LOADER p'))
      with (stPrepSingleton.m p').
    rewrite Hm. apply m_prep_motors. }
  assert (N : moves_next (sps s1') i
              = negb (int32 (float_to_uint32 (uint32_out_of_range hw)
                               (fabs (f32_mul (steps i)
                                        (f32_of_Z (DDA_SUBSTEPS hw))))) =? 0)).
  { unfold moves_next. rewrite M, P1.
    change (stPrepSingleton.move_type
              (sps_set_exec_state PREP_BUFFER_OWNED_BY_LOADER p'))
      with (stPrepSingleton.move_type p').
    rewrite Hmove. reflexivity. }
  assert (D : calls_on (dir i) (trace s1') = calls_on (dir i) (trace s)).
  { unfold s1'. rewrite trace_call, calls_on_cons. cbn [on_pin]. cbv iota.
    rewrite T. reflexivity. }
  assert (E : calls_on (enable_of i) (trace s1') = calls_on (enable_of i) (trace s)).
  { unfold s1'. rewrite trace_call, calls_on_cons. cbn [on_pin]. cbv iota.
    rewrite T. reflexivity. }
  rewrite calls_on_dir__load_move, calls_on_enable__load_move, N, D, E, M.
  cbn [stPrepMotor.dir].
  split; [|split].
  - intros Hinc Hpol.
    destruct (Z.eqb_spec
                (int32 (float_to_uint32 (uint32_out_of_range hw)
                          (fabs (f32_mul (steps i) (f32_of_Z (DDA_SUBSTEPS hw))))))
                0) as [Z0|_]; [contradiction|].
    cbn [negb]. rewrite (prep_dir_is_zero _ _ Hpol).
    destruct (xorb _ _); split; reflexivity.
  - intros Hinc. rewrite Hinc. cbn [Z.eqb negb]. split; reflexivity.
  - intros b Hb Hf. rewrite Hb.
    destruct (f32_of_Z (DDA_SUBSTEPS hw)); try discriminate; reflexivity.
Qed.

Lemma line_drives_direction_witness :
  calls_on (dir MOTOR_1)
    (trace (load_timer_interrupt
              (exec_timer_interrupt
                 (st_prep_line hw_ref (steps_1 (-100)) (f32_of_Z 1000))
                 (stepper_init hw_ref power_on))))
  = [pin_set (dir MOTOR_1)]
  /\ calls_on (enable_of MOTOR_1)
       (trace (load_timer_interrupt
                 (exec_timer_interrupt
                    (st_prep_line hw_ref (steps_1 (-100)) (f32_of_Z 1000))
                    (stepper_init hw_ref power_on))))
     = [pin_clear (enable_of MOTOR_1)].
Proof.
  refine (proj1 (line_drives_direction hw_ref (steps_1 (-100)) (f32_of_Z 1000)
                   (stepper_init hw_ref power_on)
                   (snd (st_prep_line hw_ref (steps_1 (-100)) (f32_of_Z 1000)
                           (sps (stepper_init hw_ref power_on))))
                   MOTOR_1 _ _) _ _).
  - reflexivity.
  - vm_compute. reflexivity.
  - vm_compute. discriminate.
  - left. reflexivity.
Defined.

(** *** Runs of the module *)

Lemma st__exec_move
    (g : stPrepSingleton.t -> stat_t * stPrepSingleton.t) (s : state) :
  st (_exec_move g s) = st s.
Proof.
  unfold _exec_move.
  destruct (stPrepSingleton.exec_state (sps s)); [reflexivity|].
  destruct (g (sps s)) as [status p].
  destruct status; cbv zeta; unfold _request_load_move; cbn [st with_sps];
    try destruct (_ =? 0); reflexivity.
Qed.

Lemma magic_sps__exec_move
    (g : stPrepSingleton.t -> stat_t * stPrepSingleton.t) (s : state) :
  stPrepSingleton.magic_start (snd (g (sps s))) = stPrepSingleton.magic_start (sps s) ->
  stPrepSingleton.magic_start (sps (_exec_move g s))
  = stPrepSingleton.magic_start (sps s).
Proof.
  unfold _exec_move.
  destruct (stPrepSingleton.exec_state (sps s)); [reflexivity|].
  destruct (g (sps s)) as [status p]. cbn [snd]. intros H.
  destruct status; cbv zeta; unfold _request_load_move; cbn [st with_sps];
    try destruct (_ =? 0); exact H.
Qed.

Lemma pulses__exec_move
    (g : stPrepSingleton.t -> stat_t * stPrepSingleton.t) (mt : motor) (s : state) :
  pulses mt (trace (_exec_move g s)) = pulses mt (trace s).
Proof.
  unfold _exec_move.
  destruct (stPrepSingleton.exec_state (sps s)); [reflexivity|].
  destruct (g (sps s)) as [status p].
  destruct status; cbv zeta; unfold _request_load_move; cbn [st with_sps];
    try destruct (_ =? 0); reflexivity.
Qed.

Lemma magic_st_load_motor (mt : motor) (v : Z) (s : state) :
  stRunSingleton.magic_start (st (load_motor mt v s))
  = stRunSingleton.magic_start (st s).
Proof.
  rewrite st_load_motor. cbv zeta.
  destruct (stPrepSingleton.counter_reset_flag (sps s)); reflexivity.
Qed.

Lemma magic_st__load_move (s : state) :
  stRunSingleton.magic_start (st (_load_move s))
  = stRunSingleton.magic_start (st s).
Proof.
  destruct (stPrepSingleton.move_type (sps s)) eqn:E.
  - rewrite (_load_move_null s E). reflexivity.
  - rewrite (_load_move_aline s E), st_load_done.
    unfold load_aline, st_enable. cbv zeta.
    rewrite !st_call. do 6 rewrite magic_st_load_motor. reflexivity.
  - rewrite (_load_move_dwell s E). reflexivity.
Qed.

Lemma magic_sps__load_move (s : state) :
  stPrepSingleton.magic_start (sps (_load_move s))
  = stPrepSingleton.magic_start (sps s).
Proof. rewrite sps__load_move. reflexivity. Qed.

Lemma magic_st_power_down (hw : config) (mt : motor) (s : state) :
  stRunSingleton.magic_start (st (power_down hw mt s))
  = stRunSingleton.magic_start (st s).
Proof. unfold power_down. destruct (_ =? 1); reflexivity. Qed.

Lemma magic_dda_end_of_move (hw : config) (s : state) :
  stRunSingleton.magic_start (st (dda_end_of_move hw s))
  = stRunSingleton.magic_start (st s)
  /\ stPrepSingleton.magic_start (sps (dda_end_of_move hw s))
     = stPrepSingleton.magic_start (sps s).
Proof.
  unfold dda_end_of_move. cbv zeta. split.
  - rewrite magic_st__load_move.
    change (stRunSingleton.magic_start (st (st_disable ?x)))
      with (stRunSingleton.magic_start (st x)).
    rewrite !magic_st_power_down. reflexivity.
  - rewrite magic_sps__load_move, sps_st_disable, !sps_power_down. reflexivity.
Qed.

Lemma magic_dda_timer_interrupt (hw : config) (s : state) :
  stRunSingleton.magic_start (st (dda_timer_interrupt hw s))
  = stRunSingleton.magic_start (st s)
  /\ stPrepSingleton.magic_start (sps (dda_timer_interrupt hw s))
     = stPrepSingleton.magic_start (sps s).
Proof.
  rewrite dda_timer_interrupt_eq. cbv zeta.
  rewrite st_call, sps_call.
  destruct (_ =? 0).
  - destruct (magic_dda_end_of_move hw
                (st_set_timer_ticks_downcount
                   (int32 (stRunSingleton.timer_ticks_downcount
                             (st (dda_front hw s)) - 1))
                   (dda_front hw s))) as (A & B).
    rewrite A, B, sps_st_set_timer_ticks_downcount, sps_dda_front.
    split; [|reflexivity].
    change (stRunSingleton.magic_start (st (st_set_timer_ticks_downcount ?v ?x)))
      with (stRunSingleton.magic_start (st x)).
    apply scalars_dda_front.
  - rewrite sps_st_set_timer_ticks_downcount, sps_dda_front.
    split; [|reflexivity].
    change (stRunSingleton.magic_start (st (st_set_timer_ticks_downcount ?v ?x)))
      with (stRunSingleton.magic_start (st x)).
    apply scalars_dda_front.
Qed.

Lemma magic_dwell_timer_interrupt (s : state) :
  stRunSingleton.magic_start (st (dwell_timer_interrupt s))
  = stRunSingleton.magic_start (st s)
  /\ stPrepSingleton.magic_start (sps (dwell_timer_interrupt s))
     = stPrepSingleton.magic_start (sps s).
Proof.
  unfold dwell_timer_interrupt. cbv zeta.
  destruct (_ =? 0).
  - rewrite magic_st__load_move, magic_sps__load_move. split; reflexivity.
  - split; reflexivity.
Qed.

Lemma magic_ok_enter (hw : config) (e : entry) (s : state) :
  planner_keeps_magic e ->
  match e with STEPPER_INIT => True | _ => magic_ok hw s end ->
  magic_ok hw (enter hw e s).
Proof.
  unfold magic_ok, st_get_st_magic, st_get_sps_magic.
  destruct e; cbn [enter planner_keeps_magic]; intros K M.
  - split; reflexivity.
  - destruct (magic_dda_timer_interrupt hw s) as (A & B).
    rewrite A, B. exact M.
  - destruct (magic_dwell_timer_interrupt s) as (A & B).
    rewrite A, B. exact M.
  - unfold load_timer_interrupt. cbv zeta.
    rewrite magic_st__load_move, magic_sps__load_move. exact M.
  - unfold exec_timer_interrupt. cbv zeta.
    rewrite st__exec_move, magic_sps__exec_move by apply K. exact M.
  - unfold st_request_exec_move.
    destruct (stPrepSingleton.exec_state (sps s)); exact M.
  - exact M.
  - exact M.
  - exact M.
Qed.

Lemma st_prep_line_keeps_magic (hw : config) (steps : motor -> spec_float)
    (microseconds : spec_float) (p : stPrepSingleton.t) :
  stPrepSingleton.magic_start (snd (st_prep_line hw steps microseconds p))
  = stPrepSingleton.magic_start p.
Proof.
  destruct (st_prep_line hw steps microseconds p) as [status p'] eqn:E.
  cbn [snd].
  destruct status;
    try (unfold st_prep_line in E;
         destruct (stPrepSingleton.exec_state p);
         [apply pair_snd_eq in E; subst p'; reflexivity|];
         destruct (negb (isfinite microseconds));
         [apply pair_snd_eq in E; subst p'; reflexivity|];
         destruct (float_ltb microseconds (EPSILON hw));
         [apply pair_snd_eq in E; subst p'; reflexivity|];
         discriminate E).
  apply (st_prep_line_ok hw steps microseconds p p' E).
Qed.

(** X18. The magic numbers stay in place. After [stepper_init], whatever
    interrupts and calls of the module follow, in any number and order (a
    second [stepper_init] included), [st_get_st_magic] and
    [st_get_sps_magic] both answer [MAGICNUM], provided the planner run by
    each exec interrupt leaves the magic number of the prep singleton
    alone. *)
Theorem magic_numbers_kept (hw : config) (l : list entry) (s : state) :
  Forall planner_keeps_magic l ->
  st_get_st_magic (run hw (STEPPER_INIT :: l) s) = MAGICNUM hw
  /\ st_get_sps_magic (run hw (STEPPER_INIT :: l) s) = MAGICNUM hw.
Proof.
  intros H.
  change (magic_ok hw (run hw l (enter hw STEPPER_INIT s))).
  assert (M : magic_ok hw (enter hw STEPPER_INIT s))
    by (apply magic_ok_enter; exact Logic.I).
  revert M. generalize (enter hw STEPPER_INIT s).
  induction H as [|e l He Hl IH]; intros x M; [exact M|].
  apply IH. apply magic_ok_enter; [exact He|].
  destruct e; try exact M. exact Logic.I.
Qed.

Lemma magic_numbers_kept_witness :
  st_get_st_magic
    (run hw_ref
       [STEPPER_INIT;
        EXEC_INTERRUPT (st_prep_line hw_ref (steps_1 10) (f32_of_Z 1000));
        LOAD_INTERRUPT; DDA_INTERRUPT; DDA_INTERRUPT;
        EXEC_INTERRUPT (fun p => (STAT_OK, st_prep_dwell hw_ref (f32_of_Z 1000) p));
        ST_DISABLE; DWELL_INTERRUPT] power_on) = MAGICNUM hw_ref
  /\ st_get_sps_magic
       (run hw_ref
          [STEPPER_INIT;
           EXEC_INTERRUPT (st_prep_line hw_ref (steps_1 10) (f32_of_Z 1000));
           LOAD_INTERRUPT; DDA_INTERRUPT; DDA_INTERRUPT;
           EXEC_INTERRUPT (fun p => (STAT_OK, st_prep_dwell hw_ref (f32_of_Z 1000) p));
           ST_DISABLE; DWELL_INTERRUPT] power_on) = MAGICNUM hw_ref.
Proof.
  apply (magic_numbers_kept hw_ref
           [EXEC_INTERRUPT (st_prep_line hw_ref (steps_1 10) (f32_of_Z 1000));
            LOAD_INTERRUPT; DDA_INTERRUPT; DDA_INTERRUPT;
            EXEC_INTERRUPT (fun p => (STAT_OK, st_prep_dwell hw_ref (f32_of_Z 1000) p));
            ST_DISABLE; DWELL_INTERRUPT] power_on).
  repeat (apply Forall_cons; [try exact Logic.I|]); try apply Forall_nil.
  - intros p. apply st_prep_line_keeps_magic.
  - intros p. reflexivity.
Defined.

Lemma pulses_enter (hw : config) (mt : motor) (e : entry) (s : state) :
  pulses mt (trace s) <= pulses mt (trace (enter hw e s))
  <= pulses mt (trace s) + (if is_dda_interrupt e then 1 else 0).
Proof.
  destruct e; cbn [enter is_dda_interrupt].
  - change (trace (stepper_init hw s)) with (trace s). lia.
  - destruct (step_isNull hw mt) eqn:Hw.
    + rewrite pulses_dda_timer_interrupt_null by exact Hw. lia.
    + rewrite pulses_dda_timer_interrupt by exact Hw.
      destruct (snd _); lia.
  - unfold dwell_timer_interrupt. cbv zeta.
    destruct (_ =? 0).
    + rewrite pulses__load_move, pulses_call by reflexivity.
      rewrite trace_st_set_timer_ticks_downcount, pulses_call by reflexivity. lia.
    + rewrite trace_st_set_timer_ticks_downcount, pulses_call by reflexivity. lia.
  - unfold load_timer_interrupt. cbv zeta.
    rewrite pulses__load_move, pulses_call by reflexivity. lia.
  - unfold exec_timer_interrupt. cbv zeta.
    rewrite pulses__exec_move, pulses_call by reflexivity. lia.
  - rewrite pulses_st_request_exec_move. lia.
  - unfold st_enable. cbv zeta. rewrite !pulses_call by reflexivity. lia.
  - rewrite pulses_st_disable. lia.
  - unfold st_set_microsteps. lia.
Qed.

(** X19. Step pulses come from DDA interrupts only, one at most per motor
    and interrupt. Over any sequence of interrupts and calls of the module,
    from any state, the number of step pulses of a motor never goes down
    and grows by no more than the number of DDA interrupts in the
    sequence: the load, exec and dwell interrupts, [stepper_init],
    [st_enable], [st_disable] and [st_request_exec_move] pulse no motor. *)
Theorem pulses_bounded_by_dda_interrupts
    (hw : config) (mt : motor) (l : list entry) (s : state) :
  pulses mt (trace s) <= pulses mt (trace (run hw l s))
  <= pulses mt (trace s) + dda_interrupts l.
Proof.
  revert s. unfold run, dda_interrupts.
  induction l as [|e l IH]; intros s; cbn [fold_left filter].
  - cbn [length]. lia.
  - specialize (IH (enter hw e s)).
    pose proof (pulses_enter hw mt e s) as P.
    destruct (is_dda_interrupt e); cbn [length]; lia.
Qed.

(** *** A line that is not replaced in time *)

(** X20. The loader does not look at who owns the prep buffer and never
    clears it: after an aline has been loaded, the buffer is handed back to
    the exec side still holding the line. If the move then runs to its end
    before an exec interrupt has restaged the buffer, the last tick loads
    the same line again: the down-counter is back at the staged
    [timer_ticks], [timer_ticks_X_substeps] and every increment are those
    of the first load, and the DDA timer has been stopped and started
    again. *)
Theorem loaded_line_runs_again (hw : config) (s : state) :
  stPrepSingleton.move_type (sps s) = MOVE_TYPE_ALINE ->
  0 < stPrepSingleton.timer_ticks (sps s) < 2 ^ 31 ->
  let T := stPrepSingleton.timer_ticks (sps s) in
  let s1 := _load_move s in
  let s2 := Nat.iter (Z.to_nat T) (dda_timer_interrupt hw) s1 in
  stPrepSingleton.exec_state (sps s1) = PREP_BUFFER_OWNED_BY_EXEC
  /\ stPrepSingleton.move_type (sps s1) = MOVE_TYPE_ALINE
  /\ stRunSingleton.timer_ticks_downcount (st s1) = T
  /\ stRunSingleton.timer_ticks_downcount (st s2) = T
  /\ stRunSingleton.timer_ticks_X_substeps (st s2)
     = stRunSingleton.timer_ticks_X_substeps (st s1)
  /\ (forall mt,
        stRunMotor.phase_increment (st_m s2 mt)
        = stRunMotor.phase_increment (st_m s1 mt))
  /\ sps s2 = sps s1
  /\ filter (on_timer dda_timer) (trace s2)
     = timer_start dda_timer :: timer_stop dda_timer
       :: repeat (timer_getInterruptCause dda_timer) (Z.to_nat T)
          ++ timer_start dda_timer :: filter (on_timer dda_timer) (trace s).
Proof.
  intros Hmove HT. cbv zeta.
  assert (P1 : sps (_load_move s)
               = sps_set_exec_state PREP_BUFFER_OWNED_BY_EXEC (sps s))
    by apply sps__load_move.
  assert (M1 : stPrepSingleton.move_type (sps (_load_move s)) = MOVE_TYPE_ALINE)
    by (rewrite P1; exact Hmove).
  assert (D1 : stRunSingleton.timer_ticks_downcount (st (_load_move s))
               = stPrepSingleton.timer_ticks (sps s)).
  { rewrite (downcount_load_aline s Hmove). apply int32_small. lia. }
  destruct (dda_move_end hw (_load_move s) _ HT D1) as (x & E & Px & Dx & Fx).
  destruct (dda_end_of_move_eq hw x) as (y & Ey & Py & Dy & Iy & Fy).
  assert (My : stPrepSingleton.move_type (sps y) = MOVE_TYPE_ALINE)
    by (rewrite Py, Px; exact M1).
  rewrite E, Ey.
  rewrite sps_call, trace_call, st_call. cbn [filter on_timer].
  split; [rewrite P1; reflexivity|].
  split; [exact M1|].
  split; [exact D1|].
  split.
  { rewrite (downcount_load_aline y My), Py, Px, P1.
    change (stPrepSingleton.timer_ticks
              (sps_set_exec_state PREP_BUFFER_OWNED_BY_EXEC (sps s)))
      with (stPrepSingleton.timer_ticks (sps s)).
    apply int32_small. lia. }
  split.
  { rewrite (X_substeps_load_aline y My), (X_substeps_load_aline s Hmove), Py, Px, P1.
    reflexivity. }
  split.
  { intros mt. rewrite st_m_call.
    rewrite (st_m_load_aline y mt My), (st_m_load_aline s mt Hmove), Py, Px, P1.
    reflexivity. }
  split.
  { rewrite sps__load_move, Py, Px, P1. reflexivity. }
  rewrite (on_timer__load_move_aline y My), Fy, Fx.
  rewrite (on_timer__load_move_aline s Hmove). reflexivity.
Qed.

Lemma loaded_line_runs_again_witness :
  stRunSingleton.timer_ticks_downcount
    (st (Nat.iter (Z.to_nat 200) (dda_timer_interrupt hw_ref)
           (_load_move (staged_reset 200 (stepper_init hw_ref power_on))))) = 200.
Proof.
  refine (proj1 (proj2 (proj2 (proj2
            (loaded_line_runs_again hw_ref
               (staged_reset 200 (stepper_init hw_ref power_on)) _ _))))).
  - reflexivity.
  - vm_compute. split; reflexivity.
Defined.

Lemma st_m_power_down (hw : config) (mt' : motor) (s : state) (mt : motor) :
  st_m (power_down hw mt' s) mt = st_m s mt.
Proof. unfold power_down. destruct (_ =? 1); reflexivity. Qed.

Lemma diagnostic__load_move (s : state) (mt : motor) :
  stRunMotor.step_count_diagnostic (st_m (_load_move s) mt)
  = stRunMotor.step_count_diagnostic (st_m s mt).
Proof.
  destruct (stPrepSingleton.move_type (sps s)) eqn:E.
  - rewrite (_load_move_null s E). reflexivity.
  - rewrite (st_m_load_aline s mt E). reflexivity.
  - rewrite (_load_move_dwell s E). reflexivity.
Qed.

Lemma diagnostic_dda_end_of_move (hw : config) (s : state) (mt : motor) :
  stRunMotor.step_count_diagnostic (st_m (dda_end_of_move hw s) mt)
  = stRunMotor.step_count_diagnostic (st_m s mt).
Proof.
  unfold dda_end_of_move. cbv zeta.
  rewrite diagnostic__load_move, st_m_st_disable.
  cbn [stRunMotor.step_count_diagnostic].
  rewrite !st_m_power_down. reflexivity.
Qed.

Lemma diagnostic_enter (hw : config) (e : entry) (s : state) (mt : motor) :
  stRunMotor.step_count_diagnostic (st_m (enter hw e s) mt)
  = match e with
    | STEPPER_INIT => 0
    | _ => stRunMotor.step_count_diagnostic (st_m s mt)
    end.
Proof.
  destruct e; cbn [enter].
  - destruct mt; reflexivity.
  - rewrite dda_timer_interrupt_eq. cbv zeta. rewrite st_m_call.
    destruct (_ =? 0).
    + rewrite diagnostic_dda_end_of_move, st_m_st_set_timer_ticks_downcount,
        st_m_dda_front. reflexivity.
    + rewrite st_m_st_set_timer_ticks_downcount, st_m_dda_front. reflexivity.
  - unfold dwell_timer_interrupt. cbv zeta.
    destruct (_ =? 0); [rewrite diagnostic__load_move|]; reflexivity.
  - unfold load_timer_interrupt. cbv zeta.
    rewrite diagnostic__load_move. reflexivity.
  - unfold exec_timer_interrupt. cbv zeta.
    unfold st_m. rewrite st__exec_move. reflexivity.
  - unfold st_request_exec_move.
    destruct (stPrepSingleton.exec_state (sps s)); reflexivity.
  - reflexivity.
  - rewrite st_m_st_disable. reflexivity.
  - reflexivity.
Qed.

(** X21. The diagnostic step counters never count. After [stepper_init],
    whatever interrupts and calls of the module follow, in any number and
    order and whatever the planner stages, [step_count_diagnostic] is 0
    for every motor, however many step pulses the motor has been given. *)
Theorem diagnostic_counters_stay_zero
    (hw : config) (l : list entry) (s : state) (mt : motor) :
  stRunMotor.step_count_diagnostic (st_m (run hw (STEPPER_INIT :: l) s) mt) = 0.
Proof.
  change (run hw (STEPPER_INIT :: l) s) with (run hw l (enter hw STEPPER_INIT s)).
  assert (Z0 : stRunMotor.step_count_diagnostic
                 (st_m (enter hw STEPPER_INIT s) mt) = 0)
    by apply diagnostic_enter.
  revert Z0. generalize (enter hw STEPPER_INIT s).
  induction l as [|e l IH]; intros x Z0; [exact Z0|].
  apply IH. rewrite diagnostic_enter. destruct e; (reflexivity || exact Z0).
Qed.

(** *** A dwell of no tick *)

Lemma dwell_ticks_below_zero (s : state) (n : nat) :
  stRunSingleton.timer_ticks_downcount (st s) = 0 ->
  Z.of_nat n <= 2 ^ 31 ->
  let sn := Nat.iter n dwell_timer_interrupt s in
  stRunSingleton.timer_ticks_downcount (st sn) = - Z.of_nat n
  /\ sps sn = sps s
  /\ trace sn = repeat (timer_getInterruptCause dwell_timer) n ++ trace s.
Proof.
  intros Hd. cbv zeta. induction n as [|n IH]; intros Hn.
  - cbn [Nat.iter nat_rect repeat app]. repeat split. rewrite Hd. reflexivity.
  - rewrite Nat.iter_succ.
    destruct IH as (D & P & F); [lia|].
    assert (Hne : int32 (stRunSingleton.timer_ticks_downcount
                           (st (Nat.iter n dwell_timer_interrupt s)) - 1) <> 0).
    { rewrite D, int32_small by lia. lia. }
    rewrite (dwell_tick_running _ Hne), D.
    rewrite downcount_st_set_timer_ticks_downcount,
      sps_st_set_timer_ticks_downcount, trace_st_set_timer_ticks_downcount,
      sps_call, trace_call, P, F.
    rewrite int32_small by lia.
    split; [lia|]. split; reflexivity.
Qed.

(** X22. A dwell staged with [timer_ticks = 0] does not end at once: the
    loader starts the dwell timer with the down-counter at 0 ([st_isbusy]
    answers false while the timer runs), and the ticks that follow take the
    counter below zero without ever finding it at zero. For every [n] up to
    2^31 the counter is [-n] after [n] ticks, and all the module has done is
    to acknowledge the [n] interrupts: the dwell timer has not been stopped
    and the loader has not been run again. *)
Theorem zero_tick_dwell_runs_on (s : state) (n : nat) :
  stPrepSingleton.move_type (sps s) = MOVE_TYPE_DWELL ->
  stPrepSingleton.timer_ticks (sps s) = 0 ->
  Z.of_nat n <= 2 ^ 31 ->
  let s1 := _load_move s in
  let sn := Nat.iter n dwell_timer_interrupt s1 in
  st_isbusy s1 = false
  /\ stRunSingleton.timer_ticks_downcount (st sn) = - Z.of_nat n
  /\ sps sn = sps s1
  /\ trace sn
     = repeat (timer_getInterruptCause dwell_timer) n
       ++ timer_setInterruptPending exec_timer :: timer_start dwell_timer
          :: trace s.
Proof.
  intros Hmove HT Hn. cbv zeta.
  assert (D1 : stRunSingleton.timer_ticks_downcount (st (_load_move s)) = 0).
  { rewrite (_load_move_dwell s Hmove), HT. reflexivity. }
  destruct (dwell_ticks_below_zero (_load_move s) n D1 Hn) as (D & P & F).
  split; [unfold st_isbusy; rewrite D1; reflexivity|].
  split; [exact D|]. split; [exact P|].
  rewrite F, (_load_move_dwell s Hmove). reflexivity.
Qed.

Lemma zero_tick_dwell_runs_on_witness :
  stRunSingleton.timer_ticks_downcount
    (st (Nat.iter 5 dwell_timer_interrupt
           (_load_move (staged_dwell 0 (stepper_init hw_ref power_on))))) = - 5.
Proof.
  refine (proj1 (proj2
            (zero_tick_dwell_runs_on
               (staged_dwell 0 (stepper_init hw_ref power_on)) 5 _ _ _))).
  - reflexivity.
  - reflexivity.
  - vm_compute. intros H. discriminate H.
Defined.
